(** * Google-Scrapper: the resilient scraping core

    A shallow embedding of the retry / CAPTCHA / deduplication / persistence
    core of [scraper.py] (keyword mode, class [PlaceScraper]) and
    [scraper_by_link.py] (link mode, classes [IncrementalSaver],
    [ProgressTracker], [ProxyManager], [LinkScraper]), with [config.py].

    Conventions of the embedding.
    - A Python [str] is a [string]; [str.lower] and [str.strip] act on the
      ASCII range, other bytes are left alone.
    - A Python [float] is a primitive binary64 [float]; an [int] is a [Z].
    - An [Exception] carries its message ([str(e)]), because the retry loops
      inspect that text.  A computation that may raise has type [result A].
    - The browser is not code of the repository: what a page shows after a
      navigation is a [Page] record of observations, and a browser session is
      a script of such responses ([Session]).  The second tab in which
      [scrape_emails_from_website] visits the website of a business is a
      [Site]; its fetches are events of the trace, like those of the tab of
      the results.
    - The file system is a finite map from file names to contents; every
      write made under a [try] comes with a flag telling whether it succeeds,
      since the code swallows the failure, and the writes of [save_place]
      with the point at which they fail, since what has reached the file by
      then stays there.
    - A run is a single thread of control: the [await]s are sequential steps,
      and the random delays and the log output have no part in the state.
    - [geopy.distance.geodesic], [urllib.parse.quote_plus],
      [urllib.parse.urljoin] and [email_pattern.findall] are library
      functions: they are parameters ([Libraries]).  So is Python's [float]
      on a string, which the functions that call it take as an argument, as
      [extract_emails_from_text] takes the pattern. *)

From Stdlib Require Import PrimFloat ZArith Lia Bool Ascii.
From Stdlib Require String.
From stdpp Require Import gmap strings list sorting.

Local Open Scope Z_scope.

(** ** Strings *)

Module Str.

(** [c.lower()] on one ASCII character. *)
Definition lower_ascii (c : ascii) : ascii :=
  let n := nat_of_ascii c in
  if ((65 <=? n)%nat && (n <=? 90)%nat)%bool then ascii_of_nat (n + 32) else c.

(** [s.lower()] *)
Fixpoint lower (s : string) : string :=
  match s with
  | EmptyString => EmptyString
  | String c s' => String (lower_ascii c) (lower s')
  end.

(** [s.startswith(p)] *)
Fixpoint starts_with (p s : string) : bool :=
  match p, s with
  | EmptyString, _ => true
  | String _ _, EmptyString => false
  | String a p', String b s' => if Ascii.eqb a b then starts_with p' s' else false
  end.

(** [needle in hay] *)
Fixpoint contains (needle hay : string) : bool :=
  if starts_with needle hay then true
  else match hay with
       | EmptyString => false
       | String _ hay' => contains needle hay'
       end.

(** [not s] for a string: the empty string is falsy. *)
Definition is_empty (s : string) : bool :=
  match s with EmptyString => true | _ => false end.

(** Whitespace removed by [str.strip()], in the ASCII range. *)
Definition is_space (c : ascii) : bool :=
  match c with
  | "009" | "010" | "011" | "012" | "013" | "028" | "029" | "030" | "031" | " " => true
  | _ => false
  end%char.

Fixpoint lstrip (s : string) : string :=
  match s with
  | EmptyString => EmptyString
  | String c s' => if is_space c then lstrip s' else s
  end.

Fixpoint rstrip (s : string) : string :=
  match s with
  | EmptyString => EmptyString
  | String c s' =>
      match rstrip s' with
      | EmptyString => if is_space c then EmptyString else String c EmptyString
      | r => String c r
      end
  end.

(** [s.strip()] *)
Definition strip (s : string) : string := rstrip (lstrip s).

(** [s.split(sep)] for a separator of one character: never an empty list. *)
Fixpoint split (sep : ascii) (s : string) : list string :=
  match s with
  | EmptyString => [EmptyString]
  | String c s' =>
      if Ascii.eqb c sep then EmptyString :: split sep s'
      else match split sep s' with
           | part :: rest => String c part :: rest
           | [] => [String c EmptyString]
           end
  end.

(** [sep.join(parts)] *)
Fixpoint join (sep : string) (parts : list string) : string :=
  match parts with
  | [] => EmptyString
  | [part] => part
  | part :: rest => part +:+ sep +:+ join sep rest
  end.

(** [c in s] for one character. *)
Fixpoint has_char (c : ascii) (s : string) : bool :=
  match s with
  | EmptyString => false
  | String c' s' => Ascii.eqb c' c || has_char c s'
  end.

End Str.

(** ** Exceptions *)

(** The result of a call that may raise [Exception(msg)]. *)
Inductive result (A : Type) : Type :=
| Ok (a : A)
| Raise (msg : string).
Arguments Ok {A} a.
Arguments Raise {A} msg.

Definition rbind {A B} (r : result A) (k : A -> result B) : result B :=
  match r with
  | Ok a => k a
  | Raise m => Raise m
  end.

Notation "'let!' x ':=' r 'in' k" := (rbind r (fun x => k))
  (at level 10, x name, r at level 200, k at level 200).

(** ** config.py *)

Module Config.

(** A Python dict literal, in insertion order. *)
Fixpoint dict_get {V} (k : string) (d : list (string * V)) : option V :=
  match d with
  | [] => None
  | (k', v) :: d' => if String.eqb k' k then Some v else dict_get k d'
  end.

(** [d[k]]: the value, or [KeyError(k)], whose text is the quoted key. *)
Definition subscript {V} (d : list (string * V)) (k : string) : result V :=
  match dict_get k d with
  | Some v => Ok v
  | None => Raise ("'" +:+ k +:+ "'")
  end.

Definition SELECTORS : list (string * string) :=
  [ ("search_box", "input#searchboxinput");
    ("search_button", "button#searchbox-searchbutton");
    ("results_container", "div[role='feed']");
    ("result_items", "div[role='feed'] > div > div > a");
    ("place_name", "h1.DUwDvf, h1.fontHeadlineLarge");
    ("place_address", "button[data-item-id='address'], button[data-tooltip='Copy address']");
    ("place_phone", "button[data-item-id*='phone'], button[aria-label*='Phone']");
    ("place_website", "a[data-item-id='authority'], a[aria-label*='Website']");
    ("place_category", "button[jsaction*='category'], button.DkEaL");
    ("place_rating", "div.F7nice > span[role='img'], span.ceNzKf, div.F7nice span[aria-hidden='true']");
    ("place_hours", "button[data-item-id*='oh'], div[aria-label*='Hours']");
    ("place_price", "span[aria-label*='Price'], span.mgr77e");
    ("place_status", "span[class*='ZDu9vd'], span.o0Svhf");
    ("captcha_indicator", "iframe[src*='recaptcha'], div[id*='captcha']") ].

Definition TIMING : list (string * float) :=
  [ ("page_load_timeout", 30000%float);
    ("navigation_timeout", 30000%float);
    ("min_delay", 1.5%float);
    ("max_delay", 3.5%float);
    ("scroll_delay", 0x1.999999999999ap-1%float);
    ("item_parse_delay", 0.5%float) ].

Definition GEO_TOLERANCE_METERS : float := 25%float.

End Config.

(** ** What the browser shows *)

(** What a page of a business website shows to
    [scrape_emails_from_website]: its text, its HTML, the [href] of its first
    contact link (link mode) and the [href]s of its contact, about and team
    links (keyword mode). *)
Record SitePage := {
  site_inner_text : result string;
  site_content : result string;
  site_contact_href : result (option string);
  site_links : result (list (result (option string)))
}.

(** The second tab in which a business website is visited: whether it opens,
    and what fetch number [k] (from 0) of the visit, of [url], shows. *)
Record Site := {
  site_new_page : result unit;
  site_goto : nat -> string -> result SitePage
}.

(** The observations the scrapers make on a page, one record per navigation.
    [query_selector sel] tells whether an element matches [sel];
    [inner_text sel] is the text of the first such element; [result_hrefs]
    are the [href] attributes of the result items once [scroll_results] has
    scrolled the feed.  [coordinates] stands for what [extract_coordinates]
    returns, [obs_maps_emails] for what [scrape_emails_from_google_maps]
    returns and the other [obs_] fields for what the other field extractors
    return: the text they parse is opaque to the core.  [site] is the web as
    the visit of the business website made from this page meets it. *)
Record Page := {
  page_url : string;
  query_selector : string -> result bool;
  page_content : result string;
  inner_text : string -> result string;
  wait_for_selector : string -> result unit;
  wait_for_load_state : string -> result unit;
  result_hrefs : result (list (result (option string)));
  coordinates : option float * option float;
  obs_address : option string;
  obs_phone : option string;
  obs_maps_emails : gset string;
  site : Site;
  obs_website : option string;
  obs_category : option string;
  obs_rating : option float;
  obs_hours : option string;
  obs_price_level : option string;
  obs_business_status : option string
}.

(** ** CaptchaGuard *)

Definition blocking_keywords : list string :=
  ["unusual traffic"; "automated requests"; "verify you"; "not a robot"].

(** The body of the [try] in [check_for_captcha]. *)
Definition check_for_captcha_body (page : Page) : result bool :=
  let! sel := Config.subscript Config.SELECTORS "captcha_indicator" in
  let! captcha := query_selector page sel in
  if captcha then Ok true
  else
    let! content := page_content page in
    if existsb (fun keyword => Str.contains keyword (Str.lower content)) blocking_keywords
    then Ok true
    else Ok false.

(** [check_for_captcha(page)]: an exception of the body is logged and the
    answer is [False].  Identical in both scrapers. *)
Definition check_for_captcha (page : Page) : bool :=
  match check_for_captcha_body page with
  | Ok b => b
  | Raise _ => false
  end.

(** The decision rule in the words of the specification, which speaks of a
    case-insensitive substring match.  These definitions do not use
    [Str.lower].  A capital Latin letter has a code from 65 to 90, and the small letter that
    goes with it has the code 32 above. *)
Definition is_capital (a : ascii) : bool :=
  (65 <=? nat_of_ascii a)%nat && (nat_of_ascii a <=? 90)%nat.

(** The same character, or a capital letter and its small letter. *)
Definition same_letter (a b : ascii) : bool :=
  Ascii.eqb a b
  || is_capital a && (nat_of_ascii b =? nat_of_ascii a + 32)%nat
  || is_capital b && (nat_of_ascii a =? nat_of_ascii b + 32)%nat.

(** Two strings of the same length that agree character by character up to
    letter case. *)
Fixpoint equal_up_to_case (a b : string) : bool :=
  match a, b with
  | EmptyString, EmptyString => true
  | String x a', String y b' => same_letter x y && equal_up_to_case a' b'
  | _, _ => false
  end.

(** [phrase] occurs in [content] up to letter case: some stretch of
    [content] equals it up to letter case. *)
Definition contains_up_to_case (phrase content : string) : Prop :=
  exists pre mid post,
    content = pre +:+ mid +:+ post /\ equal_up_to_case mid phrase = true.

Definition captcha_marker : string := "iframe[src*='recaptcha'], div[id*='captcha']".

(** ** Python values, dicts and sets *)

(** The values a place dict holds: [None], a [str] or a number. *)
Inductive value :=
| VNone
| VStr (s : string)
| VFloat (f : float).

(** A dict, in insertion order. *)
Definition Dict := list (string * value).

(** [a == b] on values. *)
Definition py_eq (a b : value) : bool :=
  match a, b with
  | VNone, VNone => true
  | VStr x, VStr y => String.eqb x y
  | VFloat x, VFloat y => PrimFloat.eqb x y
  | _, _ => false
  end.

(** A Python [set] of such values: its elements, without repetition. *)
Module PySet.

Definition t := list value.

Definition empty : t := [].

(** [x in s] *)
Definition mem (x : value) (s : t) : bool := existsb (py_eq x) s.

(** [s.add(x)] *)
Definition add (x : value) (s : t) : t := if mem x s then s else s ++ [x].

(** [set(l)] *)
Definition of_list (l : list value) : t := fold_left (fun s x => add x s) l empty.

(** [list(s)] *)
Definition to_list (s : t) : list value := s.

End PySet.

(** ** The durable state: files *)

(** What one write leaves in a file.  The [csv] and [json] encoders are
    library code: a CSV row and a JSON document are kept as the data that was
    encoded. *)
Inductive Line :=
| CsvHeader (fieldnames : list string)
| CsvRow (row : Dict)
| JsonLine (obj : Dict)
| ResumeJson (scraped_urls : list value) (timestamp : string)
| TextLine (text : string).

(** The file system: file name to content; a missing key is a missing file. *)
Abbreviation Disk := (gmap string (list Line)).

(** [open(fn, 'a').write(line)] *)
Definition append_line (fn : string) (line : Line) (d : Disk) : Disk :=
  <[fn := default [] (d !! fn) ++ [line]]> d.

(** [open(fn, 'w').write(line)] *)
Definition overwrite (fn : string) (line : Line) (d : Disk) : Disk :=
  <[fn := [line]]> d.

(** [os.path.exists(fn)] *)
Definition path_exists (fn : string) (d : Disk) : bool :=
  match d !! fn with Some _ => true | None => false end.

(** [open(fn, 'a')] with nothing written: a missing file is created empty. *)
Definition touch (fn : string) (d : Disk) : Disk :=
  match d !! fn with
  | Some _ => d
  | None => <[fn := []]> d
  end.

(** ** IncrementalSaver (the persistence ledger) *)

Record IncrementalSaver := {
  base_filename : string;
  csv_initialized : bool;
  scraped_urls : PySet.t
}.

Definition csv_filename (self : IncrementalSaver) : string := base_filename self +:+ ".csv".
Definition jsonl_filename (self : IncrementalSaver) : string := base_filename self +:+ ".jsonl".
Definition resume_filename (self : IncrementalSaver) : string := base_filename self +:+ "_resume.json".
Definition failed_filename (self : IncrementalSaver) : string := base_filename self +:+ "_failed.txt".

(** [IncrementalSaver(link_type)], created at the time whose
    [strftime("%Y%m%d_%H%M%S")] is [timestamp]. *)
Definition IncrementalSaver_init (link_type timestamp : string) : IncrementalSaver :=
  {| base_filename := "results_link_" +:+ link_type +:+ "_" +:+ timestamp;
     csv_initialized := false;
     scraped_urls := PySet.empty |}.

Definition set_scraped_urls (urls : PySet.t) (self : IncrementalSaver) : IncrementalSaver :=
  {| base_filename := base_filename self;
     csv_initialized := csv_initialized self;
     scraped_urls := urls |}.

(** The ledger object together with the files it writes. *)
Record Ledger := {
  saver : IncrementalSaver;
  disk : Disk
}.

Definition with_disk (d : Disk) (l : Ledger) : Ledger := {| saver := saver l; disk := d |}.

(** Where the CSV block of [save_place] fails: at [open], at
    [writeheader], which runs only for a new file, or at [writerow]. *)
Inductive CsvFailure :=
| CsvOpenFails
| CsvHeaderFails
| CsvRowFails.

(** Where an append of one line fails: at [open] or at [write]. *)
Inductive AppendFailure :=
| AppendOpenFails
| AppendWriteFails.

(** Where the rewrite of the resume file fails: at [open], or in [json.dump]
    after [partial] has reached the file that [open(fn, 'w')] has emptied. *)
Inductive RewriteFailure :=
| RewriteOpenFails
| RewriteDumpFails (partial : string).

(** What the file system does to the writes of one [save_place] call.  Each
    of the three blocks either runs to its end ([csv_ok], [jsonl_ok],
    [resume_ok]) or raises at the point its failure field names, which is
    read only then; [now] is the clock. *)
Record IO := {
  csv_ok : bool;
  jsonl_ok : bool;
  resume_ok : bool;
  now : string;
  csv_failure : CsvFailure;
  jsonl_failure : AppendFailure;
  resume_failure : RewriteFailure
}.

(** What a rewrite that fails in [json.dump] leaves in the file. *)
Definition truncated (partial : string) : list Line :=
  if Str.is_empty partial then [] else [TextLine partial].

(** [save_resume_state()]: rewrite the resume file in full; a failure is
    logged and swallowed.  [open(fn, 'w')] empties the file before anything
    is written. *)
Definition save_resume_state (io : IO) (l : Ledger) : Ledger :=
  if resume_ok io
  then with_disk (overwrite (resume_filename (saver l))
                    (ResumeJson (PySet.to_list (scraped_urls (saver l))) (now io))
                    (disk l)) l
  else
    match resume_failure io with
    | RewriteOpenFails => l
    | RewriteDumpFails partial =>
        with_disk (<[resume_filename (saver l) := truncated partial]> (disk l)) l
    end.

(** [save_place(place)] *)
Definition save_place (io : IO) (place : Dict) (l : Ledger) : Ledger :=
  (* Save to CSV *)
  let l1 :=
    let fn := csv_filename (saver l) in
    let file_exists := path_exists fn (disk l) in
    (* after [writeheader], which runs if the file was not there *)
    let d := if file_exists then disk l
             else append_line fn (CsvHeader (map fst place)) (disk l) in
    if csv_ok io then with_disk (append_line fn (CsvRow place) d) l
    else
      match csv_failure io with
      | CsvOpenFails => l
      | CsvHeaderFails => with_disk (touch fn (disk l)) l
      | CsvRowFails => with_disk d l
      end in
  (* Save to JSONL *)
  let l2 :=
    let fn := jsonl_filename (saver l1) in
    if jsonl_ok io
    then with_disk (append_line fn (JsonLine place) (disk l1)) l1
    else
      match jsonl_failure io with
      | AppendOpenFails => l1
      | AppendWriteFails => with_disk (touch fn (disk l1)) l1
      end in
  (* Track scraped URL *)
  match Config.dict_get "google_maps_url" place with
  | Some url =>
      save_resume_state io
        {| saver := set_scraped_urls (PySet.add url (scraped_urls (saver l2))) (saver l2);
           disk := disk l2 |}
  | None => l2
  end.

Definition newline : string := String "010"%char EmptyString.

(** [save_failed_url(url, error)]; [ok] tells whether the append succeeds.
    An append that fails is one that fails at [open], which leaves the file
    as it was: inside the [with] block there is only the one [write] of a
    formatted string. *)
Definition save_failed_url (ok : bool) (url error : string) (l : Ledger) : Ledger :=
  if ok
  then with_disk (append_line (failed_filename (saver l))
                    (TextLine (url +:+ " | Error: " +:+ error +:+ newline)) (disk l)) l
  else l.

(** [load_resume_state()]; [ok] tells whether the file can be opened and read.
    Anything but the document [save_resume_state] writes fails to load. *)
Definition load_resume_state (ok : bool) (self : IncrementalSaver) (d : Disk) : PySet.t :=
  match d !! resume_filename self with
  | Some content =>
      if ok then
        match content with
        | [ResumeJson urls _] => PySet.of_list urls
        | _ => PySet.empty
        end
      else PySet.empty
  | None => PySet.empty
  end.

(** ** Library functions the scrapers call *)

(** [geopy.distance.geodesic(p, q).meters], [urllib.parse.quote_plus],
    [email_pattern.findall] of the [re] module and [urllib.parse.urljoin]. *)
Class Libraries := {
  geodesic : float * float -> float * float -> float;
  quote_plus : string -> string;
  email_findall : string -> list string;
  urljoin : string -> string -> string
}.

(** ** Records built by [parse_place_details] *)

(** The [place_data] dict literal; one field per key. *)
Record Place := {
  name : string;
  address : option string;
  latitude : option float;
  longitude : option float;
  phone : option string;
  email : option string;
  website : option string;
  google_maps_url : string;
  category : option string;
  rating : option float;
  hours : option string;
  price_level : option string;
  business_status : option string;
  scraped_at : string
}.

(** [', '.join(sorted(all_emails)) if all_emails else None] *)
Definition email_string (all_emails : gset string) : option string :=
  if decide (all_emails = ∅) then None
  else Some (Str.join ", " (merge_sort String.le (elements all_emails))).

Definition opt_str (o : option string) : value :=
  match o with Some s => VStr s | None => VNone end.

Definition opt_float (o : option float) : value :=
  match o with Some f => VFloat f | None => VNone end.

(** The dict itself, as handed to [IncrementalSaver.save_place]. *)
Definition to_dict (p : Place) : Dict :=
  [ ("name", VStr (name p));
    ("address", opt_str (address p));
    ("latitude", opt_float (latitude p));
    ("longitude", opt_float (longitude p));
    ("phone", opt_str (phone p));
    ("email", opt_str (email p));
    ("website", opt_str (website p));
    ("google_maps_url", VStr (google_maps_url p));
    ("category", opt_str (category p));
    ("rating", opt_float (rating p));
    ("hours", opt_str (hours p));
    ("price_level", opt_str (price_level p));
    ("business_status", opt_str (business_status p));
    ("scraped_at", VStr (scraped_at p)) ].

(** ** Deduplicator *)

(** Truth value of an [Optional[float]]: [None] and zero are falsy. *)
Definition float_truthy (x : option float) : bool :=
  match x with
  | None => false
  | Some f => negb (PrimFloat.eqb f 0%float)
  end.

Definition float_or_zero (x : option float) : float :=
  match x with Some f => f | None => 0%float end.

Section Deduplicator.
Context {libs : Libraries}.

(** The [for place in self.scraped_places] loop of [is_duplicate]; [true]
    is the early [return True]. *)
Fixpoint scan_places (name0 : string) (lat lon : float) (places : list Place) : bool :=
  match places with
  | [] => false
  | place :: rest =>
      if String.eqb (name place) name0 then true
      else if float_truthy (latitude place) && float_truthy (longitude place) then
        let distance :=
          geodesic (lat, lon)
                   (float_or_zero (latitude place), float_or_zero (longitude place)) in
        if PrimFloat.ltb distance Config.GEO_TOLERANCE_METERS then true
        else scan_places name0 lat lon rest
      else scan_places name0 lat lon rest
  end.

(** [is_duplicate(name, lat, lon)] on the two attributes it uses; the same
    text in [PlaceScraper] and [LinkScraper].  Returns the answer and the new
    [seen_places]. *)
Definition is_duplicate (name0 : string) (lat lon : option float)
    (seen_places : gset string) (scraped_places : list Place) : bool * gset string :=
  if Str.is_empty name0 then (true, seen_places)
  else if bool_decide (name0 ∈ seen_places) then (true, seen_places)
  else if float_truthy lat && float_truthy lon
          && scan_places name0 (float_or_zero lat) (float_or_zero lon) scraped_places
  then (true, seen_places)
  else (false, {[ name0 ]} ∪ seen_places).

End Deduplicator.

(** ** ProxyManager *)

Record Proxy := {
  server : string;
  credentials : option (string * string)
}.

Record ProxyManager := {
  proxies : list Proxy;
  current_index : nat
}.

(** [get_next_proxy()] *)
Definition get_next_proxy (self : ProxyManager) : option Proxy * ProxyManager :=
  match proxies self with
  | [] => (None, self)
  | _ :: _ =>
      (nth_error (proxies self) (current_index self),
       {| proxies := proxies self;
          current_index := (current_index self + 1) mod length (proxies self) |})
  end.

(** ** ProgressTracker *)

Record ProgressTracker := {
  total : Z;
  success : Z;
  failed : Z;
  current : Z
}.

Definition increment_success (self : ProgressTracker) : ProgressTracker :=
  {| total := total self; success := success self + 1;
     failed := failed self; current := current self + 1 |}.

Definition increment_failed (self : ProgressTracker) : ProgressTracker :=
  {| total := total self; success := success self;
     failed := failed self + 1; current := current self + 1 |}.

(** ** Browser sessions *)

(** A scripted browser session.  [tick] counts the interactions made so far
    in the session, so that a second visit of a link may answer differently. *)
Record Session := {
  setup_browser : result unit;
  goto : nat -> string -> result Page;
  go_back : nat -> result unit;
  file_io : nat -> IO;
  failed_io : nat -> bool;
  clock_now : nat -> string
}.

(** The world of one run: whether the resume file can be read at start, and
    the session met by each attempt, which may depend on the proxy. *)
Record World := {
  resume_readable : bool;
  session : nat -> option Proxy -> Session
}.

(** What a run does to the outside, in order.  [EvGoto] is a fetch in the
    tab of the results, [EvSiteGoto] a fetch of a business website in the
    second tab. *)
Inductive Event :=
| EvSession (attempt : nat) (proxy : option Proxy)
| EvGoto (url : string)
| EvSiteGoto (url : string)
| EvGoBack
| EvAttemptFailed (retry_count : Z) (msg : string)
| EvTeardown
| EvSleep.

(** No second tab can be opened. *)
Definition no_site : Site :=
  {| site_new_page := Raise "Target closed"; site_goto := fun _ _ => Raise "Target closed" |}.

Definition blank_page : Page :=
  {| page_url := "about:blank";
     query_selector := fun _ => Ok false;
     page_content := Ok "<html><head></head><body></body></html>";
     inner_text := fun _ => Raise "no element";
     wait_for_selector := fun _ => Raise "Timeout";
     wait_for_load_state := fun _ => Ok tt;
     result_hrefs := Ok [];
     coordinates := (None, None);
     obs_address := None; obs_phone := None; obs_maps_emails := ∅; site := no_site;
     obs_website := None; obs_category := None; obs_rating := None;
     obs_hours := None; obs_price_level := None; obs_business_status := None |}.

(** [extract_text(page, selector)]: the stripped text of the first match, or
    [None]; exceptions are swallowed. *)
Definition extract_text (page : Page) (selector : string) : option string :=
  match query_selector page selector with
  | Ok true =>
      match inner_text page selector with
      | Ok text => Some (Str.strip text)
      | Raise _ => None
      end
  | _ => None
  end.

(** [if not name]: [None] and the empty string are falsy. *)
Definition str_truthy (o : option string) : bool :=
  match o with
  | Some s => negb (Str.is_empty s)
  | None => false
  end.

(** [SELECTORS[key]] for the keys the scrapers use, all of which are in the
    table. *)
Definition selector (key : string) : string :=
  default EmptyString (Config.dict_get key Config.SELECTORS).

(** How the body of a [try] block ended. *)
Inductive outcome :=
| Returned
| Raised (msg : string).

(** ** scraper_by_link.py: LinkScraper *)

Module ScraperByLink.

(** The scraper object, the ledger it writes through, and the page handle of
    the open session.  [tick] and [trace] are bookkeeping of the embedding:
    the number of interactions with the session and the visible actions. *)
Record LinkScraper := {
  maps_url : string;
  max_results : Z;
  skip_websites : bool;
  proxy_manager : ProxyManager;
  ledger : Ledger;
  progress : ProgressTracker;
  scraped_places : list Place;
  seen_places : gset string;
  page : Page;
  tick : nat;
  trace : list Event
}.

Definition set_proxy_manager (x : ProxyManager) (s : LinkScraper) : LinkScraper :=
  {| maps_url := maps_url s; max_results := max_results s; skip_websites := skip_websites s;
     proxy_manager := x; ledger := ledger s; progress := progress s;
     scraped_places := scraped_places s; seen_places := seen_places s;
     page := page s; tick := tick s; trace := trace s |}.

Definition set_ledger (x : Ledger) (s : LinkScraper) : LinkScraper :=
  {| maps_url := maps_url s; max_results := max_results s; skip_websites := skip_websites s;
     proxy_manager := proxy_manager s; ledger := x; progress := progress s;
     scraped_places := scraped_places s; seen_places := seen_places s;
     page := page s; tick := tick s; trace := trace s |}.

Definition set_progress (x : ProgressTracker) (s : LinkScraper) : LinkScraper :=
  {| maps_url := maps_url s; max_results := max_results s; skip_websites := skip_websites s;
     proxy_manager := proxy_manager s; ledger := ledger s; progress := x;
     scraped_places := scraped_places s; seen_places := seen_places s;
     page := page s; tick := tick s; trace := trace s |}.

Definition set_scraped_places (x : list Place) (s : LinkScraper) : LinkScraper :=
  {| maps_url := maps_url s; max_results := max_results s; skip_websites := skip_websites s;
     proxy_manager := proxy_manager s; ledger := ledger s; progress := progress s;
     scraped_places := x; seen_places := seen_places s;
     page := page s; tick := tick s; trace := trace s |}.

Definition set_seen_places (x : gset string) (s : LinkScraper) : LinkScraper :=
  {| maps_url := maps_url s; max_results := max_results s; skip_websites := skip_websites s;
     proxy_manager := proxy_manager s; ledger := ledger s; progress := progress s;
     scraped_places := scraped_places s; seen_places := x;
     page := page s; tick := tick s; trace := trace s |}.

Definition set_page (x : Page) (s : LinkScraper) : LinkScraper :=
  {| maps_url := maps_url s; max_results := max_results s; skip_websites := skip_websites s;
     proxy_manager := proxy_manager s; ledger := ledger s; progress := progress s;
     scraped_places := scraped_places s; seen_places := seen_places s;
     page := x; tick := tick s; trace := trace s |}.

(** One more interaction, leaving [ev] in the trace. *)
Definition step (ev : list Event) (s : LinkScraper) : LinkScraper :=
  {| maps_url := maps_url s; max_results := max_results s; skip_websites := skip_websites s;
     proxy_manager := proxy_manager s; ledger := ledger s; progress := progress s;
     scraped_places := scraped_places s; seen_places := seen_places s;
     page := page s; tick := S (tick s); trace := trace s ++ ev |}.

(** A new browser, context and page: the handle shows a blank page. *)
Definition new_session (attempt_no : nat) (proxy : option Proxy) (s : LinkScraper)
    : LinkScraper :=
  {| maps_url := maps_url s; max_results := max_results s; skip_websites := skip_websites s;
     proxy_manager := proxy_manager s; ledger := ledger s; progress := progress s;
     scraped_places := scraped_places s; seen_places := seen_places s;
     page := blank_page; tick := 0%nat;
     trace := trace s ++ [EvSession attempt_no proxy] |}.

(** [LinkScraper(maps_url, max_results, ..., proxy_manager, saver, progress)] *)
Definition init (url : string) (max : Z) (pm : ProxyManager) (l : Ledger)
    (pt : ProgressTracker) (skip : bool) : LinkScraper :=
  {| maps_url := url; max_results := max; skip_websites := skip;
     proxy_manager := pm; ledger := l; progress := pt;
     scraped_places := []; seen_places := ∅;
     page := blank_page; tick := 0%nat; trace := [] |}.

(** [page.goto(url, ...)]: on success the handle shows the new page. *)
Definition page_goto (sess : Session) (url : string) (s : LinkScraper)
    : result unit * LinkScraper :=
  match goto sess (tick s) url with
  | Ok p => (Ok tt, set_page p (step [EvGoto url] s))
  | Raise m => (Raise m, step [EvGoto url] s)
  end.

(** [page.go_back(...)] *)
Definition page_go_back (sess : Session) (s : LinkScraper) : result unit * LinkScraper :=
  (go_back sess (tick s), step [EvGoBack] s).

(** [detect_link_type(url)] *)
Definition detect_link_type (url : string) : string :=
  if Str.contains "/search/" url || Str.contains "search?" url then "search"
  else if Str.contains "/place/" url then "place"
  else if Str.contains "goo.gl" url || Str.contains "maps.app.goo.gl" url then "short"
  else "unknown".

(** [resolve_short_link(page, short_url)] *)
Definition resolve_short_link (sess : Session) (short_url : string) (s : LinkScraper)
    : string * LinkScraper :=
  match page_goto sess short_url s with
  | (Ok _, s1) => (page_url (page s1), s1)
  | (Raise _, s1) => (short_url, s1)
  end.

(** [navigate_to_link(page)] *)
Definition navigate_to_link (sess : Session) (s : LinkScraper) : bool * LinkScraper :=
  let url := maps_url s in
  let link_type := detect_link_type url in
  let '(url, link_type, s) :=
    if String.eqb link_type "short"
    then let '(url', s') := resolve_short_link sess url s in
         (url', detect_link_type url', s')
    else (url, link_type, s) in
  let url :=
    if negb (Str.contains "?hl=" url) && negb (Str.contains "&hl=" url)
    then url +:+ (if Str.contains "?" url then "&" else "?") +:+ "hl=en"
    else url in
  match page_goto sess url s with
  | (Raise _, s1) => (false, s1)
  | (Ok _, s1) =>
      if check_for_captcha (page s1) then (false, s1)
      else if String.eqb link_type "search" then
        match wait_for_selector (page s1) (selector "results_container") with
        | Ok _ => (true, s1)
        | Raise _ => (false, s1)
        end
      else if String.eqb link_type "place" then
        match wait_for_selector (page s1) (selector "place_name") with
        | Ok _ => (true, s1)
        | Raise _ => (false, s1)
        end
      else (true, s1)
  end.

(** The [for element in result_elements] loop of [collect_results]. *)
Fixpoint collect_hrefs (elements : list (result (option string))) : list string :=
  match elements with
  | [] => []
  | Ok (Some href) :: rest =>
      if negb (Str.is_empty href) && Str.contains "/maps/place/" href
      then href :: collect_hrefs rest
      else collect_hrefs rest
  | _ :: rest => collect_hrefs rest
  end.

(** [collect_results(page)] *)
Definition collect_results (s : LinkScraper) : list string :=
  match result_hrefs (page s) with
  | Ok elements => collect_hrefs elements
  | Raise _ => []
  end.

(** The [while scroll_count < max_scrolls] loop of [scroll_results], by
    recursion on [max_scrolls - scroll_count].  [counts k] is what scroll
    number [k] (from 0) gives: the number of result items afterwards, or the
    exception of the scroll or of the count.  The value is the number of
    scrolls made. *)
Fixpoint scroll_loop (remaining : nat) (counts : nat -> result nat)
    (scroll_count previous_count no_change_count : nat) : nat :=
  match remaining with
  | O => scroll_count
  | S remaining' =>
      match counts scroll_count with
      | Raise _ => S scroll_count
      | Ok current_count =>
          if (current_count =? previous_count)%nat then
            let no_change_count := S no_change_count in
            if (3 <=? no_change_count)%nat then S scroll_count
            else scroll_loop remaining' counts (S scroll_count) current_count
                   no_change_count
          else scroll_loop remaining' counts (S scroll_count) current_count 0
      end
  end.

Definition max_scrolls : nat := 50.

(** [scroll_results(page)]: the number of scrolls it makes. *)
Definition scroll_results (page : Page) (counts : nat -> result nat) : nat :=
  match query_selector page (selector "results_container") with
  | Ok true => scroll_loop max_scrolls counts 0 0 0
  | _ => 0%nat
  end.

(** [extract_coordinates(page)] on the URL of the page and on the answer
    [lat_lon] of the script it evaluates in the page; [float] is Python's
    conversion of a string.  The same text in [PlaceScraper]. *)
Definition extract_coordinates (float : string -> result PrimFloat.float) (url : string)
    (lat_lon : result (option (PrimFloat.float * PrimFloat.float)))
    : option PrimFloat.float * option PrimFloat.float :=
  let body : result (option PrimFloat.float * option PrimFloat.float) :=
    let! from_url :=
      if Str.has_char "@" url then
        let! after_at :=
          match nth_error (Str.split "@" url) 1 with
          | Some part => Ok part
          | None => Raise "list index out of range"
          end in
        let coords_part := Str.split "," after_at in
        if (2 <=? length coords_part)%nat then
          let! lat := float (nth 0 coords_part EmptyString) in
          let! lon := float (nth 1 coords_part EmptyString) in
          Ok (Some (lat, lon))
        else Ok None
      else Ok None in
    match from_url with
    | Some (lat, lon) => Ok (Some lat, Some lon)
    | None =>
        let! lat_lon := lat_lon in
        match lat_lon with
        | Some (lat, lon) =>
            if float_truthy (Some lat) && float_truthy (Some lon)
            then Ok (Some lat, Some lon)
            else Ok (None, None)
        | None => Ok (None, None)
        end
    end in
  match body with
  | Ok r => r
  | Raise _ => (None, None)
  end.

Definition exclude_patterns : list string :=
  [ "example.com"; "test.com"; "domain.com";
    "email.com"; "yourdomain.com"; "yoursite.com";
    "sentry.io"; "wixpress.com"; "schema.org";
    ".png"; ".jpg"; ".jpeg"; ".gif"; ".svg"; ".webp";
    "test@"; "demo@"; "sample@"; "noreply@"; "no-reply@";
    "admin@example"; "user@example"; "info@example";
    "@test."; "@demo."; "@sample."; "@placeholder.";
    "placeholder@"; "fake@"; "dummy@" ].

(** [extract_emails_from_text(text)]; [findall] is [email_pattern.findall]. *)
Definition extract_emails_from_text (findall : string -> list string) (text : string)
    : gset string :=
  if Str.is_empty text then ∅
  else
    list_to_set
      (List.filter
         (fun email =>
            let email_lower := Str.lower email in
            negb (existsb (fun pattern => Str.contains pattern email_lower)
                    exclude_patterns)
            && negb (existsb (fun prefix => Str.starts_with prefix email_lower)
                       ["test"; "demo"; "sample"; "fake"; "dummy"]))
         (findall text)).

(** Events are added to the trace. *)
Definition note (ev : list Event) (s : LinkScraper) : LinkScraper :=
  {| maps_url := maps_url s; max_results := max_results s; skip_websites := skip_websites s;
     proxy_manager := proxy_manager s; ledger := ledger s; progress := progress s;
     scraped_places := scraped_places s; seen_places := seen_places s;
     page := page s; tick := tick s; trace := trace s ++ ev |}.

Section WithLibraries.
Context {libs : Libraries}.

(** The inner [try] of [scrape_emails_from_website], entered when the home
    page gave no address: the contact page, if there is a link to one. *)
Definition contact_page_emails (web : Site) (website_url : string) (home : SitePage)
    : gset string * list Event :=
  match site_contact_href home with
  | Ok (Some href) =>
      if negb (Str.is_empty href) && negb (Str.starts_with "mailto:" href) then
        let href := if Str.starts_with "/" href then urljoin website_url href else href in
        if Str.starts_with "http" href then
          match site_goto web 1 href with
          | Ok contact =>
              match site_inner_text contact with
              | Ok contact_text =>
                  (extract_emails_from_text email_findall contact_text, [EvSiteGoto href])
              | Raise _ => (∅, [EvSiteGoto href])
              end
          | Raise _ => (∅, [EvSiteGoto href])
          end
        else (∅, [])
      else (∅, [])
  | _ => (∅, [])
  end.

(** [scrape_emails_from_website(website_url, context)]: the addresses found
    and the fetches made in the second tab.  Every exception is caught. *)
Definition scrape_emails_from_website (web : Site) (website_url : string)
    : gset string * list Event :=
  if Str.is_empty website_url || Str.contains "google.com" website_url then (∅, [])
  else
    match site_new_page web with
    | Raise _ => (∅, [])
    | Ok _ =>
        match site_goto web 0 website_url with
        | Raise _ => (∅, [EvSiteGoto website_url])
        | Ok home =>
            match site_inner_text home with
            | Raise _ => (∅, [EvSiteGoto website_url])
            | Ok page_text =>
                match site_content home with
                | Raise _ => (∅, [EvSiteGoto website_url])
                | Ok page_html =>
                    let emails := extract_emails_from_text email_findall page_text
                                  ∪ extract_emails_from_text email_findall page_html in
                    if decide (emails = ∅) then
                      let '(emails, fetched) :=
                        contact_page_emails web website_url home in
                      (emails, EvSiteGoto website_url :: fetched)
                    else (emails, [EvSiteGoto website_url])
                end
            end
        end
    end.

(** [parse_place_details(page, context)]; [now] is the clock read for
    [scraped_at].  Every exception of the body is caught and gives [None]. *)
Definition parse_place_details (now : string) (s : LinkScraper)
    : option Place * LinkScraper :=
  match Config.subscript Config.TIMING "item_parse_delay" with
  | Raise _ => (None, s)
  | Ok _ =>
      (* wait_for_load_state('domcontentloaded') in its own try: passed over *)
      if check_for_captcha (page s) then (None, s)
      else
        let place_url := page_url (page s) in
        let name0 := extract_text (page s) (selector "place_name") in
        if negb (str_truthy name0) then (None, s)
        else
          let name1 := default EmptyString name0 in
          let '(lat, lon) := coordinates (page s) in
          let '(dup, seen) := is_duplicate name1 lat lon (seen_places s) (scraped_places s) in
          let s1 := set_seen_places seen s in
          if dup then (None, s1)
          else
            let emails_from_maps := obs_maps_emails (page s) in
            let website := obs_website (page s) in
            let '(emails_from_website, fetched) :=
              if str_truthy website && negb (skip_websites s1)
              then scrape_emails_from_website (site (page s)) (default EmptyString website)
              else (∅, []) in
            (Some {| name := name1;
                     address := obs_address (page s);
                     latitude := lat;
                     longitude := lon;
                     phone := obs_phone (page s);
                     email := email_string (emails_from_maps ∪ emails_from_website);
                     website := website;
                     google_maps_url := place_url;
                     category := obs_category (page s);
                     rating := obs_rating (page s);
                     hours := obs_hours (page s);
                     price_level := obs_price_level (page s);
                     business_status := obs_business_status (page s);
                     scraped_at := now |}, note fetched s1)
  end.

(** The three statements after a successful parse: save, append, count. *)
Definition place_scraped (sess : Session) (place_data : Place) (s : LinkScraper)
    : LinkScraper :=
  let s1 := set_ledger (save_place (file_io sess (tick s)) (to_dict place_data) (ledger s))
              (step [] s) in
  let s2 := set_scraped_places (scraped_places s1 ++ [place_data]) s1 in
  set_progress (increment_success (progress s2)) s2.

(** The three statements of a given-up item: failure log, count. *)
Definition place_failed (sess : Session) (link error_msg : string) (s : LinkScraper)
    : LinkScraper :=
  let s1 := set_ledger (save_failed_url (failed_io sess (tick s)) link error_msg (ledger s))
              (step [] s) in
  set_progress (increment_failed (progress s1)) s1.

(** The body of the [try] of the per-place retry loop: how it ended, the
    value of [place_data] afterwards, and the state. *)
Definition try_place (sess : Session) (link : string) (s : LinkScraper)
    : outcome * option Place * LinkScraper :=
  match page_goto sess link s with
  | (Raise m, s1) => (Raised m, None, s1)
  | (Ok _, s1) =>
      if check_for_captcha (page s1)
      then (Raised "CAPTCHA detected, rotating proxy", None, s1)
      else
        match parse_place_details (clock_now sess (tick s1)) s1 with
        | (None, s2) => (Raised "Failed to parse place data", None, s2)
        | (Some place_data, s2) =>
            let s3 := place_scraped sess place_data s2 in
            match page_go_back sess s3 with
            | (Ok _, s4) => (Returned, Some place_data, s4)
            | (Raise m, s4) => (Raised m, Some place_data, s4)
            end
        end
  end.

Definition max_place_retry : nat := 2.

(** The [while place_retry < max_place_retry and not place_data] loop, by
    recursion on [max_place_retry - place_retry].  [Returned] means that the
    loop ended and the [for] loop goes on; [Raised msg] is the bare [raise]
    that leaves the [for] loop. *)
Fixpoint place_loop (remaining : nat) (place_data : option Place) (sess : Session)
    (link : string) (s : LinkScraper) : outcome * LinkScraper :=
  match remaining, place_data with
  | S remaining', None =>
      match try_place sess link s with
      | (Returned, _, s1) => (Returned, s1)
      | (Raised error_msg, place_data', s1) =>
          (* place_retry += 1 *)
          let place_retry := (max_place_retry - remaining')%nat in
          if (max_place_retry <=? place_retry)%nat
          then (Returned, place_failed sess link error_msg s1)
          else if Str.contains "CAPTCHA" error_msg
                  || Str.contains "blocked" (Str.lower error_msg)
          then (Raised error_msg, s1)
          else place_loop remaining' place_data' sess link s1
      end
  | _, _ => (Returned, s)
  end.

(** The [for i, link in enumerate(result_links)] loop. *)
Fixpoint links_loop (result_links : list string) (sess : Session) (s : LinkScraper)
    : outcome * LinkScraper :=
  match result_links with
  | [] => (Returned, s)
  | link :: rest =>
      if Z.of_nat (length (scraped_places s)) >=? max_results s then (Returned, s)
      else
        match place_loop max_place_retry None sess link s with
        | (Raised m, s1) => (Raised m, s1)
        | (Returned, s1) => links_loop rest sess s1
        end
  end.

(** The body of the outer [try]: one session attempt, up to its [return] or
    the exception that leaves it. *)
Definition attempt (sess : Session) (already_scraped : PySet.t) (s : LinkScraper)
    : outcome * LinkScraper :=
  match setup_browser sess with
  | Raise m => (Raised m, s)
  | Ok _ =>
      match navigate_to_link sess s with
      | (false, s1) => (Raised "Navigation failed or blocked", s1)
      | (true, s1) =>
          let link_type := detect_link_type (page_url (page s1)) in
          if String.eqb link_type "place" then
            if PySet.mem (VStr (page_url (page s1))) already_scraped then (Returned, s1)
            else
              match parse_place_details (clock_now sess (tick s1)) s1 with
              | (Some place_data, s2) => (Returned, place_scraped sess place_data s2)
              | (None, s2) => (Returned, s2)
              end
          else if String.eqb link_type "search" then
            match collect_results s1 with
            | [] => (Raised "No results found", s1)
            | result_links =>
                links_loop
                  (filter (fun link => PySet.mem (VStr link) already_scraped = false)
                          result_links)
                  sess s1
            end
          else (Returned, s1)
      end
  end.

(** The [while retry_count < max_retries] loop, by recursion on
    [max_retries - retry_count]; the result is what the function returns. *)
Fixpoint session_loop (w : World) (max_retries : Z) (already_scraped : PySet.t)
    (remaining : nat) (retry_count : Z) (s : LinkScraper) : list Place * LinkScraper :=
  match remaining with
  | O => (scraped_places s, s)
  | S remaining' =>
      let '(proxy, pm) := get_next_proxy (proxy_manager s) in
      let s1 := new_session (Z.to_nat retry_count) proxy (set_proxy_manager pm s) in
      match attempt (session w (Z.to_nat retry_count) proxy) already_scraped s1 with
      | (Returned, s2) =>
          let s3 := step [EvTeardown] s2 in
          (scraped_places s3, s3)
      | (Raised e, s2) =>
          let retry_count' := retry_count + 1 in
          let s2' := step [EvAttemptFailed retry_count' e] s2 in
          let s3 := if retry_count' <? max_retries then step [EvSleep] s2' else s2' in
          session_loop w max_retries already_scraped remaining' retry_count'
            (step [EvTeardown] s3)
      end
  end.

(** [scrape_with_retry(max_retries)] *)
Definition scrape_with_retry (w : World) (max_retries : Z) (s : LinkScraper)
    : list Place * LinkScraper :=
  let already_scraped :=
    load_resume_state (resume_readable w) (saver (ledger s)) (disk (ledger s)) in
  session_loop w max_retries already_scraped (Z.to_nat max_retries) 0 s.

End WithLibraries.

End ScraperByLink.

(** ** scraper.py: PlaceScraper (keyword mode) *)

Module Scraper.

Record PlaceScraper := {
  keyword : string;
  location : string;
  max_results : Z;
  proxy_manager : ProxyManager;
  scraped_places : list Place;
  seen_places : gset string;
  page : Page;
  tick : nat;
  trace : list Event
}.

Definition set_proxy_manager (x : ProxyManager) (s : PlaceScraper) : PlaceScraper :=
  {| keyword := keyword s; location := location s; max_results := max_results s;
     proxy_manager := x; scraped_places := scraped_places s;
     seen_places := seen_places s; page := page s; tick := tick s; trace := trace s |}.

Definition set_scraped_places (x : list Place) (s : PlaceScraper) : PlaceScraper :=
  {| keyword := keyword s; location := location s; max_results := max_results s;
     proxy_manager := proxy_manager s; scraped_places := x;
     seen_places := seen_places s; page := page s; tick := tick s; trace := trace s |}.

Definition set_seen_places (x : gset string) (s : PlaceScraper) : PlaceScraper :=
  {| keyword := keyword s; location := location s; max_results := max_results s;
     proxy_manager := proxy_manager s; scraped_places := scraped_places s;
     seen_places := x; page := page s; tick := tick s; trace := trace s |}.

Definition set_page (x : Page) (s : PlaceScraper) : PlaceScraper :=
  {| keyword := keyword s; location := location s; max_results := max_results s;
     proxy_manager := proxy_manager s; scraped_places := scraped_places s;
     seen_places := seen_places s; page := x; tick := tick s; trace := trace s |}.

Definition step (ev : list Event) (s : PlaceScraper) : PlaceScraper :=
  {| keyword := keyword s; location := location s; max_results := max_results s;
     proxy_manager := proxy_manager s; scraped_places := scraped_places s;
     seen_places := seen_places s; page := page s; tick := S (tick s);
     trace := trace s ++ ev |}.

Definition new_session (attempt_no : nat) (proxy : option Proxy) (s : PlaceScraper)
    : PlaceScraper :=
  {| keyword := keyword s; location := location s; max_results := max_results s;
     proxy_manager := proxy_manager s; scraped_places := scraped_places s;
     seen_places := seen_places s; page := blank_page; tick := 0%nat;
     trace := trace s ++ [EvSession attempt_no proxy] |}.

(** [PlaceScraper(keyword, location, max_results, headless, proxy_manager)] *)
Definition init (kw loc : string) (max : Z) (pm : ProxyManager) : PlaceScraper :=
  {| keyword := kw; location := loc; max_results := max; proxy_manager := pm;
     scraped_places := []; seen_places := ∅;
     page := blank_page; tick := 0%nat; trace := [] |}.

Definition page_goto (sess : Session) (url : string) (s : PlaceScraper)
    : result unit * PlaceScraper :=
  match goto sess (tick s) url with
  | Ok p => (Ok tt, set_page p (step [EvGoto url] s))
  | Raise m => (Raise m, step [EvGoto url] s)
  end.

Definition page_go_back (sess : Session) (s : PlaceScraper) : result unit * PlaceScraper :=
  (go_back sess (tick s), step [EvGoBack] s).

(** [l[:k]] *)
Definition slice_to {A} (k : Z) (l : list A) : list A :=
  if 0 <=? k then firstn (Z.to_nat k) l
  else firstn (Z.to_nat (Z.of_nat (length l) + k)) l.

Fixpoint collect_hrefs (elements : list (result (option string))) : list string :=
  match elements with
  | [] => []
  | Ok (Some href) :: rest =>
      if negb (Str.is_empty href) && Str.contains "/maps/place/" href
      then href :: collect_hrefs rest
      else collect_hrefs rest
  | _ :: rest => collect_hrefs rest
  end.

(** [collect_results(page)] *)
Definition collect_results (s : PlaceScraper) : list string :=
  match result_hrefs (page s) with
  | Ok elements => collect_hrefs (slice_to (max_results s * 2) elements)
  | Raise _ => []
  end.

Definition exclude_patterns : list string :=
  [ "example.com"; "test.com"; "domain.com";
    "email.com"; "yourdomain.com"; "yoursite.com";
    "sentry.io"; "wixpress.com"; "schema.org";
    ".png"; ".jpg"; ".jpeg"; ".gif"; ".svg"; ".webp" ].

(** [extract_emails_from_text(text)]; [findall] is [email_pattern.findall]. *)
Definition extract_emails_from_text (findall : string -> list string) (text : string)
    : gset string :=
  if Str.is_empty text then ∅
  else
    list_to_set
      (List.filter
         (fun email =>
            let email_lower := Str.lower email in
            negb (existsb (fun pattern => Str.contains pattern email_lower)
                    exclude_patterns))
         (findall text)).

(** Events are added to the trace. *)
Definition note (ev : list Event) (s : PlaceScraper) : PlaceScraper :=
  {| keyword := keyword s; location := location s; max_results := max_results s;
     proxy_manager := proxy_manager s; scraped_places := scraped_places s;
     seen_places := seen_places s; page := page s; tick := tick s;
     trace := trace s ++ ev |}.

Section WithLibraries.
Context {libs : Libraries}.

(** The [for link in contact_links[:3]] loop of [scrape_emails_from_website];
    [k] is the number of fetches made so far. *)
Fixpoint contact_links_loop (web : Site) (website_url : string)
    (links : list (result (option string))) (k : nat) (emails : gset string)
    : gset string * list Event :=
  match links with
  | [] => (emails, [])
  | Ok (Some href) :: rest =>
      if negb (Str.is_empty href) && negb (Str.starts_with "mailto:" href) then
        let href := if Str.starts_with "/" href then urljoin website_url href else href in
        if Str.starts_with "http" href then
          match site_goto web k href with
          | Ok sub =>
              match site_inner_text sub with
              | Ok sub_text =>
                  (* Go back *)
                  let '(emails, fetched) :=
                    contact_links_loop web website_url rest (S (S k))
                      (emails ∪ extract_emails_from_text email_findall sub_text) in
                  (emails, EvSiteGoto href :: EvSiteGoto website_url :: fetched)
              | Raise _ =>
                  let '(emails, fetched) :=
                    contact_links_loop web website_url rest (S k) emails in
                  (emails, EvSiteGoto href :: fetched)
              end
          | Raise _ =>
              let '(emails, fetched) :=
                contact_links_loop web website_url rest (S k) emails in
              (emails, EvSiteGoto href :: fetched)
          end
        else contact_links_loop web website_url rest k emails
      else contact_links_loop web website_url rest k emails
  | _ :: rest => contact_links_loop web website_url rest k emails
  end.

(** [scrape_emails_from_website(website_url, context)]: the addresses found
    and the fetches made in the second tab.  Every exception is caught. *)
Definition scrape_emails_from_website (web : Site) (website_url : string)
    : gset string * list Event :=
  if Str.is_empty website_url || Str.contains "google.com" website_url then (∅, [])
  else
    match site_new_page web with
    | Raise _ => (∅, [])
    | Ok _ =>
        match site_goto web 0 website_url with
        | Raise _ => (∅, [EvSiteGoto website_url])
        | Ok home =>
            match site_inner_text home with
            | Raise _ => (∅, [EvSiteGoto website_url])
            | Ok page_text =>
                match site_content home with
                | Raise _ => (∅, [EvSiteGoto website_url])
                | Ok page_html =>
                    let emails := extract_emails_from_text email_findall page_text
                                  ∪ extract_emails_from_text email_findall page_html in
                    match site_links home with
                    | Raise _ => (emails, [EvSiteGoto website_url])
                    | Ok contact_links =>
                        let '(emails, fetched) :=
                          contact_links_loop web website_url (firstn 3 contact_links)
                            1 emails in
                        (emails, EvSiteGoto website_url :: fetched)
                    end
                end
            end
        end
    end.

(** [search_google_maps(page)] *)
Definition search_google_maps (sess : Session) (s : PlaceScraper) : bool * PlaceScraper :=
  match page_goto sess "https://www.google.com/maps?hl=en" s with
  | (Raise _, s1) => (false, s1)
  | (Ok _, s1) =>
      let search_query := keyword s1 +:+ " in " +:+ location s1 in
      let url := "https://www.google.com/maps/search/" +:+ quote_plus search_query
                 +:+ "?hl=en" in
      match page_goto sess url s1 with
      | (Raise _, s2) => (false, s2)
      | (Ok _, s2) =>
          if check_for_captcha (page s2) then (false, s2)
          else
            match wait_for_selector (page s2) (selector "results_container") with
            | Ok _ => (true, s2)
            | Raise _ => (false, s2)
            end
      end
  end.

(** The body of the [try] of [parse_place_details], up to its [return]. *)
Definition parse_place_details_body (now : string) (s : PlaceScraper)
    : result (option Place * PlaceScraper) :=
  let! _ := Config.subscript Config.TIMING "item_parse_delay" in
  (* Wait for page to fully load *)
  let! _ := Config.subscript Config.TIMING "networkidle_timeout" in
  let! _ := wait_for_load_state (page s) "networkidle" in
  (* Check for blocking *)
  if check_for_captcha (page s) then Raise "CAPTCHA detected during parsing"
  else
    let place_url := page_url (page s) in
    let name0 := extract_text (page s) (selector "place_name") in
    if negb (str_truthy name0) then Ok (None, s)
    else
      let name1 := default EmptyString name0 in
      let '(lat, lon) := coordinates (page s) in
      let '(dup, seen) := is_duplicate name1 lat lon (seen_places s) (scraped_places s) in
      let s1 := set_seen_places seen s in
      if dup then Ok (None, s1)
      else
        let emails_from_maps := obs_maps_emails (page s) in
        let website := obs_website (page s) in
        let '(emails_from_website, fetched) :=
          if str_truthy website
          then scrape_emails_from_website (site (page s)) (default EmptyString website)
          else (∅, []) in
        Ok (Some {| name := name1;
                    address := obs_address (page s);
                    latitude := lat;
                    longitude := lon;
                    phone := obs_phone (page s);
                    email := email_string (emails_from_maps ∪ emails_from_website);
                    website := website;
                    google_maps_url := place_url;
                    category := obs_category (page s);
                    rating := obs_rating (page s);
                    hours := obs_hours (page s);
                    price_level := obs_price_level (page s);
                    business_status := obs_business_status (page s);
                    scraped_at := now |}, note fetched s1).

(** [parse_place_details(page, context)]: [except Exception] gives [None]. *)
Definition parse_place_details (now : string) (s : PlaceScraper)
    : option Place * PlaceScraper :=
  match parse_place_details_body now s with
  | Ok r => r
  | Raise _ => (None, s)
  end.

(** The body of the [try] inside the [for] loop. *)
Definition try_place (sess : Session) (link : string) (s : PlaceScraper)
    : outcome * PlaceScraper :=
  match page_goto sess link s with
  | (Raise m, s1) => (Raised m, s1)
  | (Ok _, s1) =>
      if check_for_captcha (page s1)
      then (Raised "CAPTCHA detected, rotating proxy", s1)
      else
        let '(place_data, s2) := parse_place_details (clock_now sess (tick s1)) s1 in
        let s3 := match place_data with
                  | Some p => set_scraped_places (scraped_places s2 ++ [p]) s2
                  | None => s2
                  end in
        match page_go_back sess s3 with
        | (Ok _, s4) => (Returned, s4)
        | (Raise m, s4) => (Raised m, s4)
        end
  end.

(** The [for i, link in enumerate(result_links)] loop. *)
Fixpoint links_loop (result_links : list string) (sess : Session) (s : PlaceScraper)
    : outcome * PlaceScraper :=
  match result_links with
  | [] => (Returned, s)
  | link :: rest =>
      if Z.of_nat (length (scraped_places s)) >=? max_results s then (Returned, s)
      else
        match try_place sess link s with
        | (Returned, s1) => links_loop rest sess s1
        | (Raised e, s1) =>
            if Str.contains "CAPTCHA" e then (Raised e, s1)
            else links_loop rest sess s1
        end
  end.

(** The body of the outer [try]. *)
Definition attempt (sess : Session) (s : PlaceScraper) : outcome * PlaceScraper :=
  match setup_browser sess with
  | Raise m => (Raised m, s)
  | Ok _ =>
      match search_google_maps sess s with
      | (false, s1) => (Raised "Search failed or blocked", s1)
      | (true, s1) =>
          match collect_results s1 with
          | [] => (Raised "No results found", s1)
          | result_links => links_loop result_links sess s1
          end
      end
  end.

(** The [while retry_count < max_retries] loop. *)
Fixpoint session_loop (w : World) (max_retries : Z) (remaining : nat) (retry_count : Z)
    (s : PlaceScraper) : list Place * PlaceScraper :=
  match remaining with
  | O => (scraped_places s, s)
  | S remaining' =>
      let '(proxy, pm) := get_next_proxy (proxy_manager s) in
      let s1 := new_session (Z.to_nat retry_count) proxy (set_proxy_manager pm s) in
      match attempt (session w (Z.to_nat retry_count) proxy) s1 with
      | (Returned, s2) =>
          let s3 := step [EvTeardown] s2 in
          (scraped_places s3, s3)
      | (Raised e, s2) =>
          let retry_count' := retry_count + 1 in
          let s2' := step [EvAttemptFailed retry_count' e] s2 in
          let s3 := if retry_count' <? max_retries then step [EvSleep] s2' else s2' in
          session_loop w max_retries remaining' retry_count' (step [EvTeardown] s3)
      end
  end.

(** [scrape_with_retry(max_retries)] *)
Definition scrape_with_retry (w : World) (max_retries : Z) (s : PlaceScraper)
    : list Place * PlaceScraper :=
  session_loop w max_retries (Z.to_nat max_retries) 0 s.

End WithLibraries.

End Scraper.

(** ** Statements about the ledger *)

(** A ledger just created, over the files already on disk. *)
Definition fresh_ledger (link_type timestamp : string) (d : Disk) : Ledger :=
  {| saver := IncrementalSaver_init link_type timestamp; disk := d |}.

(** The calls made on a ledger during a run. *)
Inductive Call :=
| CallSavePlace (io : IO) (place : Dict)
| CallSaveFailedUrl (ok : bool) (url error : string).

Definition run_call (l : Ledger) (c : Call) : Ledger :=
  match c with
  | CallSavePlace io place => save_place io place l
  | CallSaveFailedUrl ok url error => save_failed_url ok url error l
  end.

Definition run_calls (calls : list Call) (l : Ledger) : Ledger :=
  fold_left run_call calls l.

(** No write to the CSV or JSONL stream fails. *)
Definition stream_writes_ok (c : Call) : Prop :=
  match c with
  | CallSavePlace io _ => csv_ok io = true /\ jsonl_ok io = true
  | CallSaveFailedUrl _ _ _ => True
  end.

Definition lines_of (fn : string) (l : Ledger) : list Line := default [] (disk l !! fn).

Definition has_url (u : string) (row : Dict) : Prop :=
  Config.dict_get "google_maps_url" row = Some (VStr u).

(** [u] is in the processed set. *)
Definition processed (u : string) (l : Ledger) : Prop :=
  PySet.mem (VStr u) (scraped_urls (saver l)) = true.

(** A record of [u] is in the CSV stream, in the JSONL stream, or a failure
    entry of [u] is in the failure log. *)
Definition in_csv (u : string) (l : Ledger) : Prop :=
  exists row, CsvRow row ∈ lines_of (csv_filename (saver l)) l /\ has_url u row.

Definition in_jsonl (u : string) (l : Ledger) : Prop :=
  exists row, JsonLine row ∈ lines_of (jsonl_filename (saver l)) l /\ has_url u row.

Definition in_failure_log (u : string) (l : Ledger) : Prop :=
  exists error,
    TextLine (u +:+ " | Error: " +:+ error +:+ newline)
      ∈ lines_of (failed_filename (saver l)) l.

Definition durably_written (u : string) (l : Ledger) : Prop :=
  in_csv u l \/ in_jsonl u l \/ in_failure_log u l.

(** The ledger invariant in the words of the specification. *)
Definition ledger_invariant (l : Ledger) : Prop :=
  forall u, processed u l <-> durably_written u l.

Definition ledger_invariant_claim : Prop :=
  forall link_type timestamp calls,
    ledger_invariant (run_calls calls (fresh_ledger link_type timestamp ∅)).

(** The resume round trip in the words of the specification: whatever the
    file system does, a fresh instance on the same files finds the URL. *)
Definition resume_round_trip_claim : Prop :=
  forall (io : IO) (readable : bool) (place : Dict) (url : string) (l : Ledger)
         (fresh : IncrementalSaver),
    has_url url place ->
    base_filename fresh = base_filename (saver l) ->
    scraped_urls fresh = PySet.empty ->
    PySet.mem (VStr url)
      (load_resume_state readable fresh (disk (save_place io place l))) = true.


(** *** Sample data *)

Definition sample_place : Place :=
  {| name := "Cafe Uno";
     address := Some "1 Main St";
     latitude := Some 25.75%float;
     longitude := Some (-80.25)%float;
     phone := None; email := None; website := None;
     google_maps_url := "https://www.google.com/maps/place/Cafe+Uno";
     category := Some "Cafe"; rating := Some 4.5%float;
     hours := None; price_level := None; business_status := None;
     scraped_at := "2024-05-01T10:00:00" |}.

Definition sample_url : string := "https://www.google.com/maps/place/Cafe+Uno".

Definition io_ok : IO :=
  {| csv_ok := true; jsonl_ok := true; resume_ok := true; now := "2024-05-01T10:00:01";
     csv_failure := CsvOpenFails; jsonl_failure := AppendOpenFails;
     resume_failure := RewriteOpenFails |}.

Definition io_streams_fail : IO :=
  {| csv_ok := false; jsonl_ok := false; resume_ok := true; now := "2024-05-01T10:00:01";
     csv_failure := CsvOpenFails; jsonl_failure := AppendOpenFails;
     resume_failure := RewriteOpenFails |}.

Definition io_resume_fails : IO :=
  {| csv_ok := true; jsonl_ok := true; resume_ok := false; now := "2024-05-01T10:00:01";
     csv_failure := CsvOpenFails; jsonl_failure := AppendOpenFails;
     resume_failure := RewriteOpenFails |}.

(** The CSV row cannot be written; the rewrite of the resume file fails
    after the file has been opened. *)
Definition io_row_fails : IO :=
  {| csv_ok := false; jsonl_ok := true; resume_ok := true; now := "2024-05-01T10:00:01";
     csv_failure := CsvRowFails; jsonl_failure := AppendOpenFails;
     resume_failure := RewriteOpenFails |}.

Definition io_resume_truncates : IO :=
  {| csv_ok := true; jsonl_ok := true; resume_ok := false; now := "2024-05-01T10:00:02";
     csv_failure := CsvOpenFails; jsonl_failure := AppendOpenFails;
     resume_failure := RewriteDumpFails "{" |}.

Definition sample_ledger : Ledger := fresh_ledger "search" "20240501_100000" ∅.

(** The lines [save_place] adds to the CSV stream: the header if the file
    was not there, and the row; a call that fails at [writerow] has written
    the header. *)
Definition csv_written (io : IO) (place : Dict) (l : Ledger) : list Line :=
  let header := if path_exists (csv_filename (saver l)) (disk l) then []
                else [CsvHeader (map fst place)] in
  if csv_ok io then header ++ [CsvRow place]
  else
    match csv_failure io with
    | CsvRowFails => header
    | _ => []
    end.

Definition jsonl_written (io : IO) (place : Dict) : list Line :=
  if jsonl_ok io then [JsonLine place] else [].

(** The two halves of the invariant that the code keeps. *)
Definition written_implies_processed (l : Ledger) : Prop :=
  forall u, in_csv u l \/ in_jsonl u l -> processed u l.

Definition processed_implies_written (l : Ledger) : Prop :=
  forall u, processed u l -> in_csv u l /\ in_jsonl u l.

Definition sample_calls : list Call :=
  [ CallSavePlace io_ok (to_dict sample_place);
    CallSaveFailedUrl true "https://www.google.com/maps/place/Bar+Dos" "Timeout" ].

(** ** Statements about the deduplicator *)

(** A record with the three fields the deduplicator reads. *)
Definition bare_place (name0 : string) (lat lon : option float) : Place :=
  {| name := name0; address := None; latitude := lat; longitude := lon;
     phone := None; email := None; website := None; google_maps_url := EmptyString;
     category := None; rating := None; hours := None; price_level := None;
     business_status := None; scraped_at := EmptyString |}.

(** One submission: [is_duplicate], and on acceptance the append to
    [scraped_places] that [scrape_with_retry] makes with the record built by
    [parse_place_details]. *)
Definition submit {libs : Libraries} (name0 : string) (lat lon : option float)
    (st : gset string * list Place) : bool * (gset string * list Place) :=
  let '(dup, seen) := is_duplicate name0 lat lon (st.1) (st.2) in
  (dup, (seen, if dup then st.2 else st.2 ++ [bare_place name0 lat lon])).

(** [place] has coordinates in the sense of the code: both truthy. *)
Definition located (place : Place) : bool :=
  float_truthy (latitude place) && float_truthy (longitude place).

(** [place] is within the tolerance radius of the point. *)
Definition within_tolerance {libs : Libraries} (lat lon : float) (place : Place) : bool :=
  PrimFloat.ltb
    (geodesic (lat, lon) (float_or_zero (latitude place), float_or_zero (longitude place)))
    Config.GEO_TOLERANCE_METERS.

(** Library stand-ins for the examples: every two points are 11 m apart, or
    exactly 25 m apart. *)
Definition libs_11m : Libraries :=
  {| geodesic := fun _ _ => 11%float; quote_plus := fun s => s;
     email_findall := fun _ => []; urljoin := fun base url => base +:+ url |}.

Definition libs_25m : Libraries :=
  {| geodesic := fun _ _ => 25%float; quote_plus := fun s => s;
     email_findall := fun _ => []; urljoin := fun base url => base +:+ url |}.

(** ** Statements about the runs *)

(** The session attempts and the page fetches in a trace. *)
Fixpoint session_count (t : list Event) : nat :=
  match t with
  | [] => 0%nat
  | EvSession _ _ :: t' => S (session_count t')
  | _ :: t' => session_count t'
  end.

(** The attempts that ended in the handler of the outer [try]. *)
Fixpoint failure_count (t : list Event) : nat :=
  match t with
  | [] => 0%nat
  | EvAttemptFailed _ _ :: t' => S (failure_count t')
  | _ :: t' => failure_count t'
  end.

Fixpoint gotos (t : list Event) : list string :=
  match t with
  | [] => []
  | EvGoto url :: t' => url :: gotos t'
  | _ :: t' => gotos t'
  end.

(** The addresses fetched in the second tab, the one opened on a business
    website. *)
Fixpoint site_gotos (t : list Event) : list string :=
  match t with
  | [] => []
  | EvSiteGoto url :: t' => url :: site_gotos t'
  | _ :: t' => site_gotos t'
  end.

Definition site_event (e : Event) : Prop :=
  match e with
  | EvSiteGoto _ => True
  | _ => False
  end.

(** A world in which every page that loads is classified as blocked. *)
Definition always_blocked (w : World) : Prop :=
  forall n proxy tick0 url p,
    goto (session w n proxy) tick0 url = Ok p -> check_for_captcha p = true.

(** What an operation of the link scraper may do to the scraper: the result
    cap is kept, no session is opened, accepted records are only appended. *)
Definition link_grows (s s' : ScraperByLink.LinkScraper) : Prop :=
  ScraperByLink.max_results s' = ScraperByLink.max_results s
  /\ session_count (ScraperByLink.trace s') = session_count (ScraperByLink.trace s)
  /\ failure_count (ScraperByLink.trace s') = failure_count (ScraperByLink.trace s)
  /\ exists extra,
       ScraperByLink.scraped_places s' = ScraperByLink.scraped_places s ++ extra.

(** In keyword mode the list of accepted records does not even grow. *)
Definition keyword_keeps (s s' : Scraper.PlaceScraper) : Prop :=
  Scraper.max_results s' = Scraper.max_results s
  /\ session_count (Scraper.trace s') = session_count (Scraper.trace s)
  /\ failure_count (Scraper.trace s') = failure_count (Scraper.trace s)
  /\ Scraper.scraped_places s' = Scraper.scraped_places s.

(** An operation of the link scraper that leaves the accepted records alone. *)
Definition link_keeps (s s' : ScraperByLink.LinkScraper) : Prop :=
  ScraperByLink.max_results s' = ScraperByLink.max_results s
  /\ session_count (ScraperByLink.trace s') = session_count (ScraperByLink.trace s)
  /\ failure_count (ScraperByLink.trace s') = failure_count (ScraperByLink.trace s)
  /\ ScraperByLink.scraped_places s' = ScraperByLink.scraped_places s.

(** Every page that loads in the session is classified as blocked. *)
Definition session_blocked (sess : Session) : Prop :=
  forall tick0 url p, goto sess tick0 url = Ok p -> check_for_captcha p = true.

(** *** Sample pages, sessions and scrapers *)

(** A page showing the CAPTCHA marker. *)
Definition captcha_page (url : string) : Page :=
  {| page_url := url;
     query_selector := fun sel => Ok (String.eqb sel captcha_marker);
     page_content := Ok "<html><body>Our systems have detected unusual traffic</body></html>";
     inner_text := fun _ => Raise "no element";
     wait_for_selector := fun _ => Raise "Timeout 10000ms exceeded.";
     wait_for_load_state := fun _ => Ok tt;
     result_hrefs := Ok [];
     coordinates := (None, None);
     obs_address := None; obs_phone := None; obs_maps_emails := ∅; site := no_site;
     obs_website := None; obs_category := None; obs_rating := None;
     obs_hours := None; obs_price_level := None; obs_business_status := None |}.

(** A clean place page whose heading is [title]. *)
Definition place_page (url title : string) : Page :=
  {| page_url := url;
     query_selector := fun sel => Ok (String.eqb sel (selector "place_name"));
     page_content := Ok "<html><body><h1 class='DUwDvf'></h1></body></html>";
     inner_text := fun _ => Ok title;
     wait_for_selector := fun _ => Ok tt;
     wait_for_load_state := fun _ => Ok tt;
     result_hrefs := Ok [];
     coordinates := (None, None);
     obs_address := None; obs_phone := None; obs_maps_emails := ∅; site := no_site;
     obs_website := None; obs_category := None; obs_rating := None;
     obs_hours := None; obs_price_level := None; obs_business_status := None |}.

(** A clean page of search results linking to [links]. *)
Definition search_page (url : string) (links : list string) : Page :=
  {| page_url := url;
     query_selector := fun sel => Ok (String.eqb sel (selector "results_container"));
     page_content := Ok "<html><body><div role='feed'></div></body></html>";
     inner_text := fun _ => Raise "no element";
     wait_for_selector := fun _ => Ok tt;
     wait_for_load_state := fun _ => Ok tt;
     result_hrefs := Ok (map (fun l => Ok (Some l)) links);
     coordinates := (None, None);
     obs_address := None; obs_phone := None; obs_maps_emails := ∅; site := no_site;
     obs_website := None; obs_category := None; obs_rating := None;
     obs_hours := None; obs_price_level := None; obs_business_status := None |}.

Definition link_a : string := "https://www.google.com/maps/place/A".
Definition link_b : string := "https://www.google.com/maps/place/B".
Definition link_c : string := "https://www.google.com/maps/place/C".
Definition link_d : string := "https://www.google.com/maps/place/D".
Definition link_e : string := "https://www.google.com/maps/place/E".

Definition five_links : list string := [link_a; link_b; link_c; link_d; link_e].

Definition search_url : string := "https://www.google.com/maps/search/cafe+in+Miami/".

(** Every navigation ends on a CAPTCHA page. *)
Definition blocked_session : Session :=
  {| setup_browser := Ok tt;
     goto := fun _ url => Ok (captcha_page url);
     go_back := fun _ => Ok tt;
     file_io := fun _ => io_ok;
     failed_io := fun _ => true;
     clock_now := fun _ => "2024-05-01T10:00:00" |}.

Definition blocked_world : World :=
  {| resume_readable := true; session := fun _ _ => blocked_session |}.

(** Five results; every place page loads and carries its own heading. *)
Definition productive_session : Session :=
  {| setup_browser := Ok tt;
     goto := fun _ url =>
       if Str.contains "/maps/place/" url then Ok (place_page url url)
       else Ok (search_page url five_links);
     go_back := fun _ => Ok tt;
     file_io := fun _ => io_ok;
     failed_io := fun _ => true;
     clock_now := fun _ => "2024-05-01T10:00:00" |}.

Definition productive_world : World :=
  {| resume_readable := true; session := fun _ _ => productive_session |}.

(** Two results.  The first visit of the first one times out, the second
    visit of it shows a CAPTCHA; the pages after that load normally. *)
Definition late_captcha_session : Session :=
  {| setup_browser := Ok tt;
     goto := fun tick0 url =>
       match tick0 with
       | 0%nat => Ok (search_page url [link_a; link_b])
       | 1%nat => Raise "Timeout 30000ms exceeded."
       | 2%nat => Ok (captcha_page url)
       | _ => Ok (place_page url url)
       end;
     go_back := fun _ => Ok tt;
     file_io := fun _ => io_ok;
     failed_io := fun _ => true;
     clock_now := fun _ => "2024-05-01T10:00:00" |}.

Definition late_captcha_world : World :=
  {| resume_readable := true; session := fun _ _ => late_captcha_session |}.

(** Two results.  The page of the first one loads, the page of the second
    one shows a CAPTCHA. *)
Definition fading_session : Session :=
  {| setup_browser := Ok tt;
     goto := fun _ url =>
       if Str.contains "/maps/place/B" url then Ok (captcha_page url)
       else if Str.contains "/maps/place/" url then Ok (place_page url "Cafe Uno")
       else Ok (search_page url [link_a; link_b]);
     go_back := fun _ => Ok tt;
     file_io := fun _ => io_ok;
     failed_io := fun _ => true;
     clock_now := fun _ => "2024-05-01T10:00:00" |}.

(** The first session is the one above; from the second session on every
    page shows a CAPTCHA. *)
Definition fading_world : World :=
  {| resume_readable := true;
     session := fun n _ =>
       match n with
       | 0%nat => fading_session
       | _ => blocked_session
       end |}.

(** The record of the first result of [fading_session]. *)
Definition fading_record : Place :=
  {| name := "Cafe Uno"; address := None; latitude := None; longitude := None;
     phone := None; email := None; website := None; google_maps_url := link_a;
     category := None; rating := None; hours := None; price_level := None;
     business_status := None; scraped_at := "2024-05-01T10:00:00" |}.

Definition no_proxies : ProxyManager := {| proxies := []; current_index := 0 |}.

(** A business website: the home page shows no address and links to a
    contact page, which shows one. *)
Definition cafe_site : Site :=
  {| site_new_page := Ok tt;
     site_goto := fun k _ =>
       Ok {| site_inner_text :=
               Ok match k with
                  | 0%nat => "Welcome to Cafe Uno"
                  | _ => "Write to hello@cafe-uno.es"
                  end;
             site_content := Ok "<html><body><a href='/contact'>Contact</a></body></html>";
             site_contact_href := Ok (Some "/contact");
             site_links := Ok [Ok (Some "/contact")] |} |}.

(** A clean place page that names the website. *)
Definition cafe_page (url : string) : Page :=
  {| page_url := url;
     query_selector := fun sel => Ok (String.eqb sel (selector "place_name"));
     page_content := Ok "<html><body><h1 class='DUwDvf'></h1></body></html>";
     inner_text := fun _ => Ok "Cafe Uno";
     wait_for_selector := fun _ => Ok tt;
     wait_for_load_state := fun _ => Ok tt;
     result_hrefs := Ok [];
     coordinates := (None, None);
     obs_address := None; obs_phone := None; obs_maps_emails := ∅; site := cafe_site;
     obs_website := Some "https://cafe-uno.es"; obs_category := None; obs_rating := None;
     obs_hours := None; obs_price_level := None; obs_business_status := None |}.

Definition cafe_session : Session :=
  {| setup_browser := Ok tt;
     goto := fun _ url => Ok (cafe_page url);
     go_back := fun _ => Ok tt;
     file_io := fun _ => io_ok;
     failed_io := fun _ => true;
     clock_now := fun _ => "2024-05-01T10:00:00" |}.

(** An address pattern that finds the one address of the sample site. *)
Definition libs_cafe : Libraries :=
  {| geodesic := geodesic (Libraries := libs_11m);
     quote_plus := quote_plus (Libraries := libs_11m);
     email_findall := fun text =>
       if Str.contains "hello@cafe-uno.es" text then ["hello@cafe-uno.es"] else [];
     urljoin := fun base url => base +:+ url |}.

Definition sample_link_scraper : ScraperByLink.LinkScraper :=
  ScraperByLink.init search_url 3 no_proxies sample_ledger
    {| total := 3; success := 0; failed := 0; current := 0 |} false.

Definition sample_keyword_scraper : Scraper.PlaceScraper :=
  Scraper.init "cafe" "Miami" 3 no_proxies.

(** A scraper given the link of one place; websites are visited, as [main]
    sets it. *)
Definition cafe_scraper : ScraperByLink.LinkScraper :=
  ScraperByLink.init link_a 3 no_proxies sample_ledger
    {| total := 1; success := 0; failed := 0; current := 0 |} false.

(** A page without the marker whose text asks for verification, in capitals. *)
Definition challenge_content : string :=
  "<html><body>Please VERIFY YOU are human</body></html>".

Definition challenge_page : Page :=
  {| page_url := "https://www.google.com/sorry/index";
     query_selector := fun _ => Ok false;
     page_content := Ok challenge_content;
     inner_text := fun _ => Raise "no element";
     wait_for_selector := fun _ => Raise "Timeout 10000ms exceeded.";
     wait_for_load_state := fun _ => Ok tt;
     result_hrefs := Ok [];
     coordinates := (None, None);
     obs_address := None; obs_phone := None; obs_maps_emails := ∅; site := no_site;
     obs_website := None; obs_category := None; obs_rating := None;
     obs_hours := None; obs_price_level := None; obs_business_status := None |}.

(** Between the traces [before] and [after] of a run, every session attempt
    that was opened ended in the handler of the outer [try]. *)
Definition every_attempt_failed (before after : list Event) : Prop :=
  (failure_count after + session_count before
   = session_count after + failure_count before)%nat.

(** ** Further statements about the ledger *)




(** The strings held by a set. *)
Fixpoint strings_of (s : PySet.t) : list string :=
  match s with
  | [] => []
  | VStr u :: s' => u :: strings_of s'
  | _ :: s' => strings_of s'
  end.

(** What a later run would load from the resume file of [l] lies within the
    processed set of [l]. *)
Definition resume_within_processed (l : Ledger) : Prop :=
  forall readable u,
    PySet.mem (VStr u) (load_resume_state readable (saver l) (disk l)) = true ->
    processed u l.

(** ** ProxyManager: loading the pool *)

(** The body of the loop of [load_proxies] on one line of the file: the
    proxy it appends, if any. *)
Definition parse_proxy_line (line : string) : option Proxy :=
  let line := Str.strip line in
  if negb (Str.is_empty line) && negb (Str.starts_with "#" line) then
    let parts := Str.split ":" line in
    if (2 <=? length parts)%nat then
      Some {| server := "http://" +:+ nth 0 parts EmptyString +:+ ":"
                        +:+ nth 1 parts EmptyString;
              credentials :=
                if (4 <=? length parts)%nat
                then Some (nth 2 parts EmptyString, nth 3 parts EmptyString)
                else None |}
    else None
  else None.

(** [load_proxies(proxy_file)] on the lines read from the file (those read
    before a read error, if there is one: the error is logged and the proxies
    appended so far stay). *)
Fixpoint load_proxies (lines : list string) (self : ProxyManager) : ProxyManager :=
  match lines with
  | [] => self
  | line :: rest =>
      load_proxies rest
        match parse_proxy_line line with
        | Some proxy_config =>
            {| proxies := proxies self ++ [proxy_config];
               current_index := current_index self |}
        | None => self
        end
  end.

(** [ProxyManager(proxy_file)]; [None] when no file is named or the file does
    not exist. *)
Definition ProxyManager_init (proxy_file : option (list string)) : ProxyManager :=
  let self := {| proxies := []; current_index := 0 |} in
  match proxy_file with
  | Some lines => load_proxies lines self
  | None => self
  end.

(** [k] successive calls of [get_next_proxy]: what they return, and the
    manager afterwards. *)
Fixpoint next_proxies (k : nat) (self : ProxyManager) : list (option Proxy) * ProxyManager :=
  match k with
  | O => ([], self)
  | S k' =>
      let '(proxy, self') := get_next_proxy self in
      let '(rest, self'') := next_proxies k' self' in
      (proxy :: rest, self'')
  end.

Definition sample_proxy_file : list string :=
  [ "# office pool" +:+ newline;
    newline;
    "10.0.0.1:8080" +:+ newline;
    "  10.0.0.2:3128:alice:s3cret  " +:+ newline;
    "localhost" +:+ newline ].

(** ** Statements about what a link-mode run does, step by step *)

(** A fetch or a step back in the tab of the results. *)
Definition tab_event (e : Event) : Prop :=
  match e with
  | EvGoto _ | EvGoBack => True
  | _ => False
  end.

(** A fetch in either tab or a step back in the browser, as opposed to the
    events of the outer loop. *)
Definition inner_event (e : Event) : Prop :=
  match e with
  | EvGoto _ | EvSiteGoto _ | EvGoBack => True
  | _ => False
  end.

Fixpoint teardown_count (t : list Event) : nat :=
  match t with
  | [] => 0%nat
  | EvTeardown :: t' => S (teardown_count t')
  | _ :: t' => teardown_count t'
  end.

Fixpoint sleep_count (t : list Event) : nat :=
  match t with
  | [] => 0%nat
  | EvSleep :: t' => S (sleep_count t')
  | _ :: t' => sleep_count t'
  end.

Section LinkSteps.
Context {libs : Libraries}.

(** The browser moved: page, tick and trace may differ, the trace by fetches
    and steps back in the tab of the results only; everything the scraper
    owns is as before. *)
Definition world_step (s s' : ScraperByLink.LinkScraper) : Prop :=
  ScraperByLink.maps_url s' = ScraperByLink.maps_url s
  /\ ScraperByLink.max_results s' = ScraperByLink.max_results s
  /\ ScraperByLink.skip_websites s' = ScraperByLink.skip_websites s
  /\ ScraperByLink.proxy_manager s' = ScraperByLink.proxy_manager s
  /\ ScraperByLink.ledger s' = ScraperByLink.ledger s
  /\ ScraperByLink.progress s' = ScraperByLink.progress s
  /\ ScraperByLink.scraped_places s' = ScraperByLink.scraped_places s
  /\ ScraperByLink.seen_places s' = ScraperByLink.seen_places s
  /\ exists evs, ScraperByLink.trace s' = ScraperByLink.trace s ++ evs
                 /\ Forall tab_event evs.

(** In session [sess] the page was parsed into a record, which was saved,
    appended and counted. *)
Definition accept_step (sess : Session) (s s' : ScraperByLink.LinkScraper) : Prop :=
  exists now place_data s1,
    ScraperByLink.parse_place_details now s = (Some place_data, s1)
    /\ s' = ScraperByLink.place_scraped sess place_data s1.

(** An item was given up: failure log and failure count. *)
Definition fail_step (sess : Session) (s s' : ScraperByLink.LinkScraper) : Prop :=
  exists link error_msg, s' = ScraperByLink.place_failed sess link error_msg s.

Definition link_step (sess : Session) (s s' : ScraperByLink.LinkScraper) : Prop :=
  world_step s s' \/ accept_step sess s s' \/ fail_step sess s s'.

(** The outer loop moved: a new session, a new proxy position, outer events
    in the trace; everything else is as before. *)
Definition outer_step (s s' : ScraperByLink.LinkScraper) : Prop :=
  ScraperByLink.maps_url s' = ScraperByLink.maps_url s
  /\ ScraperByLink.max_results s' = ScraperByLink.max_results s
  /\ ScraperByLink.skip_websites s' = ScraperByLink.skip_websites s
  /\ ScraperByLink.ledger s' = ScraperByLink.ledger s
  /\ ScraperByLink.progress s' = ScraperByLink.progress s
  /\ ScraperByLink.scraped_places s' = ScraperByLink.scraped_places s
  /\ ScraperByLink.seen_places s' = ScraperByLink.seen_places s.

(** No two accepted records share a name, and every accepted name is
    registered. *)
Definition names_distinct (s : ScraperByLink.LinkScraper) : Prop :=
  NoDup (map name (ScraperByLink.scraped_places s))
  /\ forall p, In p (ScraperByLink.scraped_places s) ->
               name p ∈ ScraperByLink.seen_places s.

(** Every accepted record with coordinates is outside the tolerance radius
    of the records with coordinates accepted before it. *)
Definition well_separated (places : list Place) : Prop :=
  forall before p after,
    places = before ++ p :: after ->
    located p = true ->
    forall q, In q before -> located q = true ->
      within_tolerance (float_or_zero (latitude p)) (float_or_zero (longitude p)) q
      = false.

(** The books of a run from [s] to [s']: records are only appended, each
    appended record is counted as a success and has its URL in the processed
    set, and the counters stay consistent. *)
Definition books_kept (s s' : ScraperByLink.LinkScraper) : Prop :=
  (exists extra,
     ScraperByLink.scraped_places s' = ScraperByLink.scraped_places s ++ extra
     /\ success (ScraperByLink.progress s')
        = success (ScraperByLink.progress s) + Z.of_nat (length extra)
     /\ forall p, In p extra ->
          processed (google_maps_url p) (ScraperByLink.ledger s'))
  /\ total (ScraperByLink.progress s') = total (ScraperByLink.progress s)
  /\ failed (ScraperByLink.progress s) <= failed (ScraperByLink.progress s')
  /\ current (ScraperByLink.progress s') - success (ScraperByLink.progress s')
       - failed (ScraperByLink.progress s')
     = current (ScraperByLink.progress s) - success (ScraperByLink.progress s)
       - failed (ScraperByLink.progress s)
  /\ base_filename (saver (ScraperByLink.ledger s'))
     = base_filename (saver (ScraperByLink.ledger s))
  /\ (forall u, processed u (ScraperByLink.ledger s) ->
                processed u (ScraperByLink.ledger s'))
  /\ ScraperByLink.max_results s' = ScraperByLink.max_results s.

End LinkSteps.

(** From [s] to [s'] the trace has only grown, and every page fetched in
    between is one of [links]. *)
Definition fetches_within (links : list string) (s s' : ScraperByLink.LinkScraper)
    : Prop :=
  exists evs, ScraperByLink.trace s' = ScraperByLink.trace s ++ evs
              /\ forall u, In u (gotos evs) -> In u links.

(** A clean place page with a heading and coordinates. *)
Definition located_place_page (url title : string) (lat lon : float) : Page :=
  {| page_url := url;
     query_selector := fun sel => Ok (String.eqb sel (selector "place_name"));
     page_content := Ok "<html><body><h1 class='DUwDvf'></h1></body></html>";
     inner_text := fun _ => Ok title;
     wait_for_selector := fun _ => Ok tt;
     wait_for_load_state := fun _ => Ok tt;
     result_hrefs := Ok [];
     coordinates := (Some lat, Some lon);
     obs_address := None; obs_phone := None; obs_maps_emails := ∅; site := no_site;
     obs_website := None; obs_category := None; obs_rating := None;
     obs_hours := None; obs_price_level := None; obs_business_status := None |}.

(** Five results; every place page loads and carries its own heading and
    coordinates. *)
Definition located_session : Session :=
  {| setup_browser := Ok tt;
     goto := fun _ url =>
       if Str.contains "/maps/place/" url
       then Ok (located_place_page url url 25.5%float (-80.25)%float)
       else Ok (search_page url five_links);
     go_back := fun _ => Ok tt;
     file_io := fun _ => io_ok;
     failed_io := fun _ => true;
     clock_now := fun _ => "2024-05-01T10:00:00" |}.

Definition located_world : World :=
  {| resume_readable := true; session := fun _ _ => located_session |}.

(** A scraper that has registered the heading of [link_a] already. *)
Definition returning_link_scraper : ScraperByLink.LinkScraper :=
  ScraperByLink.set_seen_places {[ link_a ]} sample_link_scraper.

(** The proxies the sessions of a trace were opened with, in order. *)
Fixpoint session_proxies (t : list Event) : list (option Proxy) :=
  match t with
  | [] => []
  | EvSession _ proxy :: t' => proxy :: session_proxies t'
  | _ :: t' => session_proxies t'
  end.

(** The attempt numbers of the sessions of a trace, in order. *)
Fixpoint session_numbers (t : list Event) : list nat :=
  match t with
  | [] => []
  | EvSession n _ :: t' => n :: session_numbers t'
  | _ :: t' => session_numbers t'
  end.

(** ** Statements about scrolling *)

(** The number of result items before scroll number [k]: what the scroll
    before it gave, and 0 before the first one. *)
Definition count_before (counts : nat -> result nat) (k : nat) : result nat :=
  match k with
  | O => Ok 0%nat
  | S j => counts j
  end.

(** Scroll number [k] brought no new result item. *)
Definition unchanged (counts : nat -> result nat) (k : nat) : Prop :=
  exists c, counts k = Ok c /\ count_before counts k = Ok c.

(** Scroll number [k] is the third in a row that brought nothing new, or it
    raised. *)
Definition stops_at (counts : nat -> result nat) (k : nat) : Prop :=
  (exists msg, counts k = Raise msg)
  \/ ((2 <= k)%nat /\ unchanged counts k /\ unchanged counts (k - 1)
      /\ unchanged counts (k - 2)).

(** A result list that grows by one item for six scrolls and then stays. *)
Definition sample_counts (k : nat) : result nat := Ok (Nat.min (S k) 6).

(** ** Statements about the coordinates and the e-mail filter *)

(** A conversion that accepts nothing, and one that knows two strings. *)
Definition float_rejects (s : string) : result float :=
  Raise ("could not convert string to float: '" +:+ s +:+ "'").

Definition float_sample (s : string) : result float :=
  if String.eqb s "25.5" then Ok 25.5%float
  else if String.eqb s "-80.25" then Ok (-80.25)%float
  else float_rejects s.

Definition sample_place_url : string :=
  "https://www.google.com/maps/place/Cafe+Uno/@25.5,-80.25,17z".

(** ** Statements about the files of a whole run *)

(** No write to the two streams or to the failure log fails in [w]. *)
Definition writes_succeed (w : World) : Prop :=
  forall n proxy t,
    csv_ok (file_io (session w n proxy) t) = true
    /\ jsonl_ok (file_io (session w n proxy) t) = true
    /\ failed_io (session w n proxy) t = true.

(** The rows of a CSV file, without the header. *)
Definition csv_rows (lines : list Line) : list Dict :=
  omap (fun line => match line with CsvRow row => Some row | _ => None end) lines.

(** From [s] to [s'] the two streams have gained the newly accepted records,
    in order and nothing else, and the failure log one line for each counted
    failure. *)
Definition files_mirror (s s' : ScraperByLink.LinkScraper) : Prop :=
  let l0 := ScraperByLink.ledger s in
  let l := ScraperByLink.ledger s' in
  base_filename (saver l) = base_filename (saver l0)
  /\ exists extra,
       ScraperByLink.scraped_places s' = ScraperByLink.scraped_places s ++ extra
       /\ csv_rows (lines_of (csv_filename (saver l0)) l)
          = csv_rows (lines_of (csv_filename (saver l0)) l0) ++ map to_dict extra
       /\ lines_of (jsonl_filename (saver l0)) l
          = lines_of (jsonl_filename (saver l0)) l0
            ++ map (fun p => JsonLine (to_dict p)) extra
       /\ Z.of_nat (length (lines_of (failed_filename (saver l0)) l))
          - failed (ScraperByLink.progress s')
          = Z.of_nat (length (lines_of (failed_filename (saver l0)) l0))
            - failed (ScraperByLink.progress s).

(** * Properties *)

(** ** The functions on small inputs *)

Example lower_mixed :
  Str.lower "Not A Robot <DIV id='x1'>" = "not a robot <div id='x1'>".
Proof. reflexivity. Qed.

Example contains_inside : Str.contains "/maps/place/" link_a = true.
Proof. reflexivity. Qed.

Example contains_absent : Str.contains "blocked" "timeout 30000ms exceeded." = false.
Proof. reflexivity. Qed.

Example strip_both_ends : Str.strip (" 	Cafe Uno " +:+ newline) = "Cafe Uno".
Proof. reflexivity. Qed.

Example strip_blank : Str.strip "   " = EmptyString.
Proof. reflexivity. Qed.

Example subscript_present :
  Config.subscript Config.TIMING "item_parse_delay" = Ok 0.5%float.
Proof. reflexivity. Qed.

Example detect_search : ScraperByLink.detect_link_type search_url = "search".
Proof. reflexivity. Qed.

Example detect_place : ScraperByLink.detect_link_type link_a = "place".
Proof. reflexivity. Qed.

Example detect_short :
  ScraperByLink.detect_link_type "https://maps.app.goo.gl/abc123" = "short".
Proof. reflexivity. Qed.

Example slice_to_negative : Scraper.slice_to (-2) [1; 2; 3; 4; 5] = [1; 2; 3].
Proof. reflexivity. Qed.

Example slice_to_beyond : Scraper.slice_to 6 [1; 2; 3] = [1; 2; 3].
Proof. reflexivity. Qed.

Example proxy_rotation :
  let a := {| server := "http://10.0.0.1:8080"; credentials := None |} in
  let b := {| server := "http://10.0.0.2:8080"; credentials := Some ("u", "p") |} in
  let pm0 := {| proxies := [a; b]; current_index := 0 |} in
  let '(p1, pm1) := get_next_proxy pm0 in
  let '(p2, pm2) := get_next_proxy pm1 in
  let '(p3, _) := get_next_proxy pm2 in
  (p1, p2, p3) = (Some a, Some b, Some a).
Proof. reflexivity. Qed.

Example no_proxy : (get_next_proxy no_proxies).1 = None.
Proof. reflexivity. Qed.

Example zero_is_falsy :
  float_truthy (Some 0%float) = false /\ float_truthy (Some (-0)%float) = false
  /\ float_truthy None = false /\ float_truthy (Some 10%float) = true.
Proof. repeat split; reflexivity. Qed.

Example boundary_is_outside :
  PrimFloat.ltb 25%float Config.GEO_TOLERANCE_METERS = false.
Proof. reflexivity. Qed.

Example captcha_page_blocked : check_for_captcha (captcha_page link_a) = true.
Proof. reflexivity. Qed.

Example place_page_clean : check_for_captcha (place_page link_a "Cafe Uno") = false.
Proof. reflexivity. Qed.

(** ** Strings *)

Lemma starts_with_iff (p s : string) :
  Str.starts_with p s = true <-> exists post, s = p +:+ post.
Proof.
  revert s. induction p as [|a p IH]; intros s; simpl.
  - split; [intros _; by exists s | done].
  - destruct s as [|b s].
    + split; [done | intros [post H]; discriminate H].
    + destruct (Ascii.eqb_spec a b) as [->|Hne].
      * rewrite IH. split; intros [post H]; exists post.
        -- by rewrite H.
        -- by injection H.
      * split; [done | intros [post H]; injection H; congruence].
Qed.

Lemma contains_iff (needle hay : string) :
  Str.contains needle hay = true <-> exists pre post, hay = pre +:+ needle +:+ post.
Proof.
  induction hay as [|c hay IH]; simpl.
  - destruct (Str.starts_with needle EmptyString) eqn:E.
    + apply starts_with_iff in E as [post E]. split; [|done].
      intros _. by exists EmptyString, post.
    + split; [done|]. intros [pre [post H]].
      destruct pre; [|discriminate H]. simpl in H.
      assert (Str.starts_with needle EmptyString = true) by (apply starts_with_iff; eauto).
      congruence.
  - destruct (Str.starts_with needle (String c hay)) eqn:E.
    + apply starts_with_iff in E as [post E]. split; [|done].
      intros _. by exists EmptyString, post.
    + rewrite IH. split.
      * intros [pre [post H]]. exists (String c pre), post. simpl. by rewrite H.
      * intros [pre [post H]]. destruct pre as [|c' pre]; simpl in H.
        -- assert (Str.starts_with needle (String c hay) = true)
             by (apply starts_with_iff; eauto).
           congruence.
        -- injection H as _ H. eauto.
Qed.

Lemma lower_app (a b : string) : Str.lower (a +:+ b) = Str.lower a +:+ Str.lower b.
Proof. induction a as [|c a IH]; simpl; [done | by rewrite IH]. Qed.

Lemma lower_split (c x y : string) :
  Str.lower c = x +:+ y ->
  exists a b, c = a +:+ b /\ Str.lower a = x /\ Str.lower b = y.
Proof.
  revert c. induction x as [|ch x IH]; intros c H; simpl in H.
  - by exists EmptyString, c.
  - destruct c as [|d c]; simpl in H; [discriminate|].
    injection H as Hd H. destruct (IH c H) as (a & b & -> & Ha & Hb).
    exists (String d a), b. simpl. by rewrite Hd, Ha.
Qed.

Lemma blocking_keywords_lower (kw : string) :
  In kw blocking_keywords -> Str.lower kw = kw.
Proof.
  simpl. intros [<-|[<-|[<-|[<-|[]]]]]; reflexivity.
Qed.

(** [lower_ascii] identifies exactly the characters that are the same letter. *)
Lemma lower_ascii_same_letter (x y : ascii) :
  Str.lower_ascii x = Str.lower_ascii y <-> same_letter x y = true.
Proof.
  assert (forall c, nat_of_ascii (Str.lower_ascii c)
                    = if is_capital c then (nat_of_ascii c + 32)%nat else nat_of_ascii c)
    as Hn.
  { intros c. unfold Str.lower_ascii, is_capital.
    destruct (_ && _) eqn:E; [|done].
    apply andb_true_iff in E as [_ E]. apply Nat.leb_le in E.
    apply nat_ascii_embedding. lia. }
  assert (forall a b : ascii, a = b <-> nat_of_ascii a = nat_of_ascii b) as Hinj.
  { intros a b. split; [by intros ->|]. intros H.
    by rewrite <- (ascii_nat_embedding a), <- (ascii_nat_embedding b), H. }
  assert (forall c, is_capital c = true <-> (65 <= nat_of_ascii c <= 90)%nat) as Hcap.
  { intros c. unfold is_capital. by rewrite andb_true_iff, !Nat.leb_le. }
  assert (forall c, is_capital c = false ->
                    (nat_of_ascii c < 65 \/ 90 < nat_of_ascii c)%nat) as Hsmall.
  { intros c. unfold is_capital. rewrite andb_false_iff, !Nat.leb_gt. lia. }
  rewrite Hinj, !Hn. unfold same_letter.
  rewrite !orb_true_iff, !andb_true_iff, !Nat.eqb_eq, Ascii.eqb_eq, Hinj, !Hcap.
  destruct (is_capital x) eqn:Ex; [apply Hcap in Ex|apply Hsmall in Ex];
    (destruct (is_capital y) eqn:Ey; [apply Hcap in Ey|apply Hsmall in Ey]); lia.
Qed.

Lemma lower_equal_up_to_case (a b : string) :
  Str.lower a = Str.lower b <-> equal_up_to_case a b = true.
Proof.
  revert b. induction a as [|x a IH]; intros [|y b]; simpl; try done.
  rewrite andb_true_iff, <- IH, <- lower_ascii_same_letter.
  split; [by intros [= -> ->] | by intros [-> ->]].
Qed.

Lemma contains_lower_iff (kw content : string) :
  Str.lower kw = kw ->
  Str.contains kw (Str.lower content) = true <-> contains_up_to_case kw content.
Proof.
  intros Hkw. rewrite contains_iff. unfold contains_up_to_case. split.
  - intros (pre & post & H).
    apply lower_split in H as (a & b & -> & Ha & Hb).
    apply lower_split in Hb as (m & p & -> & Hm & Hp).
    exists a, m, p. split; [done|]. apply lower_equal_up_to_case. by rewrite Hkw.
  - intros (pre & mid & post & -> & H). apply lower_equal_up_to_case in H.
    exists (Str.lower pre), (Str.lower post).
    by rewrite !lower_app, H, Hkw.
Qed.

(** ** CaptchaGuard *)

Lemma captcha_selector :
  Config.subscript Config.SELECTORS "captcha_indicator" = Ok captcha_marker.
Proof. reflexivity. Qed.

(** C9. When the two inspections of the page succeed, that is, the query for
    the CAPTCHA marker element and the reading of the page content,
    [check_for_captcha] answers [True] exactly when the marker element is
    present or the page content contains, as a substring up to letter case,
    one of the four phrases unusual traffic, automated requests, verify you,
    not a robot.  The function takes the page and returns the answer: no
    state of the scraper goes in or comes out. *)
Theorem check_for_captcha_decision_rule (page : Page) (marker : bool) (content : string) :
  query_selector page "iframe[src*='recaptcha'], div[id*='captcha']" = Ok marker ->
  page_content page = Ok content ->
  check_for_captcha page = true
  <-> marker = true
      \/ contains_up_to_case "unusual traffic" content
      \/ contains_up_to_case "automated requests" content
      \/ contains_up_to_case "verify you" content
      \/ contains_up_to_case "not a robot" content.
Proof.
  intros Hq Hc. unfold check_for_captcha, check_for_captcha_body.
  rewrite captcha_selector. unfold rbind, captcha_marker. rewrite Hq.
  destruct marker; [split; eauto|].
  rewrite Hc. unfold blocking_keywords. cbn [existsb].
  rewrite <- !(contains_lower_iff _ content) by reflexivity.
  destruct (Str.contains "unusual traffic" _), (Str.contains "automated requests" _),
    (Str.contains "verify you" _), (Str.contains "not a robot" _);
    cbn [orb]; split; intros H; (done || intuition discriminate || intuition).
Qed.

Lemma check_for_captcha_decision_rule_witness :
  (query_selector challenge_page "iframe[src*='recaptcha'], div[id*='captcha']" = Ok false
   /\ page_content challenge_page
      = Ok "<html><body>Please VERIFY YOU are human</body></html>")
  /\ check_for_captcha challenge_page = true.
Proof.
  split; [split; reflexivity|].
  apply (check_for_captcha_decision_rule challenge_page false challenge_content);
    [reflexivity..|].
  right. right. right. left.
  exists "<html><body>Please ", "VERIFY YOU", " are human</body></html>".
  split; reflexivity.
Defined.

(** ** Python sets *)

Lemma py_eq_str (u : string) (v : value) : py_eq (VStr u) v = true <-> v = VStr u.
Proof.
  destruct v as [|s|f]; simpl; try (split; [discriminate|discriminate]).
  rewrite String.eqb_eq. split; [by intros -> | by intros [= ->]].
Qed.

Lemma mem_app (x : value) (s1 s2 : PySet.t) :
  PySet.mem x (s1 ++ s2) = PySet.mem x s1 || PySet.mem x s2.
Proof. unfold PySet.mem. apply existsb_app. Qed.

Lemma mem_add_str (u : string) (y : value) (s : PySet.t) :
  PySet.mem (VStr u) (PySet.add y s) = PySet.mem (VStr u) s || py_eq (VStr u) y.
Proof.
  unfold PySet.add. destruct (PySet.mem y s) eqn:Hy.
  - destruct (py_eq (VStr u) y) eqn:E; [|by rewrite orb_false_r].
    apply py_eq_str in E as ->. by rewrite Hy.
  - rewrite mem_app. simpl. by rewrite orb_false_r.
Qed.

Lemma mem_fold_add_str (u : string) (l : list value) (acc : PySet.t) :
  PySet.mem (VStr u) (fold_left (fun s x => PySet.add x s) l acc)
  = PySet.mem (VStr u) acc || PySet.mem (VStr u) l.
Proof.
  revert acc. induction l as [|x l IH]; intros acc; simpl.
  - by rewrite orb_false_r.
  - rewrite IH, mem_add_str. by rewrite orb_assoc.
Qed.

Lemma mem_of_list_str (u : string) (l : list value) :
  PySet.mem (VStr u) (PySet.of_list l) = PySet.mem (VStr u) l.
Proof. unfold PySet.of_list. by rewrite mem_fold_add_str. Qed.

(** ** Files of the ledger *)

Lemma string_app_inv (base x y : string) : base +:+ x = base +:+ y -> x = y.
Proof. induction base as [|c base IH]; simpl; [done|]. intros [= H]. auto. Qed.

Lemma filenames_distinct (self : IncrementalSaver) :
  csv_filename self <> jsonl_filename self
  /\ csv_filename self <> resume_filename self
  /\ csv_filename self <> failed_filename self
  /\ jsonl_filename self <> resume_filename self
  /\ jsonl_filename self <> failed_filename self
  /\ resume_filename self <> failed_filename self.
Proof.
  unfold csv_filename, jsonl_filename, resume_filename, failed_filename.
  repeat split; intros H; apply string_app_inv in H; discriminate H.
Qed.

Lemma lines_of_append_eq (fn : string) (line : Line) (l : Ledger) :
  lines_of fn (with_disk (append_line fn line (disk l)) l) = lines_of fn l ++ [line].
Proof. unfold lines_of, append_line. simpl. by rewrite lookup_insert_eq. Qed.

Lemma lookup_append_ne (fn fn' : string) (line : Line) (d : Disk) :
  fn <> fn' -> append_line fn line d !! fn' = d !! fn'.
Proof. intros H. unfold append_line. by rewrite lookup_insert_ne. Qed.

Lemma lookup_overwrite_ne (fn fn' : string) (line : Line) (d : Disk) :
  fn <> fn' -> overwrite fn line d !! fn' = d !! fn'.
Proof. intros H. unfold overwrite. by rewrite lookup_insert_ne. Qed.

Lemma lookup_touch (fn fn' : string) (d : Disk) :
  touch fn d !! fn'
  = if decide (fn' = fn) then Some (default [] (d !! fn)) else d !! fn'.
Proof.
  unfold touch. destruct (decide (fn' = fn)) as [->|Hne].
  - destruct (d !! fn) eqn:E; [by rewrite E | by rewrite lookup_insert_eq].
  - destruct (d !! fn); [done | by rewrite lookup_insert_ne].
Qed.

Lemma lookup_touch_ne (fn fn' : string) (d : Disk) :
  fn <> fn' -> touch fn d !! fn' = d !! fn'.
Proof. intros H. rewrite lookup_touch. by rewrite decide_False. Qed.

Lemma default_lookup_touch (fn fn' : string) (d : Disk) :
  default [] (touch fn d !! fn') = default [] (d !! fn').
Proof. rewrite lookup_touch. by destruct (decide (fn' = fn)) as [->|]. Qed.

(** What [save_resume_state] leaves. *)
Lemma save_resume_state_saver (io : IO) (l : Ledger) :
  saver (save_resume_state io l) = saver l.
Proof.
  unfold save_resume_state. destruct (resume_ok io); [done|].
  by destruct (resume_failure io).
Qed.

Lemma save_resume_state_lookup_ne (io : IO) (l : Ledger) (fn : string) :
  fn <> resume_filename (saver l) ->
  disk (save_resume_state io l) !! fn = disk l !! fn.
Proof.
  intros H. unfold save_resume_state. destruct (resume_ok io).
  - simpl. by rewrite lookup_overwrite_ne.
  - destruct (resume_failure io); [done|]. simpl. by rewrite lookup_insert_ne.
Qed.

(** A rewrite that fails: at [open] the file is as it was; in [json.dump] it
    holds what had been written into the emptied file. *)
Lemma save_resume_state_failed (io : IO) (l : Ledger) :
  resume_ok io = false ->
  disk (save_resume_state io l) !! resume_filename (saver l)
  = match resume_failure io with
    | RewriteOpenFails => disk l !! resume_filename (saver l)
    | RewriteDumpFails partial => Some (truncated partial)
    end.
Proof.
  intros H. unfold save_resume_state. rewrite H.
  destruct (resume_failure io); [done|]. simpl. by rewrite lookup_insert_eq.
Qed.

Lemma save_resume_state_lookup (io : IO) (l : Ledger) :
  resume_ok io = true ->
  disk (save_resume_state io l) !! resume_filename (saver l)
  = Some [ResumeJson (PySet.to_list (scraped_urls (saver l))) (now io)].
Proof.
  intros H. unfold save_resume_state. rewrite H. simpl.
  unfold overwrite. by rewrite lookup_insert_eq.
Qed.

(** What [save_place] leaves in the object and in each of the four files. *)
Lemma save_place_effect (io : IO) (place : Dict) (l : Ledger) :
  let l' := save_place io place l in
  base_filename (saver l') = base_filename (saver l)
  /\ scraped_urls (saver l')
     = match Config.dict_get "google_maps_url" place with
       | Some url => PySet.add url (scraped_urls (saver l))
       | None => scraped_urls (saver l)
       end
  /\ lines_of (csv_filename (saver l)) l'
     = lines_of (csv_filename (saver l)) l ++ csv_written io place l
  /\ lines_of (jsonl_filename (saver l)) l'
     = lines_of (jsonl_filename (saver l)) l ++ jsonl_written io place
  /\ disk l' !! failed_filename (saver l) = disk l !! failed_filename (saver l).
Proof.
  destruct (filenames_distinct (saver l)) as (Hcj & Hcr & Hcf & Hjr & Hjf & Hrf).
  unfold save_place.
  set (l1 := if csv_ok io then _ else _).
  set (l2 := if jsonl_ok io then _ else _).
  assert (saver l1 = saver l) as Hs1
    by (subst l1; destruct (csv_ok io); [done|]; by destruct (csv_failure io)).
  assert (saver l2 = saver l) as Hs2
    by (subst l2; destruct (jsonl_ok io); [done|]; by destruct (jsonl_failure io)).
  assert (lines_of (csv_filename (saver l)) l1
          = lines_of (csv_filename (saver l)) l ++ csv_written io place l) as Hc1.
  { subst l1. unfold csv_written, lines_of, path_exists, append_line.
    destruct (csv_ok io); [|destruct (csv_failure io)]; cbn [disk with_disk].
    - destruct (disk l !! csv_filename (saver l)) eqn:E; simpl.
      + by rewrite lookup_insert_eq, E.
      + rewrite lookup_insert_eq, lookup_insert_eq. by simpl.
    - by rewrite app_nil_r.
    - by rewrite default_lookup_touch, app_nil_r.
    - destruct (disk l !! csv_filename (saver l)) eqn:E; simpl.
      + by rewrite E, app_nil_r.
      + by rewrite lookup_insert_eq. }
  assert (forall fn, fn <> csv_filename (saver l) -> disk l1 !! fn = disk l !! fn) as Hn1.
  { intros fn Hfn. subst l1.
    destruct (csv_ok io); [|destruct (csv_failure io)]; cbn [disk with_disk].
    - rewrite lookup_append_ne by done.
      destruct (path_exists _ _); [done|]. by rewrite lookup_append_ne.
    - done.
    - by rewrite lookup_touch_ne.
    - destruct (path_exists _ _); [done|]. by rewrite lookup_append_ne. }
  assert (lines_of (jsonl_filename (saver l)) l2
          = lines_of (jsonl_filename (saver l)) l ++ jsonl_written io place) as Hj2.
  { subst l2. unfold jsonl_written.
    destruct (jsonl_ok io); [|destruct (jsonl_failure io)].
    - rewrite Hs1, lines_of_append_eq. unfold lines_of. by rewrite Hn1.
    - rewrite app_nil_r. unfold lines_of. by rewrite Hn1.
    - rewrite app_nil_r, Hs1. unfold lines_of. cbn [disk with_disk].
      rewrite default_lookup_touch. by rewrite Hn1. }
  assert (forall fn, fn <> jsonl_filename (saver l) -> disk l2 !! fn = disk l1 !! fn) as Hn2.
  { intros fn Hfn. subst l2. rewrite Hs1.
    destruct (jsonl_ok io); [|destruct (jsonl_failure io)]; cbn [disk with_disk].
    - by rewrite lookup_append_ne.
    - done.
    - by rewrite lookup_touch_ne. }
  destruct (Config.dict_get "google_maps_url" place) as [url|].
  - rewrite save_resume_state_saver. simpl. rewrite Hs2.
    split; [done|]. split; [done|].
    unfold lines_of in *.
    rewrite (save_resume_state_lookup_ne io _ (csv_filename (saver l))) by exact Hcr.
    rewrite (save_resume_state_lookup_ne io _ (jsonl_filename (saver l))) by exact Hjr.
    rewrite (save_resume_state_lookup_ne io _ (failed_filename (saver l)))
      by (intros E; by apply Hrf).
    simpl. rewrite Hn2 by done. rewrite Hc1, Hj2.
    rewrite Hn2, Hn1 by done. done.
  - rewrite Hs2. split; [done|]. split; [done|].
    unfold lines_of in *. rewrite Hn2 by done. rewrite Hc1, Hj2.
    rewrite Hn2, Hn1 by done. done.
Qed.

(** What [save_failed_url] leaves. *)
Lemma save_failed_url_effect (ok : bool) (url error : string) (l : Ledger) :
  let l' := save_failed_url ok url error l in
  saver l' = saver l
  /\ lines_of (failed_filename (saver l)) l'
     = lines_of (failed_filename (saver l)) l
       ++ (if ok then [TextLine (url +:+ " | Error: " +:+ error +:+ newline)] else [])
  /\ forall fn, fn <> failed_filename (saver l) -> disk l' !! fn = disk l !! fn.
Proof.
  unfold save_failed_url. destruct ok; simpl.
  - split; [done|]. split.
    + apply lines_of_append_eq.
    + intros fn Hfn. by rewrite lookup_append_ne.
  - by rewrite app_nil_r.
Qed.

Lemma csv_row_written (io : IO) (place row : Dict) (l : Ledger) :
  CsvRow row ∈ csv_written io place l <-> csv_ok io = true /\ row = place.
Proof.
  unfold csv_written. destruct (csv_ok io).
  - destruct (path_exists _ _); simpl; rewrite ?elem_of_cons, ?elem_of_nil.
    + split; [intros [[= ->]|[]]; done | intros [_ ->]; by left].
    + split; [intros [[=]|[[= ->]|[]]]; done | intros [_ ->]; right; by left].
  - split; [|by intros [? _]]. intros Hin.
    destruct (csv_failure io); [by apply elem_of_nil in Hin..|].
    destruct (path_exists (csv_filename (saver l)) (disk l)).
    + by apply elem_of_nil in Hin.
    + apply list_elem_of_singleton in Hin. discriminate Hin.
Qed.

Lemma json_line_written (io : IO) (place row : Dict) :
  JsonLine row ∈ jsonl_written io place <-> jsonl_ok io = true /\ row = place.
Proof.
  unfold jsonl_written. destruct (jsonl_ok io);
    [|split; [intros Hin; by apply elem_of_nil in Hin | by intros [? _]]].
  rewrite elem_of_cons, elem_of_nil.
  split; [intros [[= ->]|[]]; done | intros [_ ->]; by left].
Qed.

(** The streams after [save_place], in terms of the streams before. *)
Lemma in_csv_save_place (io : IO) (place : Dict) (l : Ledger) (u : string) :
  in_csv u (save_place io place l)
  <-> in_csv u l \/ (csv_ok io = true /\ has_url u place).
Proof.
  destruct (save_place_effect io place l) as (Hb & _ & Hc & _).
  unfold in_csv, csv_filename in *. rewrite Hb, Hc. split.
  - intros (row & Hin & Hu). apply elem_of_app in Hin as [Hin|Hin]; [left; eauto|].
    apply csv_row_written in Hin as [Hok ->]. by right.
  - intros [(row & Hin & Hu)|[Hok Hu]].
    + exists row. split; [|done]. apply elem_of_app. by left.
    + exists place. split; [|done]. apply elem_of_app. right. by apply csv_row_written.
Qed.

Lemma in_jsonl_save_place (io : IO) (place : Dict) (l : Ledger) (u : string) :
  in_jsonl u (save_place io place l)
  <-> in_jsonl u l \/ (jsonl_ok io = true /\ has_url u place).
Proof.
  destruct (save_place_effect io place l) as (Hb & _ & _ & Hj & _).
  unfold in_jsonl, jsonl_filename in *. rewrite Hb, Hj. split.
  - intros (row & Hin & Hu). apply elem_of_app in Hin as [Hin|Hin]; [left; eauto|].
    apply json_line_written in Hin as [Hok ->]. by right.
  - intros [(row & Hin & Hu)|[Hok Hu]].
    + exists row. split; [|done]. apply elem_of_app. by left.
    + exists place. split; [|done]. apply elem_of_app. right. by apply json_line_written.
Qed.

Lemma processed_save_place (io : IO) (place : Dict) (l : Ledger) (u : string) :
  processed u (save_place io place l) <-> processed u l \/ has_url u place.
Proof.
  destruct (save_place_effect io place l) as (_ & Hs & _).
  unfold processed, has_url. rewrite Hs.
  destruct (Config.dict_get "google_maps_url" place) as [url|].
  - rewrite mem_add_str, orb_true_iff, py_eq_str.
    split; (intros [H|H]; [by left|right]); congruence.
  - split; [by left | by intros [H|H]].
Qed.

Lemma streams_save_failed_url (ok : bool) (url error : string) (l : Ledger) (u : string) :
  (in_csv u (save_failed_url ok url error l) <-> in_csv u l)
  /\ (in_jsonl u (save_failed_url ok url error l) <-> in_jsonl u l)
  /\ (processed u (save_failed_url ok url error l) <-> processed u l).
Proof.
  destruct (save_failed_url_effect ok url error l) as (Hs & _ & Hn).
  destruct (filenames_distinct (saver l)) as (_ & _ & Hcf & _ & Hjf & _).
  unfold in_csv, in_jsonl, processed, lines_of. rewrite Hs, !Hn by done. done.
Qed.

(** ** The ledger invariant, as far as it holds *)

Lemma written_implies_processed_run (calls : list Call) (l : Ledger) :
  written_implies_processed l -> written_implies_processed (run_calls calls l).
Proof.
  revert l. induction calls as [|c calls IH]; intros l Hl; [done|].
  simpl. apply IH. intros u. destruct c as [io place|ok url error]; simpl.
  - rewrite in_csv_save_place, in_jsonl_save_place, processed_save_place.
    specialize (Hl u). tauto.
  - destruct (streams_save_failed_url ok url error l u) as (-> & -> & ->). apply Hl.
Qed.

Lemma processed_implies_written_run (calls : list Call) (l : Ledger) :
  Forall stream_writes_ok calls ->
  processed_implies_written l -> processed_implies_written (run_calls calls l).
Proof.
  revert l. induction calls as [|c calls IH]; intros l Hok Hl; [done|].
  inversion Hok as [|? ? Hc Hcs]; subst.
  simpl. apply IH; [done|]. intros u. destruct c as [io place|ok url error]; simpl.
  - rewrite in_csv_save_place, in_jsonl_save_place, processed_save_place.
    destruct Hc as [Hc Hj]. specialize (Hl u). tauto.
  - destruct (streams_save_failed_url ok url error l u) as (-> & -> & ->). apply Hl.
Qed.

Lemma fresh_ledger_nothing (link_type timestamp : string) (d : Disk) :
  let l := fresh_ledger link_type timestamp d in
  d !! csv_filename (saver l) = None ->
  d !! jsonl_filename (saver l) = None ->
  written_implies_processed l /\ processed_implies_written l.
Proof.
  intros l Hc Hj. split; intros u.
  - unfold in_csv, in_jsonl, lines_of. simpl in *. rewrite Hc, Hj. simpl.
    intros [(row & Hin & _)|(row & Hin & _)]; by apply elem_of_nil in Hin.
  - unfold processed. simpl. discriminate.
Qed.

(** C1, as far as the code keeps it.  In every state reached from a fresh
    ledger by [save_place] and [save_failed_url] calls, an identifier whose
    record is in the CSV or JSONL stream is in the processed set; and when no
    write to these two streams has failed, an identifier in the processed set
    has its record in both.  Entries of the failure log play no part. *)
Theorem ledger_invariant_amended (link_type timestamp : string) (d : Disk)
    (calls : list Call) :
  let l0 := fresh_ledger link_type timestamp d in
  d !! csv_filename (saver l0) = None ->
  d !! jsonl_filename (saver l0) = None ->
  let l := run_calls calls l0 in
  (forall u, in_csv u l \/ in_jsonl u l -> processed u l)
  /\ (Forall stream_writes_ok calls ->
      forall u, processed u l <-> in_csv u l /\ in_jsonl u l).
Proof.
  intros l0 Hc Hj l.
  destruct (fresh_ledger_nothing link_type timestamp d Hc Hj) as [HA HB].
  split.
  - by apply written_implies_processed_run.
  - intros Hok u. split.
    + by apply processed_implies_written_run.
    + intros [H _]. apply (written_implies_processed_run calls l0 HA). by left.
Qed.

Lemma ledger_invariant_amended_witness :
  let l := run_calls sample_calls sample_ledger in
  (forall u, in_csv u l \/ in_jsonl u l -> processed u l)
  /\ (forall u, processed u l <-> in_csv u l /\ in_jsonl u l).
Proof.
  assert ((∅ : Disk) !! csv_filename (saver sample_ledger) = None) as Hc
    by (vm_compute; reflexivity).
  assert ((∅ : Disk) !! jsonl_filename (saver sample_ledger) = None) as Hj
    by (vm_compute; reflexivity).
  destruct (ledger_invariant_amended "search" "20240501_100000" ∅ sample_calls Hc Hj)
    as [H1 H2].
  split; [exact H1|].
  apply H2. repeat constructor.
Defined.

(** C1 as the specification states it fails, in both directions.  A
    [save_place] call whose two stream writes fail still puts the identifier
    in the processed set, with no record and no failure entry written
    anywhere; and [save_failed_url] writes a failure entry for an identifier
    that it keeps out of the processed set. *)
Lemma ledger_invariant_counterexample :
  (let l := save_place io_streams_fail (to_dict sample_place) sample_ledger in
   processed sample_url l /\ ~ durably_written sample_url l)
  /\ (let l := save_failed_url true sample_url "Timeout" sample_ledger in
      durably_written sample_url l /\ ~ processed sample_url l)
  /\ ~ ledger_invariant_claim.
Proof.
  assert (processed sample_url
            (save_place io_streams_fail (to_dict sample_place) sample_ledger)
          /\ ~ durably_written sample_url
                (save_place io_streams_fail (to_dict sample_place) sample_ledger))
    as [Hp Hn].
  { split; [apply processed_save_place; by right|].
    intros [Hc|[Hj|Hf]].
    - apply in_csv_save_place in Hc as [(row & Hin & _)|[Hok _]]; [|discriminate Hok].
      by apply elem_of_nil in Hin.
    - apply in_jsonl_save_place in Hj as [(row & Hin & _)|[Hok _]]; [|discriminate Hok].
      by apply elem_of_nil in Hin.
    - destruct Hf as (error & Hin).
      destruct (save_place_effect io_streams_fail (to_dict sample_place) sample_ledger)
        as (Hb & _ & _ & _ & Hfl).
      unfold lines_of, failed_filename in Hin. rewrite Hb in Hin.
      unfold failed_filename in Hfl. rewrite Hfl in Hin.
      by apply elem_of_nil in Hin. }
  split; [by split|]. split.
  - split.
    + right. right. exists "Timeout".
      destruct (save_failed_url_effect true sample_url "Timeout" sample_ledger)
        as (Hs & Hl & _).
      rewrite Hs, Hl. apply elem_of_app. right. simpl. apply elem_of_cons. by left.
    + intros H. apply (streams_save_failed_url true sample_url "Timeout" sample_ledger)
        in H. discriminate H.
  - intros H.
    apply Hn, (H "search" "20240501_100000"
                 [CallSavePlace io_streams_fail (to_dict sample_place)] sample_url), Hp.
Qed.

(** ** Resume round trip *)

(** [save_place] as the two stream blocks followed by the resume block: the
    stream blocks leave the object and every file but their own alone. *)
Lemma save_place_blocks (io : IO) (place : Dict) (l : Ledger) :
  exists l2,
    saver l2 = saver l
    /\ (forall fn, fn <> csv_filename (saver l) -> fn <> jsonl_filename (saver l) ->
                   disk l2 !! fn = disk l !! fn)
    /\ save_place io place l
       = match Config.dict_get "google_maps_url" place with
         | Some url =>
             save_resume_state io
               {| saver := set_scraped_urls (PySet.add url (scraped_urls (saver l2)))
                             (saver l2);
                  disk := disk l2 |}
         | None => l2
         end.
Proof.
  unfold save_place.
  set (l1 := if csv_ok io then _ else _).
  set (l2 := if jsonl_ok io then _ else _).
  assert (saver l1 = saver l) as Hs1
    by (subst l1; destruct (csv_ok io); [done|]; by destruct (csv_failure io)).
  assert (saver l2 = saver l) as Hs2
    by (subst l2; destruct (jsonl_ok io); [done|]; by destruct (jsonl_failure io)).
  exists l2. split_and!; [done| |done].
  intros fn Hc Hj.
  assert (disk l1 !! fn = disk l !! fn) as <-.
  { subst l1. destruct (csv_ok io); [|destruct (csv_failure io)]; cbn [disk with_disk].
    - rewrite lookup_append_ne by done.
      destruct (path_exists _ _); [done|]. by rewrite lookup_append_ne.
    - done.
    - by rewrite lookup_touch_ne.
    - destruct (path_exists _ _); [done|]. by rewrite lookup_append_ne. }
  subst l2. rewrite Hs1.
  destruct (jsonl_ok io); [|destruct (jsonl_failure io)]; cbn [disk with_disk].
  - by rewrite lookup_append_ne.
  - done.
  - by rewrite lookup_touch_ne.
Qed.

(** The resume file after [save_place]. *)
Lemma save_place_resume_lookup (io : IO) (place : Dict) (l : Ledger) :
  disk (save_place io place l) !! resume_filename (saver l)
  = match Config.dict_get "google_maps_url" place with
    | Some url =>
        if resume_ok io
        then Some [ResumeJson (PySet.to_list (PySet.add url (scraped_urls (saver l))))
                     (now io)]
        else
          match resume_failure io with
          | RewriteOpenFails => disk l !! resume_filename (saver l)
          | RewriteDumpFails partial => Some (truncated partial)
          end
    | None => disk l !! resume_filename (saver l)
    end.
Proof.
  destruct (filenames_distinct (saver l)) as (_ & Hcr & _ & Hjr & _).
  destruct (save_place_blocks io place l) as (l2 & Hs2 & Hn & ->).
  assert (disk l2 !! resume_filename (saver l) = disk l !! resume_filename (saver l))
    as Hr by (apply Hn; intros E; [by apply Hcr | by apply Hjr]).
  destruct (Config.dict_get "google_maps_url" place) as [url|]; [|done].
  rewrite Hs2. destruct (resume_ok io) eqn:Hok.
  - exact (save_resume_state_lookup io
             {| saver := set_scraped_urls (PySet.add url (scraped_urls (saver l)))
                           (saver l);
                disk := disk l2 |} Hok).
  - rewrite <- Hr.
    exact (save_resume_state_failed io
             {| saver := set_scraped_urls (PySet.add url (scraped_urls (saver l)))
                           (saver l);
                disk := disk l2 |} Hok).
Qed.

Lemma save_place_resume_file (io : IO) (place : Dict) (url : value) (l : Ledger) :
  Config.dict_get "google_maps_url" place = Some url ->
  resume_ok io = true ->
  disk (save_place io place l) !! resume_filename (saver l)
  = Some [ResumeJson (PySet.to_list (PySet.add url (scraped_urls (saver l)))) (now io)].
Proof. intros Hu Hok. by rewrite save_place_resume_lookup, Hu, Hok. Qed.

Lemma load_truncated (readable : bool) (self : IncrementalSaver) (d : Disk)
    (partial : string) :
  d !! resume_filename self = Some (truncated partial) ->
  load_resume_state readable self d = PySet.empty.
Proof.
  intros H. unfold load_resume_state. rewrite H. destruct readable; [|done].
  unfold truncated. by destruct (Str.is_empty partial).
Qed.

(** C3, as far as the code keeps it.  When the rewrite of the resume file
    made by [save_place] succeeds and a fresh instance on the same files can
    read it, the set it loads contains the URL of the saved item.  When the
    rewrite fails, the error is swallowed.  If it failed at [open], the file
    is as it was, and a fresh instance loads what it would have loaded
    before the call.  If it failed later, [open(fn, 'w')] has emptied the
    file already: a fresh instance loads the empty set, so the URLs that
    earlier calls had saved are lost as well. *)
Theorem resume_round_trip (io : IO) (place : Dict) (url : string) (l : Ledger)
    (fresh : IncrementalSaver) :
  has_url url place ->
  base_filename fresh = base_filename (saver l) ->
  scraped_urls fresh = PySet.empty ->
  let d' := disk (save_place io place l) in
  (resume_ok io = true ->
   PySet.mem (VStr url) (load_resume_state true fresh d') = true)
  /\ (resume_ok io = false ->
      forall readable,
        load_resume_state readable fresh d'
        = match resume_failure io with
          | RewriteOpenFails => load_resume_state readable fresh (disk l)
          | RewriteDumpFails _ => PySet.empty
          end).
Proof.
  intros Hu Hb _. cbn zeta.
  pose proof (save_place_resume_lookup io place l) as Hr. rewrite Hu in Hr.
  assert (resume_filename fresh = resume_filename (saver l)) as Hn
    by (unfold resume_filename; by rewrite Hb).
  split.
  - intros Hok. rewrite Hok in Hr. unfold load_resume_state. rewrite Hn, Hr.
    rewrite mem_of_list_str. unfold PySet.to_list.
    rewrite mem_add_str. simpl. by rewrite String.eqb_refl, orb_true_r.
  - intros Hok readable. rewrite Hok in Hr. destruct (resume_failure io) as [|partial].
    + unfold load_resume_state. by rewrite Hn, Hr.
    + apply (load_truncated _ _ _ partial). by rewrite Hn.
Qed.

Lemma resume_round_trip_witness :
  let fresh := IncrementalSaver_init "search" "20240501_100000" in
  let saved := save_place io_ok (to_dict sample_place) sample_ledger in
  PySet.mem (VStr sample_url) (load_resume_state true fresh (disk saved)) = true
  /\ load_resume_state true fresh
       (disk (save_place io_resume_truncates (to_dict sample_place) saved))
     = PySet.empty.
Proof.
  split.
  - apply (resume_round_trip io_ok (to_dict sample_place) sample_url sample_ledger
             (IncrementalSaver_init "search" "20240501_100000"));
      reflexivity.
  - apply (proj2 (resume_round_trip io_resume_truncates (to_dict sample_place) sample_url
                    (save_place io_ok (to_dict sample_place) sample_ledger)
                    (IncrementalSaver_init "search" "20240501_100000")
                    eq_refl eq_refl eq_refl) eq_refl true).
Defined.

(** C3 as the specification states it fails: when the rewrite of the resume
    file raises, [save_place] swallows the error and returns, and a fresh
    instance finds nothing. *)
Lemma resume_round_trip_counterexample : ~ resume_round_trip_claim.
Proof.
  intros H.
  specialize (H io_resume_fails true (to_dict sample_place) sample_url sample_ledger
                (IncrementalSaver_init "search" "20240501_100000")
                eq_refl eq_refl eq_refl).
  vm_compute in H. discriminate H.
Qed.

(** ** Failure log *)



(** ** Deduplicator *)

Section DeduplicatorFacts.
Context {libs : Libraries}.

(** The scan finds a duplicate exactly when some accepted record has the
    candidate's name, or has coordinates and lies within the tolerance. *)
Lemma scan_places_iff (name0 : string) (lat lon : float) (places : list Place) :
  scan_places name0 lat lon places = true
  <-> exists place, In place places
        /\ (name place = name0
            \/ (located place = true /\ within_tolerance lat lon place = true)).
Proof.
  induction places as [|p places IH]; simpl.
  - split; [done | by intros (? & [] & _)].
  - destruct (String.eqb_spec (name p) name0) as [Hn|Hn].
    + split; [|done]. intros _. exists p. eauto.
    + fold (located p). destruct (located p) eqn:Hl.
      * fold (within_tolerance lat lon p). destruct (within_tolerance lat lon p) eqn:Hw.
        -- split; [|done]. intros _. exists p. eauto.
        -- rewrite IH. split.
           ++ intros (q & Hq & H). exists q. eauto.
           ++ intros (q & [<-|Hq] & H); [|eauto].
              destruct H as [?|[_ ?]]; congruence.
      * rewrite IH. split.
        -- intros (q & Hq & H). exists q. eauto.
        -- intros (q & [<-|Hq] & H); [|eauto].
           destruct H as [?|[? _]]; congruence.
Qed.

(** [is_duplicate] on a non-empty name that was not seen. *)
Lemma is_duplicate_fresh (name0 : string) (lat lon : option float)
    (seen : gset string) (places : list Place) :
  Str.is_empty name0 = false ->
  name0 ∉ seen ->
  is_duplicate name0 lat lon seen places
  = if float_truthy lat && float_truthy lon
       && scan_places name0 (float_or_zero lat) (float_or_zero lon) places
    then (true, seen) else (false, {[ name0 ]} ∪ seen).
Proof.
  intros He Hs. unfold is_duplicate. by rewrite He, bool_decide_eq_false_2.
Qed.

(** What C4 says, for candidates whose two coordinates are truthy: a
    candidate with a fresh non-empty name is a duplicate exactly when the scan
    of the accepted records finds one. *)
Lemma is_duplicate_geo_scan (name0 : string) (lat lon : float)
    (seen : gset string) (places : list Place) :
  Str.is_empty name0 = false ->
  name0 ∉ seen ->
  float_truthy (Some lat) = true ->
  float_truthy (Some lon) = true ->
  (is_duplicate name0 (Some lat) (Some lon) seen places).1 = true
  <-> exists place, In place places
        /\ (name place = name0
            \/ (located place = true /\ within_tolerance lat lon place = true)).
Proof.
  intros He Hs Hlat Hlon. rewrite is_duplicate_fresh, Hlat, Hlon by done.
  rewrite <- scan_places_iff. cbn [andb float_or_zero].
  by destruct (scan_places name0 lat lon places).
Qed.

(** What C5 says, for coordinates that are all truthy: the second of two
    submissions with distinct names is rejected exactly when the distance is
    below the tolerance, so a distance of exactly 25 m is accepted. *)
Lemma second_submission (name1 name2 : string) (lat1 lon1 lat2 lon2 : float) :
  Str.is_empty name1 = false ->
  Str.is_empty name2 = false ->
  name1 <> name2 ->
  float_truthy (Some lat1) = true -> float_truthy (Some lon1) = true ->
  float_truthy (Some lat2) = true -> float_truthy (Some lon2) = true ->
  let '(dup1, st1) := submit name1 (Some lat1) (Some lon1) (∅, []) in
  let '(dup2, _) := submit name2 (Some lat2) (Some lon2) st1 in
  dup1 = false
  /\ dup2 = PrimFloat.ltb (geodesic (lat2, lon2) (lat1, lon1)) Config.GEO_TOLERANCE_METERS.
Proof.
  intros He1 He2 Hne H1 H2 H3 H4. unfold submit. cbn [fst snd].
  rewrite is_duplicate_fresh, H1, H2 by (try done; apply not_elem_of_empty).
  cbn [andb scan_places app fst snd].
  rewrite is_duplicate_fresh, H3, H4
    by (try done; intros [?%elem_of_singleton|[]%elem_of_empty]%elem_of_union; done).
  cbn [andb scan_places bare_place name latitude longitude float_or_zero].
  destruct (String.eqb_spec name1 name2) as [?|_]; [done|].
  rewrite H1, H2. cbn [andb].
  by destruct (PrimFloat.ltb _ _).
Qed.

End DeduplicatorFacts.

(** C4 on the failing input.  The accepted record "Cafe Uno" is at
    (0.0001, 10.0); the candidate "Bar Dos" at (0.0, 10.0) has a latitude and
    a longitude and lies some 11 m away, inside the tolerance.  Its latitude
    0.0 is falsy, so the scan is skipped: whatever distance [geodesic]
    reports, the candidate is not a duplicate and its name is registered. *)
Theorem is_duplicate_zero_latitude_skips_scan {libs : Libraries} :
  let prior := bare_place "Cafe Uno" (Some 0x1.a36e2eb1c432dp-14%float) (Some 10%float) in
  located prior = true
  /\ is_duplicate "Bar Dos" (Some 0%float) (Some 10%float) {[ "Cafe Uno" ]} [prior]
     = (false, {[ "Bar Dos" ]} ∪ {[ "Cafe Uno" ]}).
Proof. split; [reflexivity|]. by rewrite is_duplicate_fresh by (try done; set_unfold; congruence). Qed.

(** C5 on the failing input.  "Cafe Uno" at (51.5, 0.0) is accepted; "Bar
    Dos" at (51.5001, 0.0), some 11 m away, is accepted as well, whatever
    distance [geodesic] reports, because the longitude 0.0 of both is
    falsy. *)
Theorem second_submission_zero_longitude_accepted {libs : Libraries} :
  let '(dup1, st1) := submit "Cafe Uno" (Some 51.5%float) (Some 0%float) (∅, []) in
  let '(dup2, st2) :=
    submit "Bar Dos" (Some 0x1.9c00346dc5d64p+5%float) (Some 0%float) st1 in
  dup1 = false /\ dup2 = false /\ map name st2.2 = ["Cafe Uno"; "Bar Dos"].
Proof.
  unfold submit. cbn [fst snd].
  rewrite is_duplicate_fresh by (try done; apply not_elem_of_empty).
  cbn [float_truthy andb negb PrimFloat.eqb app fst snd].
  rewrite is_duplicate_fresh
    by (try done; intros [?%elem_of_singleton|[]%elem_of_empty]%elem_of_union; done).
  done.
Qed.

(** With a [geodesic] that puts the two points 11 m apart both are within
    the tolerance of each other, and the outcome is the same. *)
Example zero_coordinates_within_tolerance :
  @within_tolerance libs_11m 0%float 10%float
     (bare_place "Cafe Uno" (Some 0x1.a36e2eb1c432dp-14%float) (Some 10%float)) = true
  /\ (@is_duplicate libs_11m "Bar Dos" (Some 0%float) (Some 10%float) {[ "Cafe Uno" ]}
        [bare_place "Cafe Uno" (Some 0x1.a36e2eb1c432dp-14%float) (Some 10%float)]).1
     = false.
Proof. vm_compute. done. Qed.

(** The other half of C5 at a boundary case: at exactly 25 m the second
    submission is accepted. *)
Lemma second_submission_at_boundary :
  let '(dup1, st1) :=
    @submit libs_25m "Cafe Uno" (Some 51.5%float) (Some 2%float) (∅, []) in
  let '(dup2, _) :=
    @submit libs_25m "Bar Dos" (Some 51.75%float) (Some 2%float) st1 in
  dup1 = false /\ dup2 = false.
Proof.
  apply (@second_submission libs_25m "Cafe Uno" "Bar Dos"
           51.5%float 2%float 51.75%float 2%float); done.
Defined.

(** ** Keyword mode never parses a place *)

Lemma timing_networkidle_timeout :
  Config.subscript Config.TIMING "networkidle_timeout" = Raise "'networkidle_timeout'".
Proof. reflexivity. Qed.

Lemma session_count_app (t1 t2 : list Event) :
  session_count (t1 ++ t2) = (session_count t1 + session_count t2)%nat.
Proof.
  induction t1 as [|e t1 IH]; simpl; [done|]. destruct e; simpl; by rewrite ?IH.
Qed.

Lemma failure_count_app (t1 t2 : list Event) :
  failure_count (t1 ++ t2) = (failure_count t1 + failure_count t2)%nat.
Proof.
  induction t1 as [|e t1 IH]; simpl; [done|]. destruct e; simpl; by rewrite ?IH.
Qed.

Lemma gotos_app (t1 t2 : list Event) : gotos (t1 ++ t2) = gotos t1 ++ gotos t2.
Proof.
  induction t1 as [|e t1 IH]; simpl; [done|]. destruct e; simpl; by rewrite ?IH.
Qed.

Lemma site_gotos_app (t1 t2 : list Event) :
  site_gotos (t1 ++ t2) = site_gotos t1 ++ site_gotos t2.
Proof.
  induction t1 as [|e t1 IH]; simpl; [done|]. destruct e; simpl; by rewrite ?IH.
Qed.

(** Fetches of the second tab are neither sessions, nor failures, nor
    fetches of the result tab. *)
Lemma site_events_counts (evs : list Event) :
  Forall site_event evs ->
  session_count evs = 0%nat /\ failure_count evs = 0%nat /\ gotos evs = []
  /\ Forall inner_event evs.
Proof.
  induction 1 as [|e evs He _ (IH1 & IH2 & IH3 & IH4)]; [done|].
  destruct e; try done. simpl. split_and!; try done. by constructor.
Qed.

Lemma link_website_fetches `{Libraries} (web : Site) (website_url : string) :
  Forall site_event (ScraperByLink.scrape_emails_from_website web website_url).2.
Proof.
  unfold ScraperByLink.scrape_emails_from_website.
  destruct (_ || _); [constructor|].
  destruct (site_new_page web); [|constructor].
  destruct (site_goto web 0 website_url) as [home|]; [|by repeat constructor].
  destruct (site_inner_text home); [|by repeat constructor].
  destruct (site_content home); [|by repeat constructor].
  destruct (decide _); [|by repeat constructor].
  destruct (ScraperByLink.contact_page_emails _ _ _) as [em fetched] eqn:Hc.
  cbn [snd]. constructor; [done|].
  replace fetched with (ScraperByLink.contact_page_emails web website_url home).2
    by by rewrite Hc.
  clear Hc. unfold ScraperByLink.contact_page_emails.
  destruct (site_contact_href home) as [[href|]|]; try constructor.
  destruct (_ && _); [|constructor].
  destruct (Str.starts_with "http" _); [|constructor].
  destruct (site_goto web 1 _) as [contact|]; [|by repeat constructor].
  destruct (site_inner_text contact); by repeat constructor.
Qed.

Lemma keyword_contact_links_fetches `{Libraries} (web : Site) (website_url : string)
    (links : list (result (option string))) (k : nat) (emails : gset string) :
  Forall site_event (Scraper.contact_links_loop web website_url links k emails).2.
Proof.
  revert k emails. induction links as [|link links IH]; intros k emails; [constructor|].
  cbn [Scraper.contact_links_loop].
  destruct link as [[href|]|]; try apply IH.
  destruct (_ && _); [|apply IH].
  destruct (Str.starts_with "http" _); [|apply IH].
  destruct (site_goto web k _) as [sub|]; [destruct (site_inner_text sub) as [sub_text|]|];
    match goal with |- context [Scraper.contact_links_loop ?w ?u ?l ?k ?e] =>
      specialize (IH k e); destruct (Scraper.contact_links_loop w u l k e) end;
    by repeat constructor.
Qed.

Lemma keyword_website_fetches `{Libraries} (web : Site) (website_url : string) :
  Forall site_event (Scraper.scrape_emails_from_website web website_url).2.
Proof.
  unfold Scraper.scrape_emails_from_website.
  destruct (_ || _); [constructor|].
  destruct (site_new_page web); [|constructor].
  destruct (site_goto web 0 website_url) as [home|]; [|by repeat constructor].
  destruct (site_inner_text home); [|by repeat constructor].
  destruct (site_content home); [|by repeat constructor].
  destruct (site_links home) as [contact_links|]; [|by repeat constructor].
  match goal with |- context [Scraper.contact_links_loop ?w ?u ?l ?k ?e] =>
    pose proof (keyword_contact_links_fetches w u l k e) as Hl;
    destruct (Scraper.contact_links_loop w u l k e) end.
  by repeat constructor.
Qed.

Section KeywordFacts.
Context {libs : Libraries}.

#[local] Instance keyword_keeps_refl : Reflexive keyword_keeps.
Proof. by intros s. Qed.

#[local] Instance keyword_keeps_trans : Transitive keyword_keeps.
Proof.
  intros a b c (H1 & H2 & H3 & H4) (H5 & H6 & H7 & H8).
  unfold keyword_keeps. split_and!; congruence.
Qed.

Ltac keyword_keeps_now :=
  split_and!;
  cbn [Scraper.max_results Scraper.trace Scraper.scraped_places Scraper.step
         Scraper.set_page Scraper.set_seen_places Scraper.set_proxy_manager
         Scraper.set_scraped_places];
  rewrite ?session_count_app, ?failure_count_app; cbn [session_count failure_count];
  (done || lia).

Lemma keyword_parse_none (now : string) (s : Scraper.PlaceScraper) :
  Scraper.parse_place_details now s = (None, s).
Proof. reflexivity. Qed.

Lemma keyword_page_goto_keeps (sess : Session) (url : string) (s : Scraper.PlaceScraper) :
  keyword_keeps s (Scraper.page_goto sess url s).2.
Proof.
  unfold Scraper.page_goto. destruct (goto sess _ url); cbn [snd]; keyword_keeps_now.
Qed.

Lemma keyword_page_go_back_keeps (sess : Session) (s : Scraper.PlaceScraper) :
  keyword_keeps s (Scraper.page_go_back sess s).2.
Proof. unfold Scraper.page_go_back. cbn [snd]. keyword_keeps_now. Qed.

Lemma keyword_try_place_keeps (sess : Session) (link : string) (s : Scraper.PlaceScraper) :
  keyword_keeps s (Scraper.try_place sess link s).2.
Proof.
  unfold Scraper.try_place.
  pose proof (keyword_page_goto_keeps sess link s) as H.
  destruct (Scraper.page_goto sess link s) as [[?|m] s1]; cbn [fst snd] in *; [|done].
  destruct (check_for_captcha _); [done|].
  rewrite keyword_parse_none.
  pose proof (keyword_page_go_back_keeps sess s1) as H'.
  destruct (Scraper.page_go_back sess s1) as [[?|?] s4]; cbn [snd] in *; by etrans.
Qed.

Lemma keyword_links_loop_keeps (links : list string) (sess : Session)
    (s : Scraper.PlaceScraper) :
  keyword_keeps s (Scraper.links_loop links sess s).2.
Proof.
  revert s. induction links as [|link rest IH]; intros s; simpl; [done|].
  destruct (_ >=? _); [done|].
  pose proof (keyword_try_place_keeps sess link s) as H.
  destruct (Scraper.try_place sess link s) as [[|e] s1]; cbn [fst snd] in *.
  - etrans; [exact H | apply IH].
  - destruct (Str.contains "CAPTCHA" e); [done|]. etrans; [exact H | apply IH].
Qed.

Lemma keyword_search_keeps (sess : Session) (s : Scraper.PlaceScraper) :
  keyword_keeps s (Scraper.search_google_maps sess s).2.
Proof.
  unfold Scraper.search_google_maps.
  pose proof (keyword_page_goto_keeps sess "https://www.google.com/maps?hl=en" s) as H.
  destruct (Scraper.page_goto sess _ s) as [[?|m] s1]; cbn [fst snd] in *; [|done].
  match goal with |- context [Scraper.page_goto sess ?u s1] =>
    pose proof (keyword_page_goto_keeps sess u s1) as H';
    destruct (Scraper.page_goto sess u s1) as [[?|m] s2] end; cbn [fst snd] in *;
    [|by etrans].
  destruct (check_for_captcha _); [by etrans|].
  destruct (wait_for_selector _ _); by etrans.
Qed.

Lemma keyword_attempt_keeps (sess : Session) (s : Scraper.PlaceScraper) :
  keyword_keeps s (Scraper.attempt sess s).2.
Proof.
  unfold Scraper.attempt. destruct (setup_browser sess); [|done].
  pose proof (keyword_search_keeps sess s) as H.
  destruct (Scraper.search_google_maps sess s) as [[|] s1]; cbn [fst snd] in *; [|done].
  destruct (Scraper.collect_results s1) as [|l ls]; [done|].
  etrans; [exact H | apply keyword_links_loop_keeps].
Qed.

(** The outer loop of the keyword scraper: [k] sessions were opened, [f] of
    them failed, and if all of them failed there were [remaining] of them. *)
Lemma keyword_session_loop_counts (w : World) (max_retries : Z) (remaining : nat)
    (retry_count : Z) (s : Scraper.PlaceScraper) :
  let r := Scraper.session_loop w max_retries remaining retry_count s in
  exists k f : nat,
    session_count (Scraper.trace r.2) = (session_count (Scraper.trace s) + k)%nat
    /\ failure_count (Scraper.trace r.2) = (failure_count (Scraper.trace s) + f)%nat
    /\ (f <= k <= remaining)%nat
    /\ (f = k -> k = remaining)
    /\ r.1 = Scraper.scraped_places r.2
    /\ r.1 = Scraper.scraped_places s.
Proof.
  revert retry_count s. induction remaining as [|rem IH]; intros retry_count s.
  - exists 0%nat, 0%nat. cbn. split_and!; (done || lia).
  - cbn [Scraper.session_loop].
    destruct (get_next_proxy _) as [proxy pm].
    set (s1 := Scraper.new_session _ _ _).
    pose proof (keyword_attempt_keeps (session w (Z.to_nat retry_count) proxy) s1) as Hg.
    destruct (Scraper.attempt _ s1) as [[|m] s2]; cbn [snd] in Hg;
      destruct Hg as (Hmax & Hcnt & Hfl & Hex).
    + exists 1%nat, 0%nat. cbn [fst snd Scraper.trace Scraper.scraped_places Scraper.step].
      rewrite session_count_app, failure_count_app, Hcnt, Hfl, Hex. subst s1.
      cbn [Scraper.trace Scraper.scraped_places Scraper.new_session
             Scraper.set_proxy_manager session_count failure_count].
      rewrite session_count_app, failure_count_app. cbn [session_count failure_count].
      split_and!; (done || lia).
    + match goal with |- context [Scraper.session_loop w max_retries rem ?rc ?s3] =>
        specialize (IH rc s3);
        destruct (Scraper.session_loop w max_retries rem rc s3) as [res s'];
        assert (session_count (Scraper.trace s3) = S (session_count (Scraper.trace s))
                /\ failure_count (Scraper.trace s3) = S (failure_count (Scraper.trace s))
                /\ Scraper.scraped_places s3 = Scraper.scraped_places s)
          as (Hc3 & Hf3 & Hp3)
      end.
      { destruct (_ <? _);
          cbn [Scraper.trace Scraper.scraped_places Scraper.step];
          rewrite ?session_count_app, ?failure_count_app, Hcnt, Hfl, Hex; subst s1;
          cbn [Scraper.trace Scraper.scraped_places Scraper.new_session
                 Scraper.set_proxy_manager session_count failure_count];
          rewrite ?session_count_app, ?failure_count_app;
          cbn [session_count failure_count]; split_and!; (done || lia). }
      cbn [fst snd] in *. destruct IH as (k & f & IHc & IHf & Hle & Hall & IHr & IHe).
      exists (S k), (S f). split_and!; try lia; [done | by rewrite IHe].
Qed.

Lemma keyword_session_loop_result (w : World) (max_retries : Z) (remaining : nat)
    (retry_count : Z) (s : Scraper.PlaceScraper) :
  (Scraper.session_loop w max_retries remaining retry_count s).1
  = Scraper.scraped_places s.
Proof.
  by destruct (keyword_session_loop_counts w max_retries remaining retry_count s)
    as (k & f & _ & _ & _ & _ & _ & H).
Qed.

(** In keyword mode a blocked session ends at the search. *)
Lemma keyword_attempt_blocked (sess : Session) (s : Scraper.PlaceScraper) :
  session_blocked sess -> exists m s1, Scraper.attempt sess s = (Raised m, s1).
Proof.
  intros Hb. unfold Scraper.attempt. destruct (setup_browser sess); [|by eauto].
  assert ((Scraper.search_google_maps sess s).1 = false) as Hn.
  { unfold Scraper.search_google_maps.
    destruct (Scraper.page_goto sess _ s) as [[?|?] s1]; [|done].
    match goal with |- context [Scraper.page_goto sess ?u s1] =>
      unfold Scraper.page_goto at 1; destruct (goto sess (Scraper.tick s1) u) eqn:E end;
      [|done].
    cbn [Scraper.page Scraper.set_page]. by rewrite (Hb _ _ _ E). }
  destruct (Scraper.search_google_maps sess s) as [b s1]. cbn [fst] in Hn. subst b.
  by eauto.
Qed.

(** In a blocked world every attempt of the keyword scraper fails. *)
Lemma keyword_session_loop_blocked (w : World) (max_retries : Z) (remaining : nat)
    (retry_count : Z) (s : Scraper.PlaceScraper) :
  always_blocked w ->
  let r := Scraper.session_loop w max_retries remaining retry_count s in
  session_count (Scraper.trace r.2) = (session_count (Scraper.trace s) + remaining)%nat
  /\ failure_count (Scraper.trace r.2) = (failure_count (Scraper.trace s) + remaining)%nat.
Proof.
  intros Hb. revert retry_count s. induction remaining as [|rem IH]; intros retry_count s.
  - cbn. lia.
  - cbn [Scraper.session_loop].
    destruct (get_next_proxy _) as [proxy pm].
    set (s1 := Scraper.new_session _ _ _).
    pose proof (keyword_attempt_keeps (session w (Z.to_nat retry_count) proxy) s1) as Hg.
    destruct (keyword_attempt_blocked (session w (Z.to_nat retry_count) proxy) s1)
      as (m & s2 & Hat).
    { intros t url p. apply Hb. }
    rewrite Hat in *. cbn [snd] in Hg. destruct Hg as (Hmax & Hcnt & Hfl & Hex).
    match goal with |- context [Scraper.session_loop w max_retries rem ?rc ?s3] =>
      specialize (IH rc s3);
      destruct (Scraper.session_loop w max_retries rem rc s3) as [res s'];
      assert (session_count (Scraper.trace s3) = S (session_count (Scraper.trace s))
              /\ failure_count (Scraper.trace s3) = S (failure_count (Scraper.trace s)))
        as (Hc3 & Hf3)
    end.
    { destruct (_ <? _);
        cbn [Scraper.trace Scraper.scraped_places Scraper.step];
        rewrite ?session_count_app, ?failure_count_app, Hcnt, Hfl; subst s1;
        cbn [Scraper.trace Scraper.scraped_places Scraper.new_session
               Scraper.set_proxy_manager session_count failure_count];
        rewrite ?session_count_app, ?failure_count_app;
        cbn [session_count failure_count]; split_and!; (done || lia). }
    cbn [fst snd] in *. lia.
Qed.

End KeywordFacts.

(** C2. In keyword mode [parse_place_details] returns [None] for every page
    and every state of the scraper, leaving the scraper as it was: the lookup
    [TIMING['networkidle_timeout']] raises [KeyError] and the handler returns
    [None].  Hence [scrape_with_retry] returns the list of records it started
    with, which is empty for a new scraper, whatever the sessions show. *)
Theorem keyword_mode_never_scrapes {libs : Libraries} :
  Config.dict_get "networkidle_timeout" Config.TIMING = None
  /\ (forall now s, Scraper.parse_place_details now s = (None, s))
  /\ (forall w max_retries s,
        (Scraper.scrape_with_retry w max_retries s).1 = Scraper.scraped_places s)
  /\ (forall w max_retries kw loc max pm,
        (Scraper.scrape_with_retry w max_retries (Scraper.init kw loc max pm)).1 = []).
Proof.
  split; [reflexivity|]. split; [apply keyword_parse_none|].
  assert (forall w max_retries s,
            (Scraper.scrape_with_retry w max_retries s).1 = Scraper.scraped_places s) as H.
  { intros w max_retries s. apply keyword_session_loop_result. }
  split; [exact H|]. intros. by rewrite H.
Qed.

(** ** Link mode: what each operation may change *)

Section LinkFacts.
Context {libs : Libraries}.
Import ScraperByLink.

#[local] Instance link_keeps_refl : Reflexive link_keeps.
Proof. by intros s. Qed.

#[local] Instance link_keeps_trans : Transitive link_keeps.
Proof.
  intros a b c (H1 & H2 & H3 & H4) (H5 & H6 & H7 & H8).
  unfold link_keeps. split_and!; congruence.
Qed.

#[local] Instance link_grows_refl : Reflexive link_grows.
Proof. intros s. split_and!; [done..|]. exists []. by rewrite app_nil_r. Qed.

#[local] Instance link_grows_trans : Transitive link_grows.
Proof.
  intros a b c (H1 & H2 & H3 & e1 & H4) (H5 & H6 & H7 & e2 & H8).
  split_and!; [congruence..|].
  exists (e1 ++ e2). by rewrite H8, H4, app_assoc.
Qed.

Lemma link_keeps_grows (s s' : LinkScraper) : link_keeps s s' -> link_grows s s'.
Proof.
  intros (H1 & H2 & H3 & H4). split_and!; [done..|]. exists []. by rewrite app_nil_r.
Qed.

Ltac keeps_now :=
  split_and!; cbn [max_results trace scraped_places step set_page set_ledger set_progress
                     set_seen_places set_proxy_manager set_scraped_places];
  rewrite ?session_count_app, ?failure_count_app; cbn [session_count failure_count];
  (done || lia).

Lemma page_goto_keeps (sess : Session) (url : string) (s : LinkScraper) :
  link_keeps s (page_goto sess url s).2.
Proof. unfold page_goto. destruct (goto sess _ url); cbn [snd]; keeps_now. Qed.

Lemma page_go_back_keeps (sess : Session) (s : LinkScraper) :
  link_keeps s (page_go_back sess s).2.
Proof. unfold page_go_back. cbn [snd]. keeps_now. Qed.

Lemma resolve_short_link_keeps (sess : Session) (url : string) (s : LinkScraper) :
  link_keeps s (resolve_short_link sess url s).2.
Proof.
  unfold resolve_short_link. pose proof (page_goto_keeps sess url s) as H.
  by destruct (page_goto sess url s) as [[?|?] s1].
Qed.

Lemma navigate_to_link_keeps (sess : Session) (s : LinkScraper) :
  link_keeps s (navigate_to_link sess s).2.
Proof.
  unfold navigate_to_link.
  destruct (String.eqb (detect_link_type (maps_url s)) "short").
  - pose proof (resolve_short_link_keeps sess (maps_url s) s) as H.
    destruct (resolve_short_link sess (maps_url s) s) as [url' s']. cbn [snd] in H.
    match goal with |- context [page_goto sess ?u s'] =>
      pose proof (page_goto_keeps sess u s') as H';
      destruct (page_goto sess u s') as [[?|?] s1] end; cbn [snd] in *; [|by etrans].
    destruct (check_for_captcha _); [by etrans|].
    destruct (String.eqb _ "search"); [destruct (wait_for_selector _ _); by etrans|].
    destruct (String.eqb _ "place"); [destruct (wait_for_selector _ _); by etrans|].
    by etrans.
  - match goal with |- context [page_goto sess ?u s] =>
      pose proof (page_goto_keeps sess u s) as H';
      destruct (page_goto sess u s) as [[?|?] s1] end; cbn [snd] in *; [|done].
    destruct (check_for_captcha _); [done|].
    destruct (String.eqb _ "search"); [by destruct (wait_for_selector _ _)|].
    destruct (String.eqb _ "place"); [by destruct (wait_for_selector _ _)|].
    done.
Qed.

(** The fetches of a parse are those of the second tab: none when websites
    are skipped. *)
Lemma website_visit (s : LinkScraper) :
  let r := if str_truthy (obs_website (page s)) && negb (skip_websites s)
           then scrape_emails_from_website (site (page s))
                  (default EmptyString (obs_website (page s)))
           else (∅, []) in
  Forall site_event r.2 /\ (skip_websites s = true -> r.2 = []).
Proof.
  cbn zeta. destruct (skip_websites s); rewrite ?andb_false_r; cbn [negb snd].
  - by split.
  - rewrite andb_true_r. split; [|done].
    destruct (str_truthy _); [apply link_website_fetches|constructor].
Qed.

Lemma note_nil (s : LinkScraper) : note [] s = s.
Proof. destruct s. unfold note. cbn. by rewrite app_nil_r. Qed.

(** A parse registers at most a name and adds at most fetches of the second
    tab. *)
Lemma parse_place_details_state (now : string) (s : LinkScraper) :
  exists seen fetched,
    (parse_place_details now s).2 = note fetched (set_seen_places seen s)
    /\ Forall site_event fetched
    /\ (skip_websites s = true -> fetched = []).
Proof.
  assert (exists seen fetched, s = note fetched (set_seen_places seen s)
    /\ Forall site_event fetched /\ (skip_websites s = true -> fetched = [])) as Hs.
  { exists (seen_places s), []. rewrite note_nil. by destruct s. }
  unfold parse_place_details. destruct (Config.subscript _ _); [|done].
  destruct (check_for_captcha _); [done|].
  destruct (negb _); [done|].
  destruct (coordinates _) as [lat lon].
  destruct (is_duplicate _ _ _ _ _) as [dup seen].
  destruct dup; cbn [snd].
  - exists seen, []. by rewrite note_nil.
  - pose proof (website_visit (set_seen_places seen s)) as [Hw1 Hw2].
    cbn zeta in Hw1, Hw2. cbn [page skip_websites set_seen_places] in *.
    match goal with |- context [let '(_, _) := ?c in _] =>
      destruct c as [em fetched] end.
    cbn [snd] in *. by exists seen, fetched.
Qed.

Lemma parse_place_details_keeps (now : string) (s : LinkScraper) :
  link_keeps s (parse_place_details now s).2.
Proof.
  destruct (parse_place_details_state now s) as (seen & fetched & -> & Hf & _).
  apply site_events_counts in Hf as (H1 & H2 & _).
  split_and!; cbn [max_results trace scraped_places note set_seen_places];
    rewrite ?session_count_app, ?failure_count_app; try done; lia.
Qed.

Lemma place_scraped_grows (sess : Session) (p : Place) (s : LinkScraper) :
  link_grows s (place_scraped sess p s).
Proof.
  unfold place_scraped. split_and!;
    cbn [max_results trace scraped_places step set_ledger set_progress set_scraped_places].
  - done.
  - by rewrite app_nil_r.
  - by rewrite app_nil_r.
  - by exists [p].
Qed.

Lemma place_failed_keeps (sess : Session) (link msg : string) (s : LinkScraper) :
  link_keeps s (place_failed sess link msg s).
Proof. unfold place_failed. keeps_now. Qed.

Lemma try_place_grows (sess : Session) (link : string) (s : LinkScraper) :
  link_grows s (try_place sess link s).2.
Proof.
  unfold try_place. pose proof (page_goto_keeps sess link s) as H.
  destruct (page_goto sess link s) as [[?|?] s1]; cbn [snd] in *;
    [|by apply link_keeps_grows].
  apply link_keeps_grows in H.
  destruct (check_for_captcha _); [done|].
  match goal with |- context [parse_place_details ?n s1] =>
    pose proof (parse_place_details_keeps n s1) as H';
    destruct (parse_place_details n s1) as [[p|] s2] end; cbn [snd] in *;
    apply link_keeps_grows in H'; [|by etrans].
  pose proof (place_scraped_grows sess p s2) as H3.
  pose proof (page_go_back_keeps sess (place_scraped sess p s2)) as H4.
  apply link_keeps_grows in H4.
  destruct (page_go_back sess _) as [[?|?] s4]; cbn [snd] in *;
    (etrans; [exact H|]; etrans; [exact H'|]; etrans; [exact H3|exact H4]).
Qed.

Lemma place_loop_grows (remaining : nat) (place_data : option Place) (sess : Session)
    (link : string) (s : LinkScraper) :
  link_grows s (place_loop remaining place_data sess link s).2.
Proof.
  revert place_data s. induction remaining as [|r IH]; intros place_data s;
    [by destruct place_data|].
  destruct place_data as [p|]; [done|]. cbn [place_loop].
  pose proof (try_place_grows sess link s) as H.
  destruct (try_place sess link s) as [[[|msg] pd] s1]; cbn [snd] in *; [done|].
  destruct (_ <=? _)%nat.
  - etrans; [exact H|]. apply link_keeps_grows, place_failed_keeps.
  - destruct (_ || _); [done|]. etrans; [exact H | apply IH].
Qed.

Lemma links_loop_grows (links : list string) (sess : Session) (s : LinkScraper) :
  link_grows s (links_loop links sess s).2.
Proof.
  revert s. induction links as [|link rest IH]; intros s; cbn [links_loop]; [done|].
  destruct (_ >=? _); [done|].
  pose proof (place_loop_grows max_place_retry None sess link s) as H.
  destruct (place_loop _ _ _ _ _) as [[|m] s1]; cbn [snd] in *; [|done].
  etrans; [exact H | apply IH].
Qed.

Lemma attempt_grows (sess : Session) (already : PySet.t) (s : LinkScraper) :
  link_grows s (attempt sess already s).2.
Proof.
  unfold attempt. destruct (setup_browser sess); [|done].
  pose proof (navigate_to_link_keeps sess s) as H. apply link_keeps_grows in H.
  destruct (navigate_to_link sess s) as [[|] s1]; cbn [snd] in *; [|done].
  destruct (String.eqb _ "place").
  - destruct (PySet.mem _ _); [done|].
    match goal with |- context [parse_place_details ?n s1] =>
      pose proof (parse_place_details_keeps n s1) as H';
      destruct (parse_place_details n s1) as [[p|] s2] end; cbn [snd] in *;
      apply link_keeps_grows in H'; [|by etrans].
    etrans; [exact H|]. etrans; [exact H'|]. apply place_scraped_grows.
  - destruct (String.eqb _ "search"); [|done].
    destruct (collect_results s1) as [|l ls]; [done|].
    etrans; [exact H | apply links_loop_grows].
Qed.

(** A session in which every page is blocked ends at the navigation. *)
Lemma navigate_to_link_blocked (sess : Session) (s : LinkScraper) :
  session_blocked sess -> (navigate_to_link sess s).1 = false.
Proof.
  intros Hb. unfold navigate_to_link.
  assert (forall u s0, match page_goto sess u s0 with
                       | (Ok _, s1) => check_for_captcha (page s1) = true
                       | (Raise _, _) => True
                       end) as Hg.
  { intros u s0. unfold page_goto. destruct (goto sess (tick s0) u) eqn:E; [|done].
    cbn [page set_page]. by eapply Hb. }
  destruct (String.eqb (detect_link_type (maps_url s)) "short").
  - destruct (resolve_short_link sess (maps_url s) s) as [url' s'].
    match goal with |- context [page_goto sess ?u s'] =>
      specialize (Hg u s'); destruct (page_goto sess u s') as [[?|?] s1] end; [|done].
    by rewrite Hg.
  - match goal with |- context [page_goto sess ?u s] =>
      specialize (Hg u s); destruct (page_goto sess u s) as [[?|?] s1] end; [|done].
    by rewrite Hg.
Qed.

Lemma attempt_blocked (sess : Session) (already : PySet.t) (s : LinkScraper) :
  session_blocked sess ->
  exists m s1, attempt sess already s = (Raised m, s1) /\ link_keeps s s1.
Proof.
  intros Hb. unfold attempt.
  destruct (setup_browser sess) as [?|m]; [|exists m, s; split; reflexivity].
  pose proof (navigate_to_link_blocked sess s Hb) as Hn.
  pose proof (navigate_to_link_keeps sess s) as Hk.
  destruct (navigate_to_link sess s) as [b s1]. cbn [fst snd] in *. subst b.
  eexists _, s1. split; [reflexivity | exact Hk].
Qed.

End LinkFacts.

(** ** The outer retry loop *)

Section RetryFacts.
Context {libs : Libraries}.

(** The outer loop of the link scraper: [k] sessions were opened, [f] of them
    failed, and if all of them failed there were [remaining] of them. *)
Lemma link_session_loop_counts (w : World) (max_retries : Z) (already : PySet.t)
    (remaining : nat) (retry_count : Z) (s : ScraperByLink.LinkScraper) :
  let r := ScraperByLink.session_loop w max_retries already remaining retry_count s in
  exists k f : nat,
    session_count (ScraperByLink.trace r.2)
      = (session_count (ScraperByLink.trace s) + k)%nat
    /\ failure_count (ScraperByLink.trace r.2)
        = (failure_count (ScraperByLink.trace s) + f)%nat
    /\ (f <= k <= remaining)%nat
    /\ (f = k -> k = remaining)
    /\ r.1 = ScraperByLink.scraped_places r.2
    /\ exists extra, r.1 = ScraperByLink.scraped_places s ++ extra.
Proof.
  revert retry_count s. induction remaining as [|rem IH]; intros retry_count s.
  - exists 0%nat, 0%nat. cbn. split_and!; try (done || lia).
    exists []. by rewrite app_nil_r.
  - cbn [ScraperByLink.session_loop].
    destruct (get_next_proxy _) as [proxy pm].
    set (s1 := ScraperByLink.new_session _ _ _).
    pose proof (attempt_grows (session w (Z.to_nat retry_count) proxy) already s1) as Hg.
    destruct (ScraperByLink.attempt _ already s1) as [[|m] s2]; cbn [snd] in Hg;
      destruct Hg as (Hmax & Hcnt & Hfl & extra & Hex).
    + exists 1%nat, 0%nat.
      cbn [fst snd ScraperByLink.trace ScraperByLink.scraped_places ScraperByLink.step].
      rewrite session_count_app, failure_count_app, Hcnt, Hfl, Hex. subst s1.
      cbn [ScraperByLink.trace ScraperByLink.scraped_places ScraperByLink.new_session
             ScraperByLink.set_proxy_manager session_count failure_count].
      rewrite session_count_app, failure_count_app. cbn [session_count failure_count].
      split_and!; try (done || lia). by exists extra.
    + match goal with
      |- context [ScraperByLink.session_loop w max_retries already rem ?rc ?s3] =>
        specialize (IH rc s3);
        destruct (ScraperByLink.session_loop w max_retries already rem rc s3) as [res s'];
        assert (session_count (ScraperByLink.trace s3)
                = S (session_count (ScraperByLink.trace s))
                /\ failure_count (ScraperByLink.trace s3)
                    = S (failure_count (ScraperByLink.trace s))
                /\ ScraperByLink.scraped_places s3
                    = ScraperByLink.scraped_places s ++ extra)
          as (Hc3 & Hf3 & Hp3)
      end.
      { destruct (_ <? _);
          cbn [ScraperByLink.trace ScraperByLink.scraped_places ScraperByLink.step];
          rewrite ?session_count_app, ?failure_count_app, Hcnt, Hfl, Hex; subst s1;
          cbn [ScraperByLink.trace ScraperByLink.scraped_places ScraperByLink.new_session
                 ScraperByLink.set_proxy_manager session_count failure_count];
          rewrite ?session_count_app, ?failure_count_app;
          cbn [session_count failure_count]; split_and!; (done || lia). }
      cbn [fst snd] in *.
      destruct IH as (k & f & IHc & IHf & Hle & Hall & IHr & extra' & IHe).
      exists (S k), (S f). split_and!; try lia; [done|].
      exists (extra ++ extra'). by rewrite IHe, Hp3, app_assoc.
Qed.

(** In a blocked world every attempt of the link scraper fails at the
    navigation and accepts nothing. *)
Lemma link_session_loop_blocked (w : World) (max_retries : Z) (already : PySet.t)
    (remaining : nat) (retry_count : Z) (s : ScraperByLink.LinkScraper) :
  always_blocked w ->
  let r := ScraperByLink.session_loop w max_retries already remaining retry_count s in
  session_count (ScraperByLink.trace r.2)
    = (session_count (ScraperByLink.trace s) + remaining)%nat
  /\ failure_count (ScraperByLink.trace r.2)
      = (failure_count (ScraperByLink.trace s) + remaining)%nat
  /\ r.1 = ScraperByLink.scraped_places s.
Proof.
  intros Hb. revert retry_count s. induction remaining as [|rem IH]; intros retry_count s.
  - cbn. split_and!; (done || lia).
  - cbn [ScraperByLink.session_loop].
    destruct (get_next_proxy _) as [proxy pm].
    set (s1 := ScraperByLink.new_session _ _ _).
    destruct (attempt_blocked (session w (Z.to_nat retry_count) proxy) already s1)
      as (m & s2 & Hat & Hmax & Hcnt & Hfl & Hex).
    { intros t url p. apply Hb. }
    rewrite Hat.
    match goal with
    |- context [ScraperByLink.session_loop w max_retries already rem ?rc ?s3] =>
      specialize (IH rc s3);
      destruct (ScraperByLink.session_loop w max_retries already rem rc s3) as [res s'];
      assert (session_count (ScraperByLink.trace s3)
              = S (session_count (ScraperByLink.trace s))
              /\ failure_count (ScraperByLink.trace s3)
                  = S (failure_count (ScraperByLink.trace s))
              /\ ScraperByLink.scraped_places s3 = ScraperByLink.scraped_places s)
        as (Hc3 & Hf3 & Hp3)
    end.
    { destruct (_ <? _);
        cbn [ScraperByLink.trace ScraperByLink.scraped_places ScraperByLink.step];
        rewrite ?session_count_app, ?failure_count_app, Hcnt, Hfl, Hex; subst s1;
        cbn [ScraperByLink.trace ScraperByLink.scraped_places ScraperByLink.new_session
               ScraperByLink.set_proxy_manager session_count failure_count];
        rewrite ?session_count_app, ?failure_count_app;
        cbn [session_count failure_count]; split_and!; (done || lia). }
    cbn [fst snd] in *. destruct IH as (IHc & IHf & IHr).
    split_and!; try lia. by rewrite IHr.
Qed.

End RetryFacts.

(** ** The result cap *)

Section CapFacts.
Context {libs : Libraries}.

Lemma link_cap_stops (links : list string) (sess : Session) (s : ScraperByLink.LinkScraper) :
  ScraperByLink.max_results s <= Z.of_nat (length (ScraperByLink.scraped_places s)) ->
  ScraperByLink.links_loop links sess s = (Returned, s).
Proof.
  intros H. destruct links as [|link rest]; [done|]. cbn [ScraperByLink.links_loop].
  rewrite Z.geb_leb. by rewrite (proj2 (Z.leb_le _ _) H).
Qed.

Lemma link_cap_prefix (l1 l2 : list string) (sess : Session)
    (s s1 : ScraperByLink.LinkScraper) :
  ScraperByLink.links_loop l1 sess s = (Returned, s1) ->
  ScraperByLink.max_results s1 <= Z.of_nat (length (ScraperByLink.scraped_places s1)) ->
  ScraperByLink.links_loop (l1 ++ l2) sess s = (Returned, s1).
Proof.
  revert s. induction l1 as [|link rest IH]; intros s Hrun Hcap.
  - injection Hrun as ->. by apply link_cap_stops.
  - cbn [ScraperByLink.links_loop app] in *.
    destruct (_ >=? _); [done|].
    destruct (ScraperByLink.place_loop _ _ _ _ _) as [[|m] s']; [|done].
    by apply IH.
Qed.

Lemma keyword_cap_stops (links : list string) (sess : Session) (s : Scraper.PlaceScraper) :
  Scraper.max_results s <= Z.of_nat (length (Scraper.scraped_places s)) ->
  Scraper.links_loop links sess s = (Returned, s).
Proof.
  intros H. destruct links as [|link rest]; [done|]. cbn [Scraper.links_loop].
  rewrite Z.geb_leb. by rewrite (proj2 (Z.leb_le _ _) H).
Qed.

Lemma keyword_cap_prefix (l1 l2 : list string) (sess : Session)
    (s s1 : Scraper.PlaceScraper) :
  Scraper.links_loop l1 sess s = (Returned, s1) ->
  Scraper.max_results s1 <= Z.of_nat (length (Scraper.scraped_places s1)) ->
  Scraper.links_loop (l1 ++ l2) sess s = (Returned, s1).
Proof.
  revert s. induction l1 as [|link rest IH]; intros s Hrun Hcap.
  - injection Hrun as ->. by apply keyword_cap_stops.
  - cbn [Scraper.links_loop app] in *.
    destruct (_ >=? _); [done|].
    destruct (Scraper.try_place _ _ _) as [[|m] s']; [by apply IH|].
    destruct (Str.contains "CAPTCHA" m); [done|]. by apply IH.
Qed.

End CapFacts.

(** C8. In both scrapers, once the per-item loop has brought the number of
    accepted records up to [max_results] on a first part of the items, the
    items after that part change nothing: the loop ends in the same state,
    with the same trace, so none of them is fetched.  In particular, on five
    discovered items that each give an accepted record and with
    [max_results = 3], the link scraper fetches the search page and the first
    three items, and returns their three records. *)
Theorem result_cap {libs : Libraries} :
  (forall l1 l2 sess s s1,
     ScraperByLink.links_loop l1 sess s = (Returned, s1) ->
     ScraperByLink.max_results s1 <= Z.of_nat (length (ScraperByLink.scraped_places s1)) ->
     ScraperByLink.links_loop (l1 ++ l2) sess s = (Returned, s1))
  /\ (forall l1 l2 sess s s1,
        Scraper.links_loop l1 sess s = (Returned, s1) ->
        Scraper.max_results s1 <= Z.of_nat (length (Scraper.scraped_places s1)) ->
        Scraper.links_loop (l1 ++ l2) sess s = (Returned, s1))
  /\ (let r := ScraperByLink.scrape_with_retry productive_world 3 sample_link_scraper in
      ScraperByLink.collect_results
        (ScraperByLink.set_page (search_page search_url five_links) sample_link_scraper)
        = five_links
      /\ map google_maps_url r.1 = [link_a; link_b; link_c]
      /\ gotos (ScraperByLink.trace r.2)
         = [search_url +:+ "?hl=en"; link_a; link_b; link_c]).
Proof.
  split; [apply link_cap_prefix|]. split; [apply keyword_cap_prefix|].
  vm_compute. done.
Qed.

Lemma result_cap_witness :
  @ScraperByLink.links_loop libs_11m ([link_a; link_b; link_c] ++ [link_d; link_e])
     productive_session sample_link_scraper
  = (Returned,
     (@ScraperByLink.links_loop libs_11m [link_a; link_b; link_c]
        productive_session sample_link_scraper).2).
Proof.
  destruct (@result_cap libs_11m) as (HL & _ & _).
  apply HL.
  - vm_compute. reflexivity.
  - vm_compute. discriminate.
Defined.

(** ** Block escalation *)

(** A CAPTCHA met on the first try of an item leaves the per-item loop by
    the re-raised exception. *)
Lemma captcha_first_try_escalates {libs : Libraries} (sess : Session) (link : string)
    (s : ScraperByLink.LinkScraper) (p : Page) :
  goto sess (ScraperByLink.tick s) link = Ok p ->
  check_for_captcha p = true ->
  (ScraperByLink.place_loop ScraperByLink.max_place_retry None sess link s).1
  = Raised "CAPTCHA detected, rotating proxy".
Proof.
  intros Hg Hc. unfold ScraperByLink.max_place_retry.
  cbn [ScraperByLink.place_loop]. unfold ScraperByLink.try_place, ScraperByLink.page_goto.
  rewrite Hg. cbn [ScraperByLink.page ScraperByLink.set_page]. rewrite Hc.
  reflexivity.
Qed.

(** In keyword mode a CAPTCHA met on any item leaves the loop by the
    re-raised exception. *)
Lemma keyword_captcha_escalates {libs : Libraries} (sess : Session) (link : string)
    (rest : list string) (s : Scraper.PlaceScraper) (p : Page) :
  Z.of_nat (length (Scraper.scraped_places s)) < Scraper.max_results s ->
  goto sess (Scraper.tick s) link = Ok p ->
  check_for_captcha p = true ->
  (Scraper.links_loop (link :: rest) sess s).1 = Raised "CAPTCHA detected, rotating proxy".
Proof.
  intros Hcap Hg Hc. cbn [Scraper.links_loop].
  rewrite Z.geb_leb, (proj2 (Z.leb_gt _ _) Hcap).
  unfold Scraper.try_place, Scraper.page_goto. rewrite Hg.
  cbn [Scraper.page Scraper.set_page]. rewrite Hc. reflexivity.
Qed.

(** C6 on the failing input.  One session, two result links.  The first try
    of the first link times out; its second try, the last one allowed, meets
    a CAPTCHA.  The CAPTCHA is written to the failure log like any item
    failure, the same session goes on to the second link and accepts it, and
    the run ends after that single session attempt. *)
Theorem captcha_on_last_retry_not_escalated {libs : Libraries} :
  let r := ScraperByLink.scrape_with_retry late_captcha_world 3 sample_link_scraper in
  session_count (ScraperByLink.trace r.2) = 1%nat
  /\ gotos (ScraperByLink.trace r.2) = [search_url +:+ "?hl=en"; link_a; link_a; link_b]
  /\ map google_maps_url r.1 = [link_b]
  /\ lines_of (failed_filename (saver (ScraperByLink.ledger r.2))) (ScraperByLink.ledger r.2)
     = [TextLine (link_a +:+ " | Error: CAPTCHA detected, rotating proxy" +:+ newline)]
  /\ failed (ScraperByLink.progress r.2) = 1.
Proof. vm_compute. done. Qed.

(** * Further properties of the code *)

(** ** The files [save_place] writes *)

Lemma csv_step_lookup (io : IO) (place : Dict) (l : Ledger) (fn : string) :
  let l1 :=
    let fn := csv_filename (saver l) in
    let file_exists := path_exists fn (disk l) in
    let d := if file_exists then disk l
             else append_line fn (CsvHeader (map fst place)) (disk l) in
    if csv_ok io then with_disk (append_line fn (CsvRow place) d) l
    else
      match csv_failure io with
      | CsvOpenFails => l
      | CsvHeaderFails => with_disk (touch fn (disk l)) l
      | CsvRowFails => with_disk d l
      end in
  saver l1 = saver l
  /\ disk l1 !! fn
     = if decide (fn = csv_filename (saver l)) then
         if csv_ok io
         then Some (lines_of (csv_filename (saver l)) l ++ csv_written io place l)
         else
           match csv_failure io with
           | CsvOpenFails => disk l !! fn
           | _ => Some (lines_of (csv_filename (saver l)) l ++ csv_written io place l)
           end
       else disk l !! fn.
Proof.
  unfold csv_written, lines_of, path_exists, append_line. cbn zeta.
  destruct (csv_ok io); [|destruct (csv_failure io)]; cbn [saver disk with_disk];
    (split; [done|]).
  - destruct (decide (fn = csv_filename (saver l))) as [->|Hne].
    + rewrite lookup_insert_eq.
      destruct (disk l !! csv_filename (saver l)) eqn:E; simpl.
      * by rewrite E.
      * by rewrite lookup_insert_eq.
    + rewrite lookup_insert_ne by done.
      destruct (disk l !! csv_filename (saver l)); [done|].
      by rewrite lookup_insert_ne.
  - by destruct (decide _).
  - rewrite lookup_touch. destruct (decide _) as [->|]; [|done]. by rewrite app_nil_r.
  - destruct (decide (fn = csv_filename (saver l))) as [->|Hne].
    + destruct (disk l !! csv_filename (saver l)) eqn:E; simpl.
      * by rewrite E, app_nil_r.
      * by rewrite lookup_insert_eq.
    + destruct (disk l !! csv_filename (saver l)); [done|].
      by rewrite lookup_insert_ne.
Qed.

(** What [save_place] leaves in each file of the disk. *)
Lemma save_place_disk (io : IO) (place : Dict) (l : Ledger) (fn : string) :
  disk (save_place io place l) !! fn
  = if decide (fn = resume_filename (saver l)) then
      match Config.dict_get "google_maps_url" place with
      | Some url =>
          if resume_ok io
          then Some [ResumeJson
                       (PySet.to_list (PySet.add url (scraped_urls (saver l)))) (now io)]
          else
            match resume_failure io with
            | RewriteOpenFails => disk l !! fn
            | RewriteDumpFails partial => Some (truncated partial)
            end
      | None => disk l !! fn
      end
    else if decide (fn = jsonl_filename (saver l)) then
      if jsonl_ok io
      then Some (lines_of (jsonl_filename (saver l)) l ++ [JsonLine place])
      else
        match jsonl_failure io with
        | AppendOpenFails => disk l !! fn
        | AppendWriteFails => Some (lines_of (jsonl_filename (saver l)) l)
        end
    else if decide (fn = csv_filename (saver l)) then
      if csv_ok io
      then Some (lines_of (csv_filename (saver l)) l ++ csv_written io place l)
      else
        match csv_failure io with
        | CsvOpenFails => disk l !! fn
        | _ => Some (lines_of (csv_filename (saver l)) l ++ csv_written io place l)
        end
    else disk l !! fn.
Proof.
  destruct (filenames_distinct (saver l)) as (Hcj & Hcr & Hcf & Hjr & Hjf & Hrf).
  destruct (decide (fn = resume_filename (saver l))) as [->|Hr];
    [apply save_place_resume_lookup|].
  unfold save_place.
  set (l1 := if csv_ok io then _ else _).
  destruct (csv_step_lookup io place l (jsonl_filename (saver l))) as [Hs1 Hj1].
  rewrite decide_False in Hj1 by (intros E; by apply Hcj).
  cbn zeta in Hs1, Hj1. fold l1 in Hs1, Hj1.
  pose proof (proj2 (csv_step_lookup io place l fn)) as H1.
  cbn zeta in H1. fold l1 in H1.
  set (l2 := if jsonl_ok io then _ else _).
  assert (saver l2 = saver l) as Hs2
    by (subst l2; destruct (jsonl_ok io); [done|]; by destruct (jsonl_failure io)).
  assert (disk l2 !! fn
          = if decide (fn = jsonl_filename (saver l)) then
              if jsonl_ok io
              then Some (lines_of (jsonl_filename (saver l)) l ++ [JsonLine place])
              else
                match jsonl_failure io with
                | AppendOpenFails => disk l !! fn
                | AppendWriteFails => Some (lines_of (jsonl_filename (saver l)) l)
                end
            else disk l1 !! fn) as H2.
  { subst l2. rewrite Hs1. unfold append_line, lines_of.
    destruct (jsonl_ok io); [|destruct (jsonl_failure io)]; cbn [disk with_disk].
    - destruct (decide (fn = jsonl_filename (saver l))) as [->|Hne].
      + rewrite lookup_insert_eq. by rewrite Hj1.
      + by rewrite lookup_insert_ne.
    - destruct (decide (fn = jsonl_filename (saver l))) as [->|]; [exact Hj1|done].
    - rewrite lookup_touch.
      destruct (decide (fn = jsonl_filename (saver l))) as [->|]; [by rewrite Hj1|done]. }
  destruct (Config.dict_get "google_maps_url" place) as [url|]; [|by rewrite H2, H1].
  rewrite save_resume_state_lookup_ne.
  - cbn [disk]. by rewrite H2, H1.
  - cbn [saver]. rewrite Hs2. exact Hr.
Qed.



Lemma run_call_base (c : Call) (l : Ledger) :
  base_filename (saver (run_call l c)) = base_filename (saver l).
Proof.
  destruct c as [io place|ok url error]; simpl.
  - by destruct (save_place_effect io place l) as (H & _).
  - by destruct (save_failed_url_effect ok url error l) as (-> & _).
Qed.

Lemma run_calls_base (calls : list Call) (l : Ledger) :
  base_filename (saver (run_calls calls l)) = base_filename (saver l).
Proof.
  revert l. induction calls as [|c calls IH]; intros l; [done|].
  simpl. by rewrite IH, run_call_base.
Qed.

(** ** The streams, line by line *)







(** The header of a record whose row could not be written stays, over the
    row of the next record. *)
Example header_of_failed_row :
  lines_of (csv_filename (saver sample_ledger))
    (run_calls [CallSavePlace io_row_fails [("name", VStr "Cafe Uno")];
                CallSavePlace io_ok [("name", VStr "Bar Dos"); ("phone", VNone)]]
       sample_ledger)
  = [CsvHeader ["name"]; CsvRow [("name", VStr "Bar Dos"); ("phone", VNone)]].
Proof. vm_compute. reflexivity. Qed.

(** ** The processed set and the resume file *)

Lemma processed_run_call (c : Call) (l : Ledger) (u : string) :
  processed u l -> processed u (run_call l c).
Proof.
  destruct c as [io place|ok url error]; simpl; intros H.
  - apply processed_save_place. by left.
  - by apply streams_save_failed_url.
Qed.

Lemma processed_run_calls (calls : list Call) (l : Ledger) (u : string) :
  processed u l -> processed u (run_calls calls l).
Proof.
  revert l. induction calls as [|c calls IH]; intros l H; [done|].
  simpl. by apply IH, processed_run_call.
Qed.


Lemma load_resume_state_base (readable : bool) (a b : IncrementalSaver) (d : Disk) :
  base_filename a = base_filename b ->
  load_resume_state readable a d = load_resume_state readable b d.
Proof. intros H. unfold load_resume_state, resume_filename. by rewrite H. Qed.

Lemma resume_within_processed_step (c : Call) (l : Ledger) :
  resume_within_processed l -> resume_within_processed (run_call l c).
Proof.
  intros Hl readable u.
  rewrite (load_resume_state_base readable _ (saver l)) by apply run_call_base.
  destruct c as [io place|ok url error]; cbn [run_call].
  - unfold load_resume_state at 1. rewrite save_place_disk, decide_True by done.
    destruct (Config.dict_get "google_maps_url" place) as [url|] eqn:Hurl.
    + destruct (resume_ok io).
      * destruct readable; [|discriminate]. rewrite mem_of_list_str. unfold PySet.to_list.
        intros H. unfold processed.
        destruct (save_place_effect io place l) as (_ & -> & _). by rewrite Hurl.
      * destruct (resume_failure io) as [|partial].
        -- intros H. apply processed_save_place. left. by apply (Hl readable).
        -- unfold truncated. destruct readable, (Str.is_empty partial); discriminate.
    + intros H. apply processed_save_place. left. by apply (Hl readable).
  - intros H. apply streams_save_failed_url. apply (Hl readable).
    destruct (save_failed_url_effect ok url error l) as (_ & _ & Hn).
    destruct (filenames_distinct (saver l)) as (_ & _ & _ & _ & _ & Hrf).
    unfold load_resume_state in *. by rewrite Hn in H.
Qed.

(** X3.  The resume file never runs ahead of the processed set: from a ledger
    whose resume file is absent, whatever the calls and whichever writes
    fail, every identifier that [load_resume_state] would return is in the
    processed set of the ledger. *)
Theorem resume_file_within_processed (calls : list Call) (l0 : Ledger) :
  disk l0 !! resume_filename (saver l0) = None ->
  let l := run_calls calls l0 in
  forall readable u,
    PySet.mem (VStr u) (load_resume_state readable (saver l) (disk l)) = true ->
    processed u l.
Proof.
  intros H0. cbn zeta.
  assert (resume_within_processed l0) as Hl.
  { intros readable u. unfold load_resume_state. rewrite H0. discriminate. }
  clear H0. revert l0 Hl. induction calls as [|c calls IH]; intros l0 Hl; [exact Hl|].
  simpl. by apply IH, resume_within_processed_step.
Qed.

Lemma resume_file_within_processed_witness :
  processed sample_url (run_calls sample_calls sample_ledger).
Proof.
  apply (resume_file_within_processed sample_calls sample_ledger
           ltac:(vm_compute; reflexivity) true sample_url).
  vm_compute. reflexivity.
Defined.

(** X4.  After a [save_place] call on a place that carries the key and whose
    rewrite of the resume file succeeds, a new instance on the same files
    loads a set with exactly the string members of the processed set. *)
Theorem resume_file_mirrors_processed (io : IO) (place : Dict) (url : value) (l : Ledger)
    (fresh : IncrementalSaver) (u : string) :
  Config.dict_get "google_maps_url" place = Some url ->
  resume_ok io = true ->
  base_filename fresh = base_filename (saver l) ->
  let l' := save_place io place l in
  PySet.mem (VStr u) (load_resume_state true fresh (disk l'))
  = PySet.mem (VStr u) (scraped_urls (saver l')).
Proof.
  intros Hu Hok Hb. cbn zeta. unfold load_resume_state, resume_filename. rewrite Hb.
  fold (resume_filename (saver l)).
  rewrite (save_place_resume_file io place url l Hu Hok), mem_of_list_str.
  destruct (save_place_effect io place l) as (_ & -> & _). by rewrite Hu.
Qed.

Lemma resume_file_mirrors_processed_witness :
  PySet.mem (VStr sample_url)
    (load_resume_state true (IncrementalSaver_init "search" "20240501_100000")
       (disk (save_place io_ok (to_dict sample_place) sample_ledger)))
  = PySet.mem (VStr sample_url)
      (scraped_urls (saver (save_place io_ok (to_dict sample_place) sample_ledger))).
Proof.
  apply (resume_file_mirrors_processed io_ok (to_dict sample_place) (VStr sample_url)
           sample_ledger (IncrementalSaver_init "search" "20240501_100000") sample_url);
    reflexivity.
Defined.

(** X5.  A place without the key ['google_maps_url'] is written to the two
    streams like any other: when the CSV write succeeds the file gains the
    row, after the header of the record if the file was not there, and when
    the JSONL write succeeds the file gains the line.  But the ledger object
    and the resume file stay as they were, whether the writes succeed or
    not: nothing marks the place as processed. *)
Theorem save_place_without_url (io : IO) (place : Dict) (l : Ledger) :
  Config.dict_get "google_maps_url" place = None ->
  let l' := save_place io place l in
  saver l' = saver l
  /\ disk l' !! resume_filename (saver l) = disk l !! resume_filename (saver l)
  /\ (csv_ok io = true ->
      lines_of (csv_filename (saver l)) l'
      = lines_of (csv_filename (saver l)) l
        ++ (if path_exists (csv_filename (saver l)) (disk l) then []
            else [CsvHeader (map fst place)])
        ++ [CsvRow place])
  /\ (jsonl_ok io = true ->
      lines_of (jsonl_filename (saver l)) l'
      = lines_of (jsonl_filename (saver l)) l ++ [JsonLine place]).
Proof.
  intros Hn. cbn zeta.
  destruct (save_place_effect io place l) as (_ & _ & Hc & Hj & _).
  split_and!.
  - destruct (save_place_blocks io place l) as (l2 & Hs2 & _ & ->). by rewrite Hn.
  - rewrite save_place_disk, decide_True by done. by rewrite Hn.
  - intros Hok. rewrite Hc. unfold csv_written. by rewrite Hok.
  - intros Hok. rewrite Hj. unfold jsonl_written. by rewrite Hok.
Qed.

Lemma save_place_without_url_witness :
  let l' := save_place io_ok [("name", VStr "Cafe Uno")] sample_ledger in
  saver l' = saver sample_ledger
  /\ disk l' !! resume_filename (saver sample_ledger) = None
  /\ lines_of (csv_filename (saver sample_ledger)) l'
     = [CsvHeader ["name"]; CsvRow [("name", VStr "Cafe Uno")]]
  /\ lines_of (jsonl_filename (saver sample_ledger)) l'
     = [JsonLine [("name", VStr "Cafe Uno")]].
Proof.
  destruct (save_place_without_url io_ok [("name", VStr "Cafe Uno")] sample_ledger
              eq_refl) as (H1 & H2 & H3 & H4).
  split; [exact H1|]. split; [exact H2|]. split; [exact (H3 eq_refl)|exact (H4 eq_refl)].
Defined.

(** A CSV write that fails at the row leaves the header of a new file
    behind. *)
Example header_left_behind :
  lines_of (csv_filename (saver sample_ledger))
    (save_place io_row_fails [("name", VStr "Cafe Uno")] sample_ledger)
  = [CsvHeader ["name"]].
Proof. vm_compute. reflexivity. Qed.

(** ** No URL twice *)

Lemma elem_of_strings_of (u : string) (s : PySet.t) :
  u ∈ strings_of s <-> PySet.mem (VStr u) s = true.
Proof.
  induction s as [|v s IH]; simpl.
  - split; [intros H; by apply elem_of_nil in H | discriminate].
  - destruct v as [|x|f]; simpl; rewrite ?IH; try done.
    rewrite elem_of_cons, IH, orb_true_iff, String.eqb_eq. split; intros [H|H]; auto.
Qed.

Lemma strings_of_app (s1 s2 : PySet.t) :
  strings_of (s1 ++ s2) = strings_of s1 ++ strings_of s2.
Proof.
  induction s1 as [|v s1 IH]; simpl; [done|]. destruct v; simpl; by rewrite ?IH.
Qed.

Lemma strings_of_add_nodup (v : value) (s : PySet.t) :
  NoDup (strings_of s) -> NoDup (strings_of (PySet.add v s)).
Proof.
  intros H. unfold PySet.add. destruct (PySet.mem v s) eqn:E; [done|].
  rewrite strings_of_app. destruct v as [|u|f]; simpl; rewrite ?app_nil_r; try done.
  apply NoDup_app. split; [done|]. split; [|apply NoDup_singleton].
  intros x Hx ->%list_elem_of_singleton. apply elem_of_strings_of in Hx. congruence.
Qed.

Lemma strings_of_of_list_nodup (l : list value) : NoDup (strings_of (PySet.of_list l)).
Proof.
  unfold PySet.of_list.
  assert (forall acc, NoDup (strings_of acc) ->
            NoDup (strings_of (fold_left (fun s x => PySet.add x s) l acc))) as H.
  { induction l as [|x l IH]; intros acc Hacc; [done|].
    simpl. by apply IH, strings_of_add_nodup. }
  apply H. constructor.
Qed.

(** No URL is held twice: neither in the processed set of a ledger, whatever
    calls it has served since it was created, nor in the list that
    [save_resume_state] writes from it, nor in a set that
    [load_resume_state] returns, whatever the file holds. *)
Lemma no_url_twice (link_type timestamp : string) (d d' : Disk) (calls : list Call)
    (readable : bool) (self : IncrementalSaver) :
  NoDup (strings_of (scraped_urls
           (saver (run_calls calls (fresh_ledger link_type timestamp d)))))
  /\ NoDup (strings_of (load_resume_state readable self d')).
Proof.
  split.
  - assert (forall l, NoDup (strings_of (scraped_urls (saver l))) ->
              NoDup (strings_of (scraped_urls (saver (run_calls calls l))))) as H.
    { induction calls as [|c calls IH]; intros l Hl; [done|].
      simpl. apply IH. destruct c as [io place|ok url error]; cbn [run_call].
      - destruct (save_place_effect io place l) as (_ & -> & _).
        destruct (Config.dict_get _ _); [by apply strings_of_add_nodup|done].
      - by destruct (save_failed_url_effect ok url error l) as (-> & _). }
    apply H. constructor.
  - unfold load_resume_state. destruct (d' !! _) as [content|]; [|constructor].
    destruct readable; [|constructor].
    destruct content as [|[| | |urls ts|] [|? ?]]; try constructor.
    apply strings_of_of_list_nodup.
Qed.

(** ** Splitting *)

Lemma split_no_sep (sep : ascii) (s : string) :
  Str.has_char sep s = false -> Str.split sep s = [s].
Proof.
  induction s as [|c s IH]; simpl; [done|].
  intros [Hc Hs]%orb_false_iff. rewrite Hc, (IH Hs). done.
Qed.

Lemma split_app_sep (sep : ascii) (a b : string) :
  Str.has_char sep a = false ->
  Str.split sep (a +:+ String sep b) = a :: Str.split sep b.
Proof.
  induction a as [|c a IH]; simpl.
  - intros _. by rewrite Ascii.eqb_refl.
  - intros [Hc Ha]%orb_false_iff. by rewrite Hc, (IH Ha).
Qed.

Lemma split_nonempty (sep : ascii) (s : string) : Str.split sep s <> [].
Proof.
  destruct s as [|c s]; simpl; [done|].
  destruct (Ascii.eqb c sep); [done|]. by destruct (Str.split sep s).
Qed.

Lemma split_length (sep : ascii) (s : string) :
  (2 <=? length (Str.split sep s))%nat = Str.has_char sep s.
Proof.
  induction s as [|c s IH]; simpl; [done|].
  pose proof (split_nonempty sep s) as Hne.
  destruct (Ascii.eqb c sep); simpl.
  - by destruct (Str.split sep s).
  - destruct (Str.split sep s) as [|p [|q ps]]; simpl in *; done.
Qed.

Lemma is_empty_app_char (a b : string) (c : ascii) :
  Str.is_empty (a +:+ String c b) = false.
Proof. by destruct a. Qed.

(** ** ProxyManager: loading the pool *)

Lemma load_proxies_app (lines : list string) (self : ProxyManager) :
  proxies (load_proxies lines self) = proxies self ++ omap parse_proxy_line lines
  /\ current_index (load_proxies lines self) = current_index self.
Proof.
  revert self. induction lines as [|line rest IH]; intros self; simpl.
  - by rewrite app_nil_r.
  - destruct (parse_proxy_line line) as [p|]; [|apply IH].
    destruct (IH {| proxies := proxies self ++ [p];
                    current_index := current_index self |}) as [-> ->].
    simpl. by rewrite <- app_assoc.
Qed.

Lemma parse_proxy_line_none (line : string) :
  parse_proxy_line line = None
  <-> Str.is_empty (Str.strip line) = true
      \/ Str.starts_with "#" (Str.strip line) = true
      \/ Str.has_char ":" (Str.strip line) = false.
Proof.
  unfold parse_proxy_line. rewrite split_length.
  destruct (Str.is_empty (Str.strip line)); cbn [negb andb]; [split; auto|].
  destruct (Str.starts_with "#" (Str.strip line)); cbn [negb andb]; [split; auto|].
  destruct (Str.has_char ":" (Str.strip line)).
  - split; [discriminate|]. intros [?|[?|?]]; discriminate.
  - split; auto.
Qed.

Lemma omap_length_le {A B} (f : A -> option B) (l : list A) :
  (length (omap f l) <= length l)%nat.
Proof. induction l as [|a l IH]; csimpl; [done|]. destruct (f a); csimpl; lia. Qed.

(** X6.  [load_proxies] keeps the proxies already in the pool and the rotation
    cursor, and appends at most one proxy per line, in file order; a line
    gives no proxy exactly when, once stripped, it is empty, starts with [#]
    or has no colon. *)
Theorem load_proxies_lines (lines : list string) (self : ProxyManager) :
  proxies (load_proxies lines self) = proxies self ++ omap parse_proxy_line lines
  /\ current_index (load_proxies lines self) = current_index self
  /\ (length (proxies (load_proxies lines self))
      <= length (proxies self) + length lines)%nat
  /\ forall line,
       parse_proxy_line line = None
       <-> Str.is_empty (Str.strip line) = true
           \/ Str.starts_with "#" (Str.strip line) = true
           \/ Str.has_char ":" (Str.strip line) = false.
Proof.
  destruct (load_proxies_app lines self) as [Hp Hi].
  split_and!; [done|done| |apply parse_proxy_line_none].
  rewrite Hp, length_app. pose proof (omap_length_le parse_proxy_line lines). lia.
Qed.

(** X7.  A line in the documented format [ip:port:username:password], with no
    colon inside a field, no blank at either end and no leading [#], gives
    the server [http://ip:port] with these credentials; a line [ip:port]
    gives the same server without credentials. *)
Theorem proxy_line_format (ip port user pass : string) :
  Str.has_char ":" ip = false -> Str.has_char ":" port = false ->
  Str.has_char ":" user = false -> Str.has_char ":" pass = false ->
  Str.strip (ip +:+ ":" +:+ port +:+ ":" +:+ user +:+ ":" +:+ pass)
    = ip +:+ ":" +:+ port +:+ ":" +:+ user +:+ ":" +:+ pass ->
  Str.strip (ip +:+ ":" +:+ port) = ip +:+ ":" +:+ port ->
  Str.starts_with "#" ip = false ->
  parse_proxy_line (ip +:+ ":" +:+ port +:+ ":" +:+ user +:+ ":" +:+ pass)
    = Some {| server := "http://" +:+ ip +:+ ":" +:+ port;
              credentials := Some (user, pass) |}
  /\ parse_proxy_line (ip +:+ ":" +:+ port)
     = Some {| server := "http://" +:+ ip +:+ ":" +:+ port; credentials := None |}.
Proof.
  intros Hi Hp Hu Hw Hs4 Hs2 Hh.
  assert (forall rest, Str.starts_with "#" (ip +:+ String ":" rest) = false) as Hh'.
  { intros rest. destruct ip as [|c ip]; [done|]. simpl in *.
    by destruct (Ascii.eqb "#" c). }
  unfold parse_proxy_line. rewrite Hs4, Hs2.
  change (ip +:+ ":" +:+ port +:+ ":" +:+ user +:+ ":" +:+ pass)
    with (ip +:+ String ":" (port +:+ String ":" (user +:+ String ":" pass))).
  change (ip +:+ ":" +:+ port) with (ip +:+ String ":" port).
  rewrite !is_empty_app_char, !Hh'. cbn [negb andb].
  rewrite !split_app_sep by done. rewrite (split_no_sep _ pass Hw), (split_no_sep _ port Hp).
  done.
Qed.

Lemma proxy_line_format_witness :
  parse_proxy_line "10.0.0.2:3128:alice:s3cret"
    = Some {| server := "http://10.0.0.2:3128"; credentials := Some ("alice", "s3cret") |}
  /\ parse_proxy_line "10.0.0.2:3128"
     = Some {| server := "http://10.0.0.2:3128"; credentials := None |}.
Proof.
  apply (proxy_line_format "10.0.0.2" "3128" "alice" "s3cret"); reflexivity.
Defined.

Example load_sample_proxy_file :
  proxies (ProxyManager_init (Some sample_proxy_file))
  = [ {| server := "http://10.0.0.1:8080"; credentials := None |};
      {| server := "http://10.0.0.2:3128"; credentials := Some ("alice", "s3cret") |} ].
Proof. reflexivity. Qed.

(** ** ProxyManager: rotation *)

Lemma map_nth_error_seq {A} (l : list A) :
  map (nth_error l) (seq 0 (length l)) = map Some l.
Proof.
  induction l as [|a l IH]; [done|].
  cbn [length seq map nth_error]. f_equal.
  rewrite <- seq_shift, map_map. exact IH.
Qed.

Lemma next_proxies_rotation (k : nat) (self : ProxyManager) :
  proxies self <> [] ->
  (current_index self < length (proxies self))%nat ->
  let n := length (proxies self) in
  (next_proxies k self).1
    = map (fun j => nth_error (proxies self) ((current_index self + j) mod n)) (seq 0 k)
  /\ proxies (next_proxies k self).2 = proxies self
  /\ current_index (next_proxies k self).2 = ((current_index self + k) mod n)%nat.
Proof.
  intros Hne. cbn zeta. revert self Hne.
  induction k as [|k IH]; intros self Hne Hi.
  - cbn. split_and!; [done|done|]. rewrite Nat.add_0_r. by rewrite Nat.mod_small.
  - cbn [next_proxies]. unfold get_next_proxy.
    destruct (proxies self) as [|p ps] eqn:E; [done|]. rewrite <- E in *.
    set (self' := {| proxies := proxies self;
                     current_index := (current_index self + 1) mod length (proxies self) |}).
    assert (length (proxies self) <> 0)%nat as Hn by (rewrite E; simpl; lia).
    specialize (IH self' Hne ltac:(by apply Nat.mod_upper_bound)).
    destruct (next_proxies k self') as [rest self''].
    cbn [fst snd proxies current_index self'] in *.
    destruct IH as (-> & -> & ->). split_and!; [|done|].
    + cbn [seq map]. f_equal.
      * by rewrite Nat.add_0_r, Nat.mod_small.
      * rewrite <- seq_shift, map_map. apply map_ext. intros j.
        f_equal. rewrite Nat.Div0.add_mod_idemp_l. f_equal. lia.
    + rewrite Nat.Div0.add_mod_idemp_l. f_equal. lia.
Qed.

(** X8.  Round robin.  With a non-empty pool and the cursor inside it, the [j]-th
    of [k] successive [get_next_proxy] calls returns the proxy at position
    [(cursor + j) mod n], the pool is unchanged and the cursor ends at
    [(cursor + k) mod n]; so [n] calls on a manager just loaded hand out every
    proxy once, in file order, and leave the manager as it was.  With an empty
    pool the call returns [None] and changes nothing. *)
Theorem get_next_proxy_round_robin (k : nat) (self : ProxyManager) :
  let n := length (proxies self) in
  (proxies self <> [] -> (current_index self < n)%nat ->
   (next_proxies k self).1
     = map (fun j => nth_error (proxies self) ((current_index self + j) mod n)) (seq 0 k)
   /\ proxies (next_proxies k self).2 = proxies self
   /\ current_index (next_proxies k self).2 = ((current_index self + k) mod n)%nat)
  /\ (proxies self <> [] -> current_index self = 0%nat ->
      next_proxies n self = (map Some (proxies self), self))
  /\ (proxies self = [] -> get_next_proxy self = (None, self)).
Proof.
  cbn zeta. split_and!.
  - apply next_proxies_rotation.
  - intros Hne H0.
    assert (length (proxies self) <> 0)%nat as Hn by (by destruct (proxies self)).
    destruct (next_proxies_rotation (length (proxies self)) self Hne ltac:(lia))
      as (H1 & H2 & H3).
    destruct (next_proxies _ self) as [rs self']. cbn [fst snd] in *.
    f_equal.
    + rewrite H1, H0, <- map_nth_error_seq. apply map_ext_in.
      intros j Hj%in_seq. cbn. by rewrite Nat.mod_small by lia.
    + destruct self as [ps i], self' as [ps' i']. cbn in *. subst.
      by rewrite Nat.Div0.mod_same.
  - intros H. unfold get_next_proxy. by rewrite H.
Qed.

Lemma get_next_proxy_round_robin_witness :
  next_proxies 2 (ProxyManager_init (Some sample_proxy_file))
  = (map Some (proxies (ProxyManager_init (Some sample_proxy_file))),
     ProxyManager_init (Some sample_proxy_file)).
Proof.
  apply (get_next_proxy_round_robin 2 (ProxyManager_init (Some sample_proxy_file)));
    [discriminate|reflexivity].
Defined.

(** ** A link-mode attempt as a sequence of steps *)

Section LinkStepFacts.
Context {libs : Libraries}.
Import ScraperByLink.

#[local] Instance world_step_refl : Reflexive world_step.
Proof.
  intros s. unfold world_step. split_and!; try done.
  exists []. by rewrite app_nil_r.
Qed.

#[local] Instance world_step_trans : Transitive world_step.
Proof.
  intros a b c (A1 & A2 & A3 & A4 & A5 & A6 & A7 & A8 & e1 & A9 & A10)
               (B1 & B2 & B3 & B4 & B5 & B6 & B7 & B8 & e2 & B9 & B10).
  unfold world_step. split_and!; try congruence.
  exists (e1 ++ e2). split; [by rewrite B9, A9, app_assoc | by apply Forall_app].
Qed.

Ltac world_now :=
  unfold world_step;
  cbn [maps_url max_results skip_websites proxy_manager ledger progress scraped_places
       seen_places trace step set_page set_seen_places];
  split_and!; try done; eexists; (split; [reflexivity|]); by repeat constructor.

Lemma page_goto_world (sess : Session) (url : string) (s : LinkScraper) :
  world_step s (page_goto sess url s).2.
Proof. unfold page_goto. destruct (goto sess _ url); cbn [snd]; world_now. Qed.

Lemma page_go_back_world (sess : Session) (s : LinkScraper) :
  world_step s (page_go_back sess s).2.
Proof. unfold page_go_back. cbn [snd]. world_now. Qed.

Lemma resolve_short_link_world (sess : Session) (url : string) (s : LinkScraper) :
  world_step s (resolve_short_link sess url s).2.
Proof.
  unfold resolve_short_link. pose proof (page_goto_world sess url s) as H.
  by destruct (page_goto sess url s) as [[?|?] s1].
Qed.

Lemma navigate_to_link_world (sess : Session) (s : LinkScraper) :
  world_step s (navigate_to_link sess s).2.
Proof.
  unfold navigate_to_link.
  destruct (String.eqb (detect_link_type (maps_url s)) "short").
  - pose proof (resolve_short_link_world sess (maps_url s) s) as H.
    destruct (resolve_short_link sess (maps_url s) s) as [url' s']. cbn [snd] in H.
    match goal with |- context [page_goto sess ?u s'] =>
      pose proof (page_goto_world sess u s') as H';
      destruct (page_goto sess u s') as [[?|?] s1] end; cbn [snd] in *; [|by etrans].
    destruct (check_for_captcha _); [by etrans|].
    destruct (String.eqb _ "search"); [destruct (wait_for_selector _ _); by etrans|].
    destruct (String.eqb _ "place"); [destruct (wait_for_selector _ _); by etrans|].
    by etrans.
  - match goal with |- context [page_goto sess ?u s] =>
      pose proof (page_goto_world sess u s) as H';
      destruct (page_goto sess u s) as [[?|?] s1] end; cbn [snd] in *; [|done].
    destruct (check_for_captcha _); [done|].
    destruct (String.eqb _ "search"); [by destruct (wait_for_selector _ _)|].
    destruct (String.eqb _ "place"); [by destruct (wait_for_selector _ _)|].
    done.
Qed.

(** What a parse that gives a record has established. *)
Lemma parse_place_details_some (now : string) (s s1 : LinkScraper) (p : Place) :
  parse_place_details now s = (Some p, s1) ->
  check_for_captcha (page s) = false
  /\ extract_text (page s) (selector "place_name") = Some (name p)
  /\ Str.is_empty (name p) = false
  /\ (latitude p, longitude p) = coordinates (page s)
  /\ google_maps_url p = page_url (page s)
  /\ scraped_at p = now
  /\ is_duplicate (name p) (latitude p) (longitude p) (seen_places s) (scraped_places s)
     = (false, seen_places s1)
  /\ exists fetched,
       s1 = note fetched (set_seen_places (seen_places s1) s)
       /\ Forall site_event fetched
       /\ (skip_websites s = true -> fetched = []).
Proof.
  unfold parse_place_details. destruct (Config.subscript _ _); [|done].
  destruct (check_for_captcha _); [done|].
  destruct (extract_text _ _) as [n|] eqn:En; cbn [str_truthy negb default]; [|done].
  destruct (Str.is_empty n) eqn:Ee; cbn [negb]; [done|].
  destruct (coordinates _) as [lat lon].
  destruct (is_duplicate _ _ _ _ _) as [dup seen] eqn:Ed.
  destruct dup; [done|].
  pose proof (website_visit (set_seen_places seen s)) as [Hw1 Hw2].
  cbn zeta in Hw1, Hw2. cbn [page skip_websites set_seen_places] in *.
  match goal with |- context [let '(_, _) := ?c in _] =>
    destruct c as [em fetched] end.
  cbn [snd] in *. intros [= <- <-]. cbn [name latitude longitude google_maps_url
    scraped_at seen_places set_seen_places note]. split_and!; try done.
  by exists fetched.
Qed.

(** A parse that gives nothing has changed nothing. *)
Lemma parse_place_details_none (now : string) (s s1 : LinkScraper) :
  parse_place_details now s = (None, s1) -> world_step s s1.
Proof.
  unfold parse_place_details. destruct (Config.subscript _ _); [|by intros [= <-]].
  destruct (check_for_captcha _); [by intros [= <-]|].
  destruct (negb _); [by intros [= <-]|].
  destruct (coordinates _) as [lat lon].
  destruct (is_duplicate _ _ _ _ _) as [dup seen] eqn:Ed.
  destruct dup; [|by destruct (if _ && _ then _ else _)]. intros [= <-].
  assert (seen = seen_places s) as ->.
  { unfold is_duplicate in Ed. repeat case_match; by simplify_eq. }
  unfold world_step. cbn [maps_url max_results skip_websites proxy_manager ledger
    progress scraped_places seen_places trace set_seen_places].
  split_and!; try done. exists []. by rewrite app_nil_r.
Qed.

Lemma try_place_steps (sess : Session) (link : string) (s : LinkScraper) :
  rtc (link_step sess) s (try_place sess link s).2.
Proof.
  unfold try_place. pose proof (page_goto_world sess link s) as H.
  destruct (page_goto sess link s) as [[?|?] s1]; cbn [snd] in *;
    [|apply rtc_once; by left].
  destruct (check_for_captcha _); [apply rtc_once; by left|].
  destruct (parse_place_details _ s1) as [[p|] s2] eqn:Ep; cbn [snd].
  - pose proof (page_go_back_world sess (place_scraped sess p s2)) as H4.
    eapply rtc_l; [by left|]. eapply rtc_l; [right; left; by eexists _, p, s2|].
    destruct (page_go_back sess _) as [[?|?] s4]; cbn [snd] in *; apply rtc_once; by left.
  - apply parse_place_details_none in Ep.
    eapply rtc_l; [by left|]. apply rtc_once; by left.
Qed.

Lemma place_loop_steps (remaining : nat) (place_data : option Place) (sess : Session)
    (link : string) (s : LinkScraper) :
  rtc (link_step sess) s (place_loop remaining place_data sess link s).2.
Proof.
  revert place_data s. induction remaining as [|r IH]; intros place_data s;
    [by destruct place_data|].
  destruct place_data as [p|]; [done|]. cbn [place_loop].
  pose proof (try_place_steps sess link s) as H.
  destruct (try_place sess link s) as [[[|msg] pd] s1]; cbn [snd] in *; [done|].
  destruct (_ <=? _)%nat.
  - eapply rtc_r; [exact H|]. right; right. by eexists link, msg.
  - destruct (_ || _); [done|]. etrans; [exact H | apply IH].
Qed.

Lemma links_loop_steps (links : list string) (sess : Session) (s : LinkScraper) :
  rtc (link_step sess) s (links_loop links sess s).2.
Proof.
  revert s. induction links as [|link rest IH]; intros s; cbn [links_loop]; [done|].
  destruct (_ >=? _); [done|].
  pose proof (place_loop_steps max_place_retry None sess link s) as H.
  destruct (place_loop _ _ _ _ _) as [[|m] s1]; cbn [snd] in *; [|done].
  etrans; [exact H | apply IH].
Qed.

Lemma attempt_steps (sess : Session) (already : PySet.t) (s : LinkScraper) :
  rtc (link_step sess) s (attempt sess already s).2.
Proof.
  unfold attempt. destruct (setup_browser sess); [|done].
  pose proof (navigate_to_link_world sess s) as H.
  destruct (navigate_to_link sess s) as [[|] s1]; cbn [snd] in *;
    [|apply rtc_once; by left].
  destruct (String.eqb _ "place").
  - destruct (PySet.mem _ _); [apply rtc_once; by left|].
    destruct (parse_place_details _ s1) as [[p|] s2] eqn:Ep; cbn [snd].
    + eapply rtc_l; [by left|]. apply rtc_once. right; left. by eexists _, p, s2.
    + apply parse_place_details_none in Ep.
      eapply rtc_l; [by left|]. apply rtc_once; by left.
  - destruct (String.eqb _ "search"); [|apply rtc_once; by left].
    destruct (collect_results s1) as [|l ls]; [apply rtc_once; by left|].
    eapply rtc_l; [by left|]. apply links_loop_steps.
Qed.

End LinkStepFacts.

(** ** What the steps preserve *)

Lemma teardown_count_app (a b : list Event) :
  teardown_count (a ++ b) = (teardown_count a + teardown_count b)%nat.
Proof. induction a as [|[] a IH]; simpl; lia. Qed.

Lemma sleep_count_app (a b : list Event) :
  sleep_count (a ++ b) = (sleep_count a + sleep_count b)%nat.
Proof. induction a as [|[] a IH]; simpl; lia. Qed.

Lemma inner_events_counts (evs : list Event) :
  Forall inner_event evs ->
  session_count evs = 0%nat /\ failure_count evs = 0%nat
  /\ teardown_count evs = 0%nat /\ sleep_count evs = 0%nat.
Proof.
  induction 1 as [|e evs He _ IH]; [done|]. by destruct e.
Qed.

Lemma is_duplicate_false {libs : Libraries} (name0 : string) (lat lon : option float)
    (seen seen' : gset string) (places : list Place) :
  is_duplicate name0 lat lon seen places = (false, seen') ->
  Str.is_empty name0 = false
  /\ (name0 ∉ seen)
  /\ seen' = {[ name0 ]} ∪ seen
  /\ (float_truthy lat && float_truthy lon = true ->
      scan_places name0 (float_or_zero lat) (float_or_zero lon) places = false).
Proof.
  unfold is_duplicate. destruct (Str.is_empty name0); [done|].
  destruct (bool_decide_reflect (name0 ∈ seen)) as [|Hn]; [done|].
  destruct (float_truthy lat && float_truthy lon); cbn [andb].
  - destruct (scan_places _ _ _ _); [done|]. by intros [= <-].
  - by intros [= <-].
Qed.

Lemma is_duplicate_true {libs : Libraries} (name0 : string) (lat lon : option float)
    (seen seen' : gset string) (places : list Place) :
  is_duplicate name0 lat lon seen places = (true, seen') -> seen' = seen.
Proof. unfold is_duplicate. intros H. repeat case_match; by simplify_eq. Qed.

Lemma well_separated_snoc {libs : Libraries} (places : list Place) (p : Place) :
  well_separated places ->
  (located p = true ->
   forall q, In q places -> located q = true ->
     within_tolerance (float_or_zero (latitude p)) (float_or_zero (longitude p)) q
     = false) ->
  well_separated (places ++ [p]).
Proof.
  intros Hw Hp before q after Heq Hq.
  destruct after as [|x after _] using rev_ind.
  - apply app_inj_tail in Heq as [-> ->]. by apply Hp.
  - rewrite app_comm_cons, app_assoc in Heq. apply app_inj_tail in Heq as [Heq _].
    by eapply Hw.
Qed.

Section LinkInvariants.
Context {libs : Libraries}.
Import ScraperByLink.

Lemma accept_step_effect (sess : Session) (s s' : LinkScraper) :
  accept_step sess s s' ->
  exists p,
    is_duplicate (name p) (latitude p) (longitude p) (seen_places s) (scraped_places s)
      = (false, seen_places s')
    /\ google_maps_url p = page_url (page s)
    /\ scraped_places s' = scraped_places s ++ [p]
    /\ ledger s' = save_place (file_io sess (tick s)) (to_dict p) (ledger s)
    /\ progress s' = increment_success (progress s)
    /\ max_results s' = max_results s
    /\ exists fetched,
         trace s' = trace s ++ fetched
         /\ Forall site_event fetched
         /\ (skip_websites s = true -> fetched = []).
Proof.
  intros (now & p & s1 & Hp & ->).
  apply parse_place_details_some in Hp
    as (_ & _ & _ & _ & Hu & _ & Hd & fetched & Hs & Hf & Hk).
  exists p. rewrite Hs. split_and!; try done.
  exists fetched. split_and!; try done.
  cbn [place_scraped trace set_progress set_scraped_places set_ledger step note
         set_seen_places]. by rewrite app_nil_r.
Qed.

Lemma link_step_trace (sess : Session) (s s' : LinkScraper) :
  link_step sess s s' ->
  exists evs, trace s' = trace s ++ evs /\ Forall inner_event evs.
Proof.
  intros [H|[H|H]].
  - destruct H as (_ & _ & _ & _ & _ & _ & _ & _ & evs & Ht & Hf).
    exists evs. split; [done|]. eapply Forall_impl; [exact Hf|]. by intros [].
  - apply accept_step_effect in H as (p & _ & _ & _ & _ & _ & _ & fetched & Ht & Hf & _).
    exists fetched. split; [done|]. by apply site_events_counts.
  - destruct H as (link & msg & ->). by exists [].
Qed.

(** With websites skipped, no step fetches in the second tab. *)
Lemma link_step_sites (sess : Session) (s s' : LinkScraper) :
  link_step sess s s' ->
  skip_websites s = true ->
  skip_websites s' = true /\ site_gotos (trace s') = site_gotos (trace s).
Proof.
  intros [H|[H|H]] Hk.
  - destruct H as (_ & _ & Hk' & _ & _ & _ & _ & _ & evs & Ht & Hf).
    split; [by rewrite Hk'|]. rewrite Ht, site_gotos_app.
    assert (site_gotos evs = []) as ->; [|by rewrite app_nil_r].
    clear Ht. induction Hf as [|e evs He _ IH]; [done|]. by destruct e.
  - destruct H as (now & p & s1 & Hp & ->).
    apply parse_place_details_some in Hp
      as (_ & _ & _ & _ & _ & _ & _ & fetched & -> & _ & Hf).
    rewrite (Hf Hk). split; [done|].
    cbn [place_scraped trace set_progress set_scraped_places set_ledger step note
           set_seen_places]. by rewrite !app_nil_r.
  - destruct H as (link & msg & ->). split; [done|].
    cbn [place_failed trace set_progress set_ledger step]. by rewrite app_nil_r.
Qed.

Lemma link_steps_sites (sess : Session) (s s' : LinkScraper) :
  rtc (link_step sess) s s' ->
  skip_websites s = true ->
  skip_websites s' = true /\ site_gotos (trace s') = site_gotos (trace s).
Proof.
  induction 1 as [s|s s1 s2 H _ IH]; [done|]. intros Hk.
  apply link_step_sites in H as [Hk1 Ht1]; [|done].
  destruct (IH Hk1) as [Hk2 Ht2]. split; [done|]. by rewrite Ht2.
Qed.

Lemma link_steps_trace (sess : Session) (s s' : LinkScraper) :
  rtc (link_step sess) s s' ->
  exists evs, trace s' = trace s ++ evs /\ Forall inner_event evs.
Proof.
  induction 1 as [s|s s1 s2 H _ (e2 & IH & IHf)].
  - exists []. by rewrite app_nil_r.
  - apply link_step_trace in H as (e1 & H & Hf).
    exists (e1 ++ e2). split; [by rewrite IH, H, app_assoc | by apply Forall_app].
Qed.

Lemma names_distinct_step (sess : Session) (s s' : LinkScraper) :
  link_step sess s s' -> names_distinct s -> names_distinct s'.
Proof.
  intros [H|[H|H]] [Hn Hs].
  - destruct H as (_ & _ & _ & _ & _ & _ & Hp & Hsn & _).
    unfold names_distinct. by rewrite Hp, Hsn.
  - apply accept_step_effect in H as (p & Hd & _ & Hp & _).
    apply is_duplicate_false in Hd as (_ & Hfresh & Hseen & _).
    unfold names_distinct. rewrite Hp, Hseen, map_app. split.
    + apply NoDup_app. split_and!; [done| |apply NoDup_singleton].
      intros x Hx Hx'. apply list_elem_of_singleton in Hx' as ->.
      apply list_elem_of_fmap in Hx as (q & Hq & Hin).
      apply Hfresh. rewrite Hq. apply Hs. by apply list_elem_of_In.
    + intros q Hq. apply in_app_or in Hq as [Hq|[<-|[]]];
        [apply elem_of_union_r; by apply Hs
        |apply elem_of_union_l; by apply elem_of_singleton].
  - destruct H as (link & msg & ->). done.
Qed.

Lemma well_separated_step (sess : Session) (s s' : LinkScraper) :
  link_step sess s s' ->
  well_separated (scraped_places s) -> well_separated (scraped_places s').
Proof.
  intros [H|[H|H]] Hw.
  - destruct H as (_ & _ & _ & _ & _ & _ & Hp & _). by rewrite Hp.
  - apply accept_step_effect in H as (p & Hd & _ & Hp & _).
    apply is_duplicate_false in Hd as (_ & _ & _ & Hscan).
    rewrite Hp. apply well_separated_snoc; [done|].
    intros Hl q Hq Hlq. specialize (Hscan Hl).
    destruct (within_tolerance _ _ q) eqn:Hwt; [|done].
    assert (scan_places (name p) (float_or_zero (latitude p))
              (float_or_zero (longitude p)) (scraped_places s) = true) as Ht.
    { apply scan_places_iff. exists q. eauto. }
    congruence.
  - destruct H as (link & msg & ->). done.
Qed.

End LinkInvariants.

Section LinkRunFacts.
Context {libs : Libraries}.
Import ScraperByLink.

#[local] Instance books_kept_refl : Reflexive books_kept.
Proof.
  intros s. unfold books_kept. split_and!; try done.
  exists []. rewrite app_nil_r. split_and!; [done|simpl; lia|by intros p []].
Qed.

#[local] Instance books_kept_trans : Transitive books_kept.
Proof.
  intros a b c ((e1 & A1 & A2 & A3) & A4 & A5 & A6 & A7 & A8 & A9)
               ((e2 & B1 & B2 & B3) & B4 & B5 & B6 & B7 & B8 & B9).
  unfold books_kept. split_and!; try (congruence || lia || eauto).
  exists (e1 ++ e2). split_and!.
  - by rewrite B1, A1, app_assoc.
  - rewrite B2, A2, length_app. lia.
  - intros p Hp. apply in_app_or in Hp as [Hp|Hp]; eauto.
Qed.

Lemma has_url_to_dict (p : Place) : has_url (google_maps_url p) (to_dict p).
Proof. reflexivity. Qed.

Lemma books_kept_step (sess : Session) (s s' : LinkScraper) :
  link_step sess s s' -> books_kept s s'.
Proof.
  intros [H|[H|H]].
  - destruct H as (_ & Hm & _ & _ & Hl & Hp & Hs & _).
    unfold books_kept. rewrite Hm, Hl, Hp, Hs. apply books_kept_refl.
  - apply accept_step_effect in H as (p & _ & _ & Hp & Hl & Hpr & Hm & _).
    unfold books_kept. rewrite Hp, Hl, Hpr, Hm.
    destruct (save_place_effect (file_io sess (tick s)) (to_dict p) (ledger s))
      as (Hb & _).
    cbn [total success failed current increment_success].
    split_and!; try (done || lia).
    + exists [p]. split_and!; [done|simpl; lia|].
      intros q [<-|[]]. apply processed_save_place. right. apply has_url_to_dict.
    + intros u Hu. apply processed_save_place. by left.
  - destruct H as (link & msg & ->).
    unfold books_kept, place_failed.
    cbn [scraped_places progress ledger max_results set_progress set_ledger step
         total success failed current increment_failed].
    destruct (save_failed_url_effect (failed_io sess (tick s)) link msg (ledger s))
      as (Hsv & _).
    split_and!; try (done || lia).
    + exists []. rewrite app_nil_r. split_and!; [done|simpl; lia|by intros p []].
    + by rewrite Hsv.
    + intros u Hu. by apply streams_save_failed_url.
Qed.

Lemma books_kept_outer (s s' : LinkScraper) : outer_step s s' -> books_kept s s'.
Proof.
  intros (_ & Hm & _ & Hl & Hp & Hs & _).
  unfold books_kept. rewrite Hm, Hl, Hp, Hs. apply books_kept_refl.
Qed.

Lemma link_steps_preserve (P : LinkScraper -> Prop) (sess : Session)
    (s s' : LinkScraper) :
  (forall a b, link_step sess a b -> P a -> P b) ->
  rtc (link_step sess) s s' -> P s -> P s'.
Proof. intros Hstep. induction 1; eauto. Qed.

(** Whatever the steps of an attempt and the moves of the outer loop
    preserve, a run preserves. *)
Lemma session_loop_preserves (P : LinkScraper -> Prop) (w : World) :
  (forall n proxy a b, link_step (session w n proxy) a b -> P a -> P b) ->
  (forall a b, outer_step a b -> P a -> P b) ->
  forall max_retries already remaining retry_count s,
    P s -> P (session_loop w max_retries already remaining retry_count s).2.
Proof.
  intros Hstep Houter max_retries already remaining.
  induction remaining as [|rem IH]; intros retry_count s HP; [done|].
  cbn [session_loop]. destruct (get_next_proxy _) as [proxy pm].
  set (s1 := new_session _ _ _).
  assert (P s1) as HP1 by (apply (Houter s); [by split_and!|done]).
  pose proof (attempt_steps (session w (Z.to_nat retry_count) proxy) already s1) as Hr.
  destruct (attempt _ already s1) as [[|m] s2]; cbn [snd] in *;
    pose proof (link_steps_preserve P _ _ _ (Hstep _ _) Hr HP1) as HP2.
  - apply (Houter s2); [by split_and!|done].
  - apply IH. destruct (_ <? _); (apply (Houter s2); [by split_and!|done]).
Qed.

Lemma scrape_with_retry_result (w : World) (max_retries : Z) (s : LinkScraper) :
  (scrape_with_retry w max_retries s).1
  = scraped_places (scrape_with_retry w max_retries s).2.
Proof.
  unfold scrape_with_retry.
  destruct (link_session_loop_counts w max_retries
              (load_resume_state (resume_readable w) (saver (ledger s)) (disk (ledger s)))
              (Z.to_nat max_retries) 0 s) as (k & f & _ & _ & _ & _ & H & _).
  exact H.
Qed.

Lemma scrape_with_retry_books (w : World) (max_retries : Z) (s : LinkScraper) :
  books_kept s (scrape_with_retry w max_retries s).2.
Proof.
  unfold scrape_with_retry. apply (session_loop_preserves (books_kept s)).
  - intros n proxy a b Hab Ha. etrans; [exact Ha | by eapply books_kept_step].
  - intros a b Hab Ha. etrans; [exact Ha | by apply books_kept_outer].
  - reflexivity.
Qed.

End LinkRunFacts.

(** X9.  Deduplication over a whole run, by name.  If the accepted records of a
    link scraper have pairwise different names, all of them registered in
    [seen_places] (as in a new scraper, which has none), then so have the
    records that [scrape_with_retry] returns, whatever the pages show and
    however many sessions the run takes. *)
Theorem accepted_names_distinct {libs : Libraries} (w : World) (max_retries : Z)
    (s : ScraperByLink.LinkScraper) :
  names_distinct s ->
  let r := ScraperByLink.scrape_with_retry w max_retries s in
  NoDup (map name r.1)
  /\ forall p, In p r.1 -> name p ∈ ScraperByLink.seen_places r.2.
Proof.
  intros H r. subst r. rewrite scrape_with_retry_result.
  unfold ScraperByLink.scrape_with_retry.
  apply (session_loop_preserves names_distinct); [| |done].
  - intros n proxy a b. apply names_distinct_step.
  - intros a b (_ & _ & _ & _ & _ & Hp & Hs). unfold names_distinct. by rewrite Hp, Hs.
Qed.

Lemma accepted_names_distinct_witness :
  let r := @ScraperByLink.scrape_with_retry libs_11m productive_world 3
             sample_link_scraper in
  NoDup (map name r.1)
  /\ forall p, In p r.1 -> name p ∈ ScraperByLink.seen_places r.2.
Proof.
  apply (@accepted_names_distinct libs_11m productive_world 3 sample_link_scraper).
  split; [constructor | intros p []].
Defined.

(** X10.  Deduplication over a whole run, by distance.  If every accepted record
    with two truthy coordinates lies outside the tolerance radius of the
    records with two truthy coordinates accepted before it, the same holds of
    the records that [scrape_with_retry] returns. *)
Theorem accepted_places_separated {libs : Libraries} (w : World) (max_retries : Z)
    (s : ScraperByLink.LinkScraper) :
  well_separated (ScraperByLink.scraped_places s) ->
  well_separated (ScraperByLink.scrape_with_retry w max_retries s).1.
Proof.
  intros H. rewrite scrape_with_retry_result.
  unfold ScraperByLink.scrape_with_retry.
  apply (session_loop_preserves (fun x => well_separated (ScraperByLink.scraped_places x)));
    [| |done].
  - intros n proxy a b. apply well_separated_step.
  - intros a b (_ & _ & _ & _ & _ & Hp & _). by rewrite Hp.
Qed.

Lemma accepted_places_separated_witness :
  @well_separated libs_25m
    (@ScraperByLink.scrape_with_retry libs_25m located_world 3 sample_link_scraper).1.
Proof.
  apply (@accepted_places_separated libs_25m located_world 3 sample_link_scraper).
  intros before p after Heq. by destruct before.
Defined.

(** X11.  The progress counters of a link-mode run.  The records returned are the
    records held before followed by the newly accepted ones; [success] grows
    by exactly the number of newly accepted records, [failed] never
    decreases, [total] is not touched, and [current] keeps its distance to
    [success + failed]: if [current = success + failed] before the run, it
    holds after it. *)
Theorem progress_counts_accepted {libs : Libraries} (w : World) (max_retries : Z)
    (s : ScraperByLink.LinkScraper) :
  let r := ScraperByLink.scrape_with_retry w max_retries s in
  let before := ScraperByLink.progress s in
  let after := ScraperByLink.progress r.2 in
  (exists extra,
     r.1 = ScraperByLink.scraped_places s ++ extra
     /\ success after = success before + Z.of_nat (length extra))
  /\ failed before <= failed after
  /\ total after = total before
  /\ current after - (success after + failed after)
     = current before - (success before + failed before).
Proof.
  intros r before after. subst r before after. rewrite scrape_with_retry_result.
  destruct (scrape_with_retry_books w max_retries s)
    as ((extra & H1 & H2 & _) & H3 & H4 & H5 & _).
  split_and!; [by exists extra|done|done|lia].
Qed.

(** X12.  Every record accepted during a link-mode run has its URL in the processed
    set of the ledger when the run ends, and no URL leaves the processed set
    during the run. *)
Theorem accepted_urls_processed {libs : Libraries} (w : World) (max_retries : Z)
    (s : ScraperByLink.LinkScraper) :
  let r := ScraperByLink.scrape_with_retry w max_retries s in
  (exists extra,
     r.1 = ScraperByLink.scraped_places s ++ extra
     /\ forall p, In p extra ->
          processed (google_maps_url p) (ScraperByLink.ledger r.2))
  /\ forall u, processed u (ScraperByLink.ledger s) ->
               processed u (ScraperByLink.ledger r.2).
Proof.
  intros r. subst r. rewrite scrape_with_retry_result.
  destruct (scrape_with_retry_books w max_retries s)
    as ((extra & H1 & _ & H2) & _ & _ & _ & _ & H3 & _).
  split; [by exists extra|done].
Qed.

(** ** The outer loop: sessions, clean-up and waits *)

Section OuterLoopFacts.
Context {libs : Libraries}.
Import ScraperByLink.

Lemma attempt_trace (sess : Session) (already : PySet.t) (s : LinkScraper) :
  let t := trace (attempt sess already s).2 in
  session_count t = session_count (trace s)
  /\ failure_count t = failure_count (trace s)
  /\ teardown_count t = teardown_count (trace s)
  /\ sleep_count t = sleep_count (trace s).
Proof.
  cbn zeta.
  destruct (link_steps_trace _ _ _ (attempt_steps sess already s)) as (evs & Ht & Hin).
  apply inner_events_counts in Hin as (H1 & H2 & H3 & H4).
  rewrite Ht, session_count_app, failure_count_app, teardown_count_app, sleep_count_app.
  lia.
Qed.

Lemma link_session_loop_events (w : World) (max_retries : Z) (already : PySet.t)
    (remaining : nat) (retry_count : Z) (s : LinkScraper) :
  (remaining <> 0%nat -> retry_count + Z.of_nat remaining = max_retries) ->
  let r := session_loop w max_retries already remaining retry_count s in
  exists k f : nat,
    session_count (trace r.2) = (session_count (trace s) + k)%nat
    /\ failure_count (trace r.2) = (failure_count (trace s) + f)%nat
    /\ teardown_count (trace r.2) = (teardown_count (trace s) + k)%nat
    /\ sleep_count (trace r.2)
       = (sleep_count (trace s) + Nat.min f (remaining - 1))%nat
    /\ (f <= k <= remaining)%nat
    /\ (k <= f + 1)%nat.
Proof.
  revert retry_count s. induction remaining as [|rem IH]; intros retry_count s Hrem.
  - exists 0%nat, 0%nat. cbn. split_and!; lia.
  - cbn [session_loop].
    destruct (get_next_proxy _) as [proxy pm].
    set (s1 := new_session _ _ _).
    assert (session_count (trace s1) = S (session_count (trace s))
            /\ failure_count (trace s1) = failure_count (trace s)
            /\ teardown_count (trace s1) = teardown_count (trace s)
            /\ sleep_count (trace s1) = sleep_count (trace s)) as (A1 & A2 & A3 & A4).
    { subst s1. cbn [trace new_session set_proxy_manager].
      rewrite session_count_app, failure_count_app, teardown_count_app, sleep_count_app.
      cbn. lia. }
    destruct (attempt_trace (session w (Z.to_nat retry_count) proxy) already s1)
      as (B1 & B2 & B3 & B4).
    destruct (attempt _ already s1) as [[|m] s2]; cbn [snd] in *.
    + exists 1%nat, 0%nat. cbn [trace step].
      rewrite session_count_app, failure_count_app, teardown_count_app, sleep_count_app.
      cbn. lia.
    + match goal with
      |- context [session_loop w max_retries already rem ?rc ?s3] =>
        specialize (IH rc s3);
        destruct (session_loop w max_retries already rem rc s3) as [res s'];
        assert (session_count (trace s3) = S (session_count (trace s))
                /\ failure_count (trace s3) = S (failure_count (trace s))
                /\ teardown_count (trace s3) = S (teardown_count (trace s))
                /\ sleep_count (trace s3)
                   = (sleep_count (trace s) + (if rem is O then 0 else 1))%nat)
          as (C1 & C2 & C3 & C4)
      end.
      { destruct (Z.ltb_spec (retry_count + 1) max_retries); cbn [trace step];
          rewrite ?session_count_app, ?failure_count_app, ?teardown_count_app,
            ?sleep_count_app; cbn; destruct rem; lia. }
      cbn [fst snd] in *.
      destruct IH as (k & f & D1 & D2 & D3 & D4 & D5 & D6); [lia|].
      exists (S k), (S f). destruct rem; split_and!; lia.
Qed.

End OuterLoopFacts.

(** X13.  The outer loop of a link-mode run in numbers.  The run opens [k]
    sessions, [f] of which end in the handler of the outer [try]: never more
    sessions than [max_retries], and at most one session that does not fail.
    The clean-up of the [finally] block runs once for every
    session, also for the one that ends in the [return].  The run waits
    before the next session after every failure except a failure of the last
    session allowed, so it waits [min f (max_retries - 1)] times. *)
Theorem outer_loop_accounting {libs : Libraries} (w : World) (max_retries : Z)
    (s : ScraperByLink.LinkScraper) :
  let r := ScraperByLink.scrape_with_retry w max_retries s in
  let t0 := ScraperByLink.trace s in
  let t := ScraperByLink.trace r.2 in
  exists k f : nat,
    session_count t = (session_count t0 + k)%nat
    /\ failure_count t = (failure_count t0 + f)%nat
    /\ teardown_count t = (teardown_count t0 + k)%nat
    /\ sleep_count t = (sleep_count t0 + Nat.min f (Z.to_nat max_retries - 1))%nat
    /\ (k <= Z.to_nat max_retries)%nat
    /\ (f <= k <= f + 1)%nat.
Proof.
  intros r t0 t. subst r t0 t. unfold ScraperByLink.scrape_with_retry.
  destruct (link_session_loop_events w max_retries
              (load_resume_state (resume_readable w) (saver (ScraperByLink.ledger s))
                 (disk (ScraperByLink.ledger s)))
              (Z.to_nat max_retries) 0 s) as (k & f & H); [lia|].
  exists k, f. cbn zeta in H. split_and!; try apply H; lia.
Qed.

(** ** The per-item loops: how many records, which pages *)

Section ItemLoopFacts.
Context {libs : Libraries}.
Import ScraperByLink.

Lemma parse_place_details_frame (now : string) (s : LinkScraper) :
  let s1 := (parse_place_details now s).2 in
  scraped_places s1 = scraped_places s
  /\ (exists fetched, trace s1 = trace s ++ fetched /\ Forall site_event fetched
                      /\ (skip_websites s = true -> fetched = []))
  /\ max_results s1 = max_results s /\ tick s1 = tick s /\ page s1 = page s.
Proof.
  cbn zeta. destruct (parse_place_details_state now s) as (seen & fetched & -> & Hf & Hk).
  split_and!; try done. by exists fetched.
Qed.

(** One try of one item: a single fetch of [link], and the record appended,
    if any, is the value of [place_data]. *)
Lemma try_place_shape (sess : Session) (link : string) (s : LinkScraper) :
  let r := try_place sess link s in
  scraped_places r.2
  = scraped_places s ++ (if r.1.2 is Some p then [p] else [])
  /\ max_results r.2 = max_results s
  /\ (r.1.1 = Returned -> r.1.2 <> None)
  /\ exists evs, trace r.2 = trace s ++ evs /\ gotos evs = [link].
Proof.
  cbn zeta. unfold try_place, page_goto.
  destruct (goto sess (tick s) link) as [p0|m0]; cbn [fst snd].
  2:{ cbn [scraped_places max_results trace step]. rewrite app_nil_r.
      split_and!; try done. by eexists. }
  destruct (check_for_captcha _); cbn [fst snd].
  { cbn [scraped_places max_results trace step set_page]. rewrite app_nil_r.
    split_and!; try done. by eexists. }
  match goal with |- context [parse_place_details ?n ?s1] =>
    destruct (parse_place_details_frame n s1)
      as (F1 & (fetched & F2 & Hf & _) & F3 & _);
    destruct (parse_place_details n s1) as [[p|] s2] end; cbn [fst snd] in *.
  all: apply site_events_counts in Hf as (_ & _ & Hf & _).
  - unfold page_go_back, place_scraped.
    destruct (go_back sess _); cbn [fst snd scraped_places max_results trace step
      set_page set_ledger set_progress set_scraped_places];
      rewrite F1, F2, F3; cbn [scraped_places max_results trace step set_page];
      (split_and!; try done;
       exists ([EvGoto link] ++ fetched ++ [] ++ [EvGoBack]);
       split; [by rewrite !app_assoc|];
       cbn [app gotos]; by rewrite gotos_app, Hf).
  - rewrite F1, F2, F3. cbn [scraped_places max_results trace step set_page].
    rewrite app_nil_r. split_and!; try done.
    exists ([EvGoto link] ++ fetched). split; [by rewrite !app_assoc|].
    cbn [app gotos]. by rewrite Hf.
Qed.

(** The per-item loop appends at most one record and fetches only its item. *)
Lemma place_loop_shape (remaining : nat) (place_data : option Place) (sess : Session)
    (link : string) (s : LinkScraper) :
  let r := place_loop remaining place_data sess link s in
  (length (scraped_places r.2)
   <= length (scraped_places s) + (if place_data is Some _ then 0 else 1))%nat
  /\ (length (scraped_places s) <= length (scraped_places r.2))%nat
  /\ max_results r.2 = max_results s
  /\ fetches_within [link] s r.2.
Proof.
  cbn zeta. revert place_data s.
  assert (forall s0 : LinkScraper, fetches_within [link] s0 s0) as Hrefl.
  { intros s0. exists []. rewrite app_nil_r. split; [done|by intros u []]. }
  induction remaining as [|rem IH]; intros place_data s.
  { destruct place_data; cbn [place_loop snd]; split_and!; (apply Hrefl || lia || done). }
  destruct place_data as [p|]; cbn [place_loop snd];
    [split_and!; (apply Hrefl || lia || done)|].
  destruct (try_place_shape sess link s) as (T1 & T2 & T3 & evs & T4 & T5).
  destruct (try_place sess link s) as [[[|msg] pd] s1]; cbn [fst snd] in *.
  - destruct pd as [p|]; [|by destruct T3].
    rewrite T1, length_app. cbn [length]. split_and!; try (done || lia).
    exists evs. split; [done|]. rewrite T5. by intros u [<-|[]]; left.
  - assert (fetches_within [link] s s1) as Hf.
    { exists evs. split; [done|]. rewrite T5. by intros u [<-|[]]; left. }
    assert (length (scraped_places s1)
            = length (scraped_places s) + (if pd is Some _ then 1 else 0))%nat as Hl.
    { rewrite T1, length_app. by destruct pd. }
    destruct (_ <=? _)%nat; [|destruct (_ || _)]; cbn [snd].
    + unfold place_failed. cbn [scraped_places max_results trace step set_ledger
        set_progress]. split_and!; try (done || destruct pd; lia).
      destruct Hf as (e & He & Hu). exists e. split; [|done].
      cbn [trace step set_ledger set_progress]. by rewrite app_nil_r.
    + split_and!; try (done || destruct pd; lia).
    + destruct (IH pd s1) as (I1 & I2 & I3 & e2 & I4 & I5).
      split_and!; try (congruence || destruct pd; lia).
      destruct Hf as (e1 & He & Hu). exists (e1 ++ e2).
      split; [by rewrite I4, He, app_assoc|].
      intros u. rewrite gotos_app. intros Hin. apply in_app_or in Hin as []; eauto.
Qed.

(** The loop over the result links never takes the number of records above
    [max_results], unless it was above it before, and fetches only result
    links. *)
Lemma links_loop_shape (links : list string) (sess : Session) (s : LinkScraper) :
  let r := links_loop links sess s in
  Z.of_nat (length (scraped_places r.2))
    <= Z.max (Z.of_nat (length (scraped_places s))) (max_results s)
  /\ max_results r.2 = max_results s
  /\ fetches_within links s r.2.
Proof.
  cbn zeta. revert s. induction links as [|link rest IH]; intros s; cbn [links_loop].
  { cbn [snd]. split_and!; [lia|done|]. exists []. by rewrite app_nil_r. }
  destruct (Z.geb_spec (Z.of_nat (length (scraped_places s))) (max_results s)).
  { cbn [snd]. split_and!; [lia|done|]. exists []. rewrite app_nil_r.
    split; [done|by intros u []]. }
  destruct (place_loop_shape max_place_retry None sess link s)
    as (P1 & P2 & P3 & e1 & P4 & P5).
  destruct (place_loop _ _ _ _ _) as [[|m] s1]; cbn [snd] in *.
  - destruct (IH s1) as (I1 & I2 & e2 & I4 & I5).
    split_and!; [lia|congruence|].
    exists (e1 ++ e2). split; [by rewrite I4, P4, app_assoc|].
    intros u. rewrite gotos_app. intros Hin. apply in_app_or in Hin as [Hin|Hin].
    + left. by destruct (P5 u Hin) as [|[]].
    + right. by apply I5.
  - split_and!; [lia|done|]. exists e1. split; [done|].
    intros u Hin. left. by destruct (P5 u Hin) as [|[]].
Qed.

End ItemLoopFacts.

Section AttemptFacts.
Context {libs : Libraries}.
Import ScraperByLink.

Lemma attempt_bound (sess : Session) (already : PySet.t) (s : LinkScraper) :
  let r := attempt sess already s in
  max_results r.2 = max_results s
  /\ Z.of_nat (length (scraped_places r.2))
     <= Z.max (Z.of_nat (length (scraped_places s))) (max_results s)
        + (if r.1 is Returned then 1 else 0).
Proof.
  cbn zeta. unfold attempt. destruct (setup_browser sess); cbn [fst snd]; [|lia].
  destruct (navigate_to_link_world sess s) as (_ & Hm & _ & _ & _ & _ & Hp & _).
  destruct (navigate_to_link sess s) as [[|] s1]; cbn [fst snd] in *;
    [|rewrite Hm, Hp; lia].
  destruct (String.eqb _ "place").
  - destruct (PySet.mem _ _); cbn [fst snd]; [rewrite Hm, Hp; lia|].
    match goal with |- context [parse_place_details ?n s1] =>
      destruct (parse_place_details_frame n s1) as (F1 & _ & F3 & _);
      destruct (parse_place_details n s1) as [[p|] s2] end; cbn [fst snd] in *.
    + unfold place_scraped. cbn [scraped_places max_results step set_ledger
        set_progress set_scraped_places]. rewrite length_app, F1, F3, Hm, Hp.
      cbn [length]. lia.
    + rewrite F1, F3, Hm, Hp. lia.
  - destruct (String.eqb _ "search"); cbn [fst snd]; [|rewrite Hm, Hp; lia].
    destruct (collect_results s1) as [|l ls]; cbn [fst snd]; [rewrite Hm, Hp; lia|].
    match goal with |- context [links_loop ?ls sess s1] =>
      destruct (links_loop_shape ls sess s1) as (L1 & L2 & _);
      destruct (links_loop ls sess s1) as [o s2] end; cbn [fst snd] in *.
    rewrite L2, Hm. split; [done|]. rewrite Hm, Hp in L1. destruct o; lia.
Qed.

Lemma session_loop_bound (w : World) (max_retries : Z) (already : PySet.t)
    (remaining : nat) (retry_count : Z) (s : LinkScraper) :
  Z.of_nat (length (session_loop w max_retries already remaining retry_count s).1)
  <= Z.max (Z.of_nat (length (scraped_places s))) (max_results s) + 1.
Proof.
  revert retry_count s. induction remaining as [|rem IH]; intros retry_count s;
    cbn [session_loop]; [cbn [fst]; lia|].
  destruct (get_next_proxy _) as [proxy pm].
  set (s1 := new_session _ _ _).
  destruct (attempt_bound (session w (Z.to_nat retry_count) proxy) already s1)
    as (Hm & Hb).
  destruct (attempt _ already s1) as [[|m] s2]; cbn [fst snd] in *.
  - cbn [scraped_places step]. exact Hb.
  - match goal with |- context [session_loop w max_retries already rem ?rc ?s3] =>
      specialize (IH rc s3);
      assert (scraped_places s3 = scraped_places s2 /\ max_results s3 = max_results s2)
        as (E1 & E2) by (by destruct (_ <? _))
    end.
    rewrite E1, E2, Hm in IH.
    change (scraped_places s1) with (scraped_places s) in *.
    change (max_results s1) with (max_results s) in *. lia.
Qed.

(** After the navigation, an attempt fetches only result links that are not
    in the resume set. *)
Lemma attempt_fetches (sess : Session) (already : PySet.t) (s : LinkScraper) :
  let s1 := (navigate_to_link sess s).2 in
  let r := attempt sess already s in
  r.2 = s
  \/ exists evs,
       trace r.2 = trace s1 ++ evs
       /\ forall u, In u (gotos evs) ->
            In u (collect_results s1) /\ PySet.mem (VStr u) already = false.
Proof.
  cbn zeta. unfold attempt. destruct (setup_browser sess); cbn [snd]; [|by left].
  right. destruct (navigate_to_link sess s) as [[|] s1]; cbn [snd];
    [|exists []; rewrite app_nil_r; split; [done|by intros u []]].
  destruct (String.eqb _ "place").
  - destruct (PySet.mem _ _); cbn [snd];
      [exists []; rewrite app_nil_r; split; [done|by intros u []]|].
    match goal with |- context [parse_place_details ?n s1] =>
      destruct (parse_place_details_frame n s1) as (_ & (fetched & F2 & Hf & _) & _);
      destruct (parse_place_details n s1) as [[p|] s2] end; cbn [snd] in *;
      apply site_events_counts in Hf as (_ & _ & Hf & _);
      exists fetched; (split; [|by rewrite Hf; intros u []]).
    + unfold place_scraped. cbn [trace step set_ledger set_progress set_scraped_places].
      by rewrite F2, app_nil_r.
    + done.
  - destruct (String.eqb _ "search"); cbn [snd];
      [|exists []; rewrite app_nil_r; split; [done|by intros u []]].
    destruct (collect_results s1) as [|l ls] eqn:Ec; cbn [snd];
      [exists []; rewrite app_nil_r; split; [done|by intros u []]|].
    match goal with |- context [links_loop ?ls sess s1] =>
      destruct (links_loop_shape ls sess s1) as (_ & _ & evs & L1 & L2) end.
    exists evs. split; [done|]. intros u Hu. apply L2 in Hu.
    apply list_elem_of_In, list_elem_of_filter in Hu as [Hu1 Hu2].
    split; [by apply list_elem_of_In|done].
Qed.

(** An item whose heading is registered already: the try fails at the parse. *)
Lemma try_place_seen (sess : Session) (link : string) (s : LinkScraper)
    (p : Page) (n : string) :
  goto sess (tick s) link = Ok p ->
  check_for_captcha p = false ->
  extract_text p (selector "place_name") = Some n ->
  n ∈ seen_places s ->
  try_place sess link s
  = (Raised "Failed to parse place data", None, set_page p (step [EvGoto link] s)).
Proof.
  intros Hg Hc Hn Hs. unfold try_place, page_goto. rewrite Hg.
  cbn [page set_page]. rewrite Hc.
  unfold parse_place_details. cbn [page set_page seen_places scraped_places step].
  rewrite subscript_present, Hc, Hn. cbn [str_truthy default].
  destruct (Str.is_empty n) eqn:He; cbn [negb]; [done|].
  destruct (coordinates p) as [lat lon].
  unfold is_duplicate, id. rewrite He, bool_decide_eq_true_2 by done. reflexivity.
Qed.

End AttemptFacts.

(** X14.  The number of records.  The loop over the result links never takes the
    number of accepted records above [max_results], unless it was above it
    before; a whole run returns at most one record more than that, the one
    more being the record of a place link, which is accepted without a look
    at [max_results]. *)
Theorem accepted_records_bound {libs : Libraries} :
  (forall links sess s,
     Z.of_nat (length (ScraperByLink.scraped_places
                         (ScraperByLink.links_loop links sess s).2))
     <= Z.max (Z.of_nat (length (ScraperByLink.scraped_places s)))
              (ScraperByLink.max_results s))
  /\ (forall w max_retries s,
        Z.of_nat (length (ScraperByLink.scrape_with_retry w max_retries s).1)
        <= Z.max (Z.of_nat (length (ScraperByLink.scraped_places s)))
                 (ScraperByLink.max_results s) + 1).
Proof.
  split.
  - intros links sess s. apply links_loop_shape.
  - intros w max_retries s. unfold ScraperByLink.scrape_with_retry.
    exact (session_loop_bound w max_retries _ _ _ s).
Qed.

(** X15.  Resuming.  A session attempt either fails before the browser starts and
    changes nothing, or, after the navigation, fetches in the tab of the
    results only pages that [collect_results] found on the landing page and
    that are not in the resume set.  These are not the only fetches: for
    every record it builds, [parse_place_details] opens a second tab on the
    website of the business, and on its contact page, unless
    [skip_websites] is set; with [skip_websites] set the second tab fetches
    nothing. *)
Theorem resume_links_not_fetched {libs : Libraries} (sess : Session)
    (already_scraped : PySet.t) (s : ScraperByLink.LinkScraper) :
  let s1 := (ScraperByLink.navigate_to_link sess s).2 in
  let r := ScraperByLink.attempt sess already_scraped s in
  r.2 = s
  \/ exists evs,
       ScraperByLink.trace r.2 = ScraperByLink.trace s1 ++ evs
       /\ (forall u, In u (gotos evs) ->
             In u (ScraperByLink.collect_results s1)
             /\ PySet.mem (VStr u) already_scraped = false)
       /\ (ScraperByLink.skip_websites s = true -> site_gotos evs = []).
Proof.
  cbn zeta. destruct (attempt_fetches sess already_scraped s) as [H|(evs & Ht & Hg)];
    [by left|right].
  exists evs. split_and!; [done..|]. intros Hk.
  destruct (link_steps_sites sess _ _ (attempt_steps sess already_scraped s) Hk)
    as [_ Hs].
  destruct (navigate_to_link_world sess s)
    as (_ & _ & _ & _ & _ & _ & _ & _ & evs0 & Ht0 & _).
  rewrite Ht, Ht0, !site_gotos_app, <- app_assoc in Hs.
  rewrite <- (app_nil_r (site_gotos (ScraperByLink.trace s))) in Hs at 2.
  apply app_inv_head in Hs. by apply app_eq_nil in Hs as [_ ->].
Qed.

(** The second tab at work: the place page names a website whose home page
    shows no address and links to a contact page that does.  Both pages are
    fetched, and the address ends in the record. *)
Example website_fetched_in_second_tab :
  let r := @ScraperByLink.attempt libs_cafe cafe_session [] cafe_scraper in
  r.1 = Returned
  /\ gotos (ScraperByLink.trace r.2) = ["https://www.google.com/maps/place/A?hl=en"]
  /\ site_gotos (ScraperByLink.trace r.2)
     = ["https://cafe-uno.es"; "https://cafe-uno.es/contact"]
  /\ map email (ScraperByLink.scraped_places r.2) = [Some "hello@cafe-uno.es"].
Proof. vm_compute. by split_and!. Qed.

(** X16.  A result whose heading is registered already, for instance because an
    earlier session of the same run accepted it, is not skipped: it is
    fetched twice, no record is added, and it ends in the failure log with
    the message of a failed parse and in the [failed] count. *)
Theorem registered_place_logged_as_failure {libs : Libraries} (sess : Session)
    (link : string) (s : ScraperByLink.LinkScraper) (p1 p2 : Page) (n1 n2 : string) :
  goto sess (ScraperByLink.tick s) link = Ok p1 ->
  goto sess (S (ScraperByLink.tick s)) link = Ok p2 ->
  check_for_captcha p1 = false ->
  check_for_captcha p2 = false ->
  extract_text p1 (selector "place_name") = Some n1 ->
  extract_text p2 (selector "place_name") = Some n2 ->
  n1 ∈ ScraperByLink.seen_places s ->
  n2 ∈ ScraperByLink.seen_places s ->
  let r := ScraperByLink.place_loop ScraperByLink.max_place_retry None sess link s in
  r.1 = Returned
  /\ ScraperByLink.trace r.2 = ScraperByLink.trace s ++ [EvGoto link; EvGoto link]
  /\ ScraperByLink.scraped_places r.2 = ScraperByLink.scraped_places s
  /\ success (ScraperByLink.progress r.2) = success (ScraperByLink.progress s)
  /\ failed (ScraperByLink.progress r.2) = failed (ScraperByLink.progress s) + 1
  /\ ScraperByLink.ledger r.2
     = save_failed_url (failed_io sess (S (S (ScraperByLink.tick s)))) link
         "Failed to parse place data" (ScraperByLink.ledger s).
Proof.
  intros G1 G2 C1 C2 N1 N2 S1 S2 r. subst r. unfold ScraperByLink.max_place_retry.
  cbn [ScraperByLink.place_loop]. unfold ScraperByLink.max_place_retry.
  rewrite (try_place_seen sess link s p1 n1) by done.
  assert (Str.contains "CAPTCHA" "Failed to parse place data"
          || Str.contains "blocked" (Str.lower "Failed to parse place data") = false)
    as Hmsg by (vm_compute; reflexivity).
  cbn [Nat.sub Nat.leb]. rewrite Hmsg.
  rewrite (try_place_seen sess link _ p2 n2) by done.
  cbn [fst snd ScraperByLink.place_failed ScraperByLink.trace
       ScraperByLink.scraped_places ScraperByLink.progress ScraperByLink.ledger
       ScraperByLink.tick ScraperByLink.step ScraperByLink.set_page
       ScraperByLink.set_ledger ScraperByLink.set_progress
       success failed increment_failed].
  split_and!; try done. by rewrite app_nil_r, <- !app_assoc.
Qed.

Lemma registered_place_logged_as_failure_witness :
  let r := @ScraperByLink.place_loop libs_11m ScraperByLink.max_place_retry None
             productive_session link_a returning_link_scraper in
  r.1 = Returned
  /\ ScraperByLink.trace r.2 = [] ++ [EvGoto link_a; EvGoto link_a]
  /\ ScraperByLink.scraped_places r.2 = []
  /\ success (ScraperByLink.progress r.2) = 0
  /\ failed (ScraperByLink.progress r.2) = 0 + 1
  /\ ScraperByLink.ledger r.2
     = save_failed_url true link_a "Failed to parse place data" sample_ledger.
Proof.
  apply (@registered_place_logged_as_failure libs_11m productive_session link_a
           returning_link_scraper (place_page link_a link_a) (place_page link_a link_a)
           link_a link_a).
  - vm_compute. reflexivity.
  - vm_compute. reflexivity.
  - vm_compute. reflexivity.
  - vm_compute. reflexivity.
  - vm_compute. reflexivity.
  - vm_compute. reflexivity.
  - vm_compute. reflexivity.
  - vm_compute. reflexivity.
Defined.

(** ** Proxy rotation over the sessions of a run *)

Lemma session_proxies_app (a b : list Event) :
  session_proxies (a ++ b) = session_proxies a ++ session_proxies b.
Proof. induction a as [|[] a IH]; simpl; by rewrite ?IH. Qed.

Lemma session_numbers_app (a b : list Event) :
  session_numbers (a ++ b) = session_numbers a ++ session_numbers b.
Proof. induction a as [|[] a IH]; simpl; by rewrite ?IH. Qed.

Lemma inner_events_sessions (evs : list Event) :
  Forall inner_event evs -> session_proxies evs = [] /\ session_numbers evs = [].
Proof. induction 1 as [|e evs He _ IH]; [done|]. by destruct e. Qed.

Section ProxyRotationFacts.
Context {libs : Libraries}.
Import ScraperByLink.

Lemma link_step_proxy_manager (sess : Session) (s s' : LinkScraper) :
  link_step sess s s' -> proxy_manager s' = proxy_manager s.
Proof.
  intros [H|[H|H]].
  - apply H.
  - destruct H as (now & p & s1 & Hp & ->).
    apply parse_place_details_some in Hp as (_ & _ & _ & _ & _ & _ & _ & ? & -> & _).
    done.
  - by destruct H as (link & msg & ->).
Qed.

Lemma attempt_sessions (sess : Session) (already : PySet.t) (s : LinkScraper) :
  let s' := (attempt sess already s).2 in
  proxy_manager s' = proxy_manager s
  /\ session_proxies (trace s') = session_proxies (trace s)
  /\ session_numbers (trace s') = session_numbers (trace s).
Proof.
  cbn zeta. pose proof (attempt_steps sess already s) as Hr.
  split.
  - apply (link_steps_preserve (fun x => proxy_manager x = proxy_manager s) _ _ _) in Hr;
      [done| |done].
    intros a b Hab <-. by eapply link_step_proxy_manager.
  - destruct (link_steps_trace _ _ _ Hr) as (evs & -> & Hin).
    apply inner_events_sessions in Hin as [H1 H2].
    by rewrite session_proxies_app, session_numbers_app, H1, H2, !app_nil_r.
Qed.

Lemma link_session_loop_proxies (w : World) (max_retries : Z) (already : PySet.t)
    (remaining : nat) (retry_count : Z) (s : LinkScraper) :
  0 <= retry_count ->
  let r := session_loop w max_retries already remaining retry_count s in
  exists k : nat,
    (k <= remaining)%nat
    /\ session_proxies (trace r.2)
       = session_proxies (trace s) ++ (next_proxies k (proxy_manager s)).1
    /\ session_numbers (trace r.2)
       = session_numbers (trace s) ++ seq (Z.to_nat retry_count) k
    /\ proxy_manager r.2 = (next_proxies k (proxy_manager s)).2.
Proof.
  revert retry_count s. induction remaining as [|rem IH]; intros retry_count s Hrc.
  - exists 0%nat. cbn. by rewrite !app_nil_r.
  - cbn [session_loop].
    destruct (get_next_proxy (proxy_manager s)) as [proxy pm] eqn:Eg.
    set (s1 := new_session _ _ _).
    destruct (attempt_sessions (session w (Z.to_nat retry_count) proxy) already s1)
      as (A1 & A2 & A3).
    destruct (attempt _ already s1) as [[|m] s2]; cbn [snd] in *.
    + exists 1%nat. cbn [next_proxies trace proxy_manager step fst snd].
      rewrite Eg, session_proxies_app, session_numbers_app, A1, A2, A3. subst s1.
      cbn [trace proxy_manager new_session set_proxy_manager fst snd].
      rewrite session_proxies_app, session_numbers_app. cbn.
      rewrite !app_nil_r. split_and!; (done || lia).
    + match goal with
      |- context [session_loop w max_retries already rem ?rc ?s3] =>
        specialize (IH rc s3);
        destruct (session_loop w max_retries already rem rc s3) as [res s'];
        assert (proxy_manager s3 = pm
                /\ session_proxies (trace s3) = session_proxies (trace s) ++ [proxy]
                /\ session_numbers (trace s3)
                   = session_numbers (trace s) ++ [Z.to_nat retry_count])
          as (C1 & C2 & C3)
      end.
      { destruct (_ <? _); cbn [trace proxy_manager step];
          rewrite ?session_proxies_app, ?session_numbers_app, A1, A2, A3; subst s1;
          cbn [trace proxy_manager new_session set_proxy_manager];
          rewrite ?session_proxies_app, ?session_numbers_app; cbn;
          by rewrite ?app_nil_r. }
      cbn [fst snd] in *. destruct IH as (k & K1 & K2 & K3 & K4); [lia|].
      exists (S k). cbn [next_proxies]. rewrite Eg.
      rewrite C1 in K2, K4. destruct (next_proxies k pm) as [rest pm'].
      cbn [fst snd] in *. rewrite K2, K3, K4, C2, C3, <- !app_assoc.
      replace (Z.to_nat (retry_count + 1)) with (S (Z.to_nat retry_count)) by lia.
      split_and!; (done || lia).
Qed.

End ProxyRotationFacts.

(** X17.  Proxy rotation over a run.  The sessions of a link-mode run are numbered
    [0, 1, 2, ...] and take the proxies that successive [get_next_proxy]
    calls hand out, one call for each session; no other part of the run
    touches the proxy manager, which ends where those calls leave it. *)
Theorem sessions_take_next_proxies {libs : Libraries} (w : World) (max_retries : Z)
    (s : ScraperByLink.LinkScraper) :
  let r := ScraperByLink.scrape_with_retry w max_retries s in
  exists k : nat,
    (k <= Z.to_nat max_retries)%nat
    /\ session_proxies (ScraperByLink.trace r.2)
       = session_proxies (ScraperByLink.trace s)
         ++ (next_proxies k (ScraperByLink.proxy_manager s)).1
    /\ session_numbers (ScraperByLink.trace r.2)
       = session_numbers (ScraperByLink.trace s) ++ seq 0 k
    /\ ScraperByLink.proxy_manager r.2
       = (next_proxies k (ScraperByLink.proxy_manager s)).2.
Proof.
  intros r. subst r. unfold ScraperByLink.scrape_with_retry.
  apply (link_session_loop_proxies w max_retries _ (Z.to_nat max_retries) 0 s). lia.
Qed.

(** ** The deduplicator again *)

(** X18.  Once [is_duplicate] has accepted a name, it rejects that name whatever
    the coordinates, the accepted records and the names registered since: the
    registered names only grow, and a registered name is a duplicate. *)
Theorem accepted_name_rejected_later {libs : Libraries} (name0 : string)
    (lat lon : option float) (seen seen' : gset string) (places : list Place) :
  is_duplicate name0 lat lon seen places = (false, seen') ->
  seen ⊆ seen'
  /\ forall lat' lon' seen'' places',
       seen' ⊆ seen'' ->
       is_duplicate name0 lat' lon' seen'' places' = (true, seen'').
Proof.
  intros H. apply is_duplicate_false in H as (He & _ & -> & _). split.
  - apply union_subseteq_r.
  - intros lat' lon' seen'' places' Hs. unfold is_duplicate. rewrite He.
    rewrite bool_decide_eq_true_2; [done|].
    apply Hs, elem_of_union_l. by apply elem_of_singleton.
Qed.

Lemma accepted_name_rejected_later_witness :
  (∅ : gset string) ⊆ {[ "Cafe Uno" ]} ∪ ∅
  /\ forall lat' lon' seen'' places',
       {[ "Cafe Uno" ]} ∪ ∅ ⊆ seen'' ->
       @is_duplicate libs_11m "Cafe Uno" lat' lon' seen'' places' = (true, seen'').
Proof.
  apply (@accepted_name_rejected_later libs_11m "Cafe Uno" None None ∅ _ []).
  reflexivity.
Defined.

(** ** Navigation and result collection *)

Lemma hl_parameter_added (url : string) :
  let u := if negb (Str.contains "?hl=" url) && negb (Str.contains "&hl=" url)
           then url +:+ (if Str.contains "?" url then "&" else "?") +:+ "hl=en"
           else url in
  Str.contains "?hl=" u || Str.contains "&hl=" u = true.
Proof.
  cbn zeta. destruct (Str.contains "?hl=" url) eqn:E1; cbn [negb andb]; [by rewrite E1|].
  destruct (Str.contains "&hl=" url) eqn:E2; cbn [negb andb]; [by rewrite E1, E2|].
  apply orb_true_iff. destruct (Str.contains "?" url); [right|left];
    apply contains_iff; by exists url, "en".
Qed.

Lemma append_assoc (a b c : string) : (a +:+ b) +:+ c = a +:+ b +:+ c.
Proof.
  induction a as [|x a IH]; [done|].
  change (String x ((a +:+ b) +:+ c) = String x (a +:+ b +:+ c)). by rewrite IH.
Qed.

Lemma short_is_goo_gl (url : string) :
  Str.contains "maps.app.goo.gl" url = true -> Str.contains "goo.gl" url = true.
Proof.
  intros (pre & post & ->)%contains_iff. apply contains_iff.
  exists (pre +:+ "maps.app."), post. by rewrite append_assoc.
Qed.

(** X19.  The four link types.  The first test that applies decides: a URL with
    [/search/] or [search?] is a search link even if it also names a place;
    the test for [maps.app.goo.gl] never decides anything, because such a URL
    contains [goo.gl]. *)
Theorem detect_link_type_cases (url : string) :
  ScraperByLink.detect_link_type url
  = (if Str.contains "/search/" url || Str.contains "search?" url then "search"
     else if Str.contains "/place/" url then "place"
     else if Str.contains "goo.gl" url then "short"
     else "unknown")
  /\ (Str.contains "/maps/place/" url = true ->
      ScraperByLink.detect_link_type url = "place"
      \/ ScraperByLink.detect_link_type url = "search").
Proof.
  unfold ScraperByLink.detect_link_type. split.
  - destruct (_ || _); [done|]. destruct (Str.contains "/place/" url); [done|].
    destruct (Str.contains "goo.gl" url) eqn:E; [done|].
    destruct (Str.contains "maps.app.goo.gl" url) eqn:E'; [|done].
    apply short_is_goo_gl in E'. congruence.
  - intros (pre & post & ->)%contains_iff.
    destruct (_ || _); [by right|]. left.
    assert (Str.contains "/place/" (pre +:+ "/maps/place/" +:+ post) = true) as ->; [|done].
    apply contains_iff. exists (pre +:+ "/maps"), post. by rewrite append_assoc.
Qed.

Lemma detect_link_type_cases_witness :
  ScraperByLink.detect_link_type link_a = "place"
  \/ ScraperByLink.detect_link_type link_a = "search".
Proof.
  destruct (detect_link_type_cases link_a) as [_ H]. apply H. vm_compute. reflexivity.
Defined.

Section NavigationFacts.
Context {libs : Libraries}.
Import ScraperByLink.

Lemma page_goto_gotos (sess : Session) (url : string) (s : LinkScraper) :
  gotos (trace (page_goto sess url s).2) = gotos (trace s) ++ [url].
Proof.
  unfold page_goto. destruct (goto sess _ url); cbn [snd trace step set_page];
    by rewrite gotos_app.
Qed.

Lemma navigate_to_link_gotos (sess : Session) (s : LinkScraper) :
  let r := navigate_to_link sess s in
  exists pre u,
    gotos (trace r.2) = gotos (trace s) ++ pre ++ [u]
    /\ pre = (if String.eqb (detect_link_type (maps_url s)) "short"
              then [maps_url s] else [])
    /\ Str.contains "?hl=" u || Str.contains "&hl=" u = true.
Proof.
  cbn zeta. unfold navigate_to_link.
  destruct (String.eqb (detect_link_type (maps_url s)) "short").
  - unfold resolve_short_link.
    pose proof (page_goto_gotos sess (maps_url s) s) as H0.
    assert (exists url' s', (let (r, s1) := page_goto sess (maps_url s) s in
                             match r with
                             | Ok _ => (page_url (page s1), s1)
                             | Raise _ => (maps_url s, s1)
                             end) = (url', s')
                            /\ gotos (trace s') = gotos (trace s) ++ [maps_url s])
      as (url' & s' & -> & Hs').
    { destruct (page_goto sess (maps_url s) s) as [[?|?] s1]; by eexists _, _. }
    match goal with |- context [page_goto sess ?u s'] =>
      pose proof (page_goto_gotos sess u s') as H1;
      pose proof (hl_parameter_added url') as Hhl;
      exists [maps_url s], u;
      destruct (page_goto sess u s') as [[?|?] s1] end; cbn [snd] in *.
    + assert (gotos (trace s1) = gotos (trace s) ++ [maps_url s] ++ [
        if negb (Str.contains "?hl=" url') && negb (Str.contains "&hl=" url')
        then url' +:+ (if Str.contains "?" url' then "&" else "?") +:+ "hl=en"
        else url']) as Hg by (by rewrite H1, Hs', <- app_assoc).
      destruct (check_for_captcha _); [done|].
      destruct (String.eqb _ "search"); [by destruct (wait_for_selector _ _)|].
      destruct (String.eqb _ "place"); [by destruct (wait_for_selector _ _)|]. done.
    + split_and!; try done. by rewrite H1, Hs', <- app_assoc.
  - match goal with |- context [page_goto sess ?u s] =>
      pose proof (page_goto_gotos sess u s) as H1;
      pose proof (hl_parameter_added (maps_url s)) as Hhl;
      exists [], u;
      destruct (page_goto sess u s) as [[?|?] s1] end; cbn [snd app] in *; [|done].
    destruct (check_for_captcha _); [done|].
    destruct (String.eqb _ "search"); [by destruct (wait_for_selector _ _)|].
    destruct (String.eqb _ "place"); [by destruct (wait_for_selector _ _)|]. done.
Qed.

End NavigationFacts.

(** X20.  The navigation of the link scraper fetches the input link itself only if
    it is a short link, to resolve it; the page it then lands on is always
    requested with an [hl] parameter in the URL, the one the link had or
    [hl=en] appended. *)
Theorem navigation_sets_language (sess : Session) (s : ScraperByLink.LinkScraper) :
  let r := ScraperByLink.navigate_to_link sess s in
  exists pre u,
    gotos (ScraperByLink.trace r.2) = gotos (ScraperByLink.trace s) ++ pre ++ [u]
    /\ pre = (if String.eqb (ScraperByLink.detect_link_type (ScraperByLink.maps_url s))
                            "short"
              then [ScraperByLink.maps_url s] else [])
    /\ Str.contains "?hl=" u || Str.contains "&hl=" u = true.
Proof. apply navigate_to_link_gotos. Qed.

Lemma collect_hrefs_link (elements : list (result (option string))) :
  Forall (fun href => Str.contains "/maps/place/" href = true)
         (ScraperByLink.collect_hrefs elements)
  /\ (length (ScraperByLink.collect_hrefs elements) <= length elements)%nat.
Proof.
  induction elements as [|[[h|]|m] els [IH1 IH2]]; cbn [ScraperByLink.collect_hrefs length];
    try (split; [done|lia]).
  destruct (Str.is_empty h); cbn [negb andb]; [split; [done|lia]|].
  destruct (Str.contains "/maps/place/" h) eqn:E; [|split; [done|lia]].
  split; [by constructor | cbn [length]; lia].
Qed.

Lemma collect_hrefs_keyword (elements : list (result (option string))) :
  Forall (fun href => Str.contains "/maps/place/" href = true)
         (Scraper.collect_hrefs elements)
  /\ (length (Scraper.collect_hrefs elements) <= length elements)%nat.
Proof.
  induction elements as [|[[h|]|m] els [IH1 IH2]]; cbn [Scraper.collect_hrefs length];
    try (split; [done|lia]).
  destruct (Str.is_empty h); cbn [negb andb]; [split; [done|lia]|].
  destruct (Str.contains "/maps/place/" h) eqn:E; [|split; [done|lia]].
  split; [by constructor | cbn [length]; lia].
Qed.

(** X21.  What [collect_results] hands to the per-item loop.  In both scrapers
    every collected link contains [/maps/place/].  The keyword scraper reads
    at most [2 * max_results] elements, so with [max_results >= 0] it
    collects at most that many links; the link scraper reads them all. *)
Theorem collected_links :
  (forall s, Forall (fun href => Str.contains "/maps/place/" href = true)
                    (ScraperByLink.collect_results s))
  /\ (forall s, Forall (fun href => Str.contains "/maps/place/" href = true)
                       (Scraper.collect_results s))
  /\ (forall s, 0 <= Scraper.max_results s ->
                Z.of_nat (length (Scraper.collect_results s))
                <= 2 * Scraper.max_results s).
Proof.
  split_and!.
  - intros s. unfold ScraperByLink.collect_results.
    destruct (result_hrefs _); [apply collect_hrefs_link | done].
  - intros s. unfold Scraper.collect_results.
    destruct (result_hrefs _); [apply collect_hrefs_keyword | done].
  - intros s Hm. unfold Scraper.collect_results.
    destruct (result_hrefs _) as [els|]; [|cbn; lia].
    destruct (collect_hrefs_keyword (Scraper.slice_to (Scraper.max_results s * 2) els))
      as [_ Hl].
    unfold Scraper.slice_to in *.
    destruct (Z.leb_spec 0 (Scraper.max_results s * 2)); [|lia].
    rewrite length_firstn in Hl. lia.
Qed.

Lemma collected_links_witness :
  let s := Scraper.set_page (search_page search_url five_links) sample_keyword_scraper in
  Z.of_nat (length (Scraper.collect_results s)) <= 2 * Scraper.max_results s.
Proof.
  destruct collected_links as (_ & _ & H). apply H. vm_compute. discriminate.
Defined.

(** ** Resuming across program runs *)

Lemma list_ascii_of_string_app (a b : string) :
  String.list_ascii_of_string (a +:+ b)
  = String.list_ascii_of_string a ++ String.list_ascii_of_string b.
Proof.
  induction a as [|x a IH]; [done|].
  change (x :: String.list_ascii_of_string (a +:+ b)
          = x :: (String.list_ascii_of_string a ++ String.list_ascii_of_string b)).
  by rewrite IH.
Qed.

Lemma list_ascii_of_string_inj (a b : string) :
  String.list_ascii_of_string a = String.list_ascii_of_string b -> a = b.
Proof.
  intros H. rewrite <- (String.string_of_list_ascii_of_string a),
    <- (String.string_of_list_ascii_of_string b). by rewrite H.
Qed.

Lemma string_app_inv_tail (a b suffix : string) : a +:+ suffix = b +:+ suffix -> a = b.
Proof.
  intros H. apply (f_equal String.list_ascii_of_string) in H.
  rewrite !list_ascii_of_string_app in H. apply app_inv_tail in H.
  by apply list_ascii_of_string_inj.
Qed.

(** The resume file of one saver is none of the files of a saver created for
    the same link type at another time. *)
Lemma resume_filename_other_time (link_type timestamp timestamp' : string) :
  timestamp <> timestamp' ->
  let a := IncrementalSaver_init link_type timestamp in
  let b := IncrementalSaver_init link_type timestamp' in
  resume_filename b <> csv_filename a
  /\ resume_filename b <> jsonl_filename a
  /\ resume_filename b <> resume_filename a
  /\ resume_filename b <> failed_filename a.
Proof.
  intros Hne. cbn zeta.
  unfold resume_filename, csv_filename, jsonl_filename, failed_filename.
  assert (forall x y s1 s2 c1 c2 r1 r2,
            String.list_ascii_of_string s1 = r1 ++ [c1] ->
            String.list_ascii_of_string s2 = r2 ++ [c2] ->
            c1 <> c2 -> x +:+ s1 <> y +:+ s2) as Hlast.
  { intros x y s1 s2 c1 c2 r1 r2 H1 H2 Hc H.
    apply (f_equal String.list_ascii_of_string) in H.
    rewrite !list_ascii_of_string_app, H1, H2, !app_assoc in H.
    by apply app_inj_tail in H as [_ ?]. }
  split_and!.
  - by apply (Hlast _ _ _ _ "n"%char "v"%char
                (String.list_ascii_of_string "_resume.jso")
                (String.list_ascii_of_string ".cs")).
  - by apply (Hlast _ _ _ _ "n"%char "l"%char
                (String.list_ascii_of_string "_resume.jso")
                (String.list_ascii_of_string ".json")).
  - intros H. apply string_app_inv_tail in H. cbn [base_filename IncrementalSaver_init] in H.
    apply string_app_inv, string_app_inv, string_app_inv in H. congruence.
  - by apply (Hlast _ _ _ _ "n"%char "t"%char
                (String.list_ascii_of_string "_resume.jso")
                (String.list_ascii_of_string "_failed.tx")).
Qed.

(** A run of calls touches none but the four files of its saver. *)
Lemma run_calls_other_file (calls : list Call) (l : Ledger) (fn : string) :
  fn <> csv_filename (saver l) -> fn <> jsonl_filename (saver l) ->
  fn <> resume_filename (saver l) -> fn <> failed_filename (saver l) ->
  disk (run_calls calls l) !! fn = disk l !! fn.
Proof.
  revert l. induction calls as [|c calls IH]; intros l H1 H2 H3 H4; [done|].
  cbn [run_calls fold_left]. fold (run_calls calls (run_call l c)).
  pose proof (run_call_base c l) as Hb.
  rewrite IH by (unfold csv_filename, jsonl_filename, resume_filename, failed_filename;
                 by rewrite Hb).
  destruct c as [io place|ok url error]; cbn [run_call].
  - rewrite save_place_disk. by rewrite !decide_False.
  - by apply save_failed_url_effect.
Qed.

(** X22.  Resuming across program runs.  The name of the resume file contains the
    second at which its saver was created.  So whatever a run has saved, a
    saver created for the same link type at another second finds no resume
    file of its own name among the files of that run, and loads the empty
    set: nothing the earlier run has processed is skipped. *)
Theorem resume_file_tied_to_timestamp (link_type timestamp timestamp' : string)
    (calls : list Call) (readable : bool) (d : Disk) :
  timestamp <> timestamp' ->
  d !! resume_filename (IncrementalSaver_init link_type timestamp') = None ->
  load_resume_state readable (IncrementalSaver_init link_type timestamp')
    (disk (run_calls calls (fresh_ledger link_type timestamp d)))
  = PySet.empty.
Proof.
  intros Hne Hd.
  destruct (resume_filename_other_time link_type timestamp timestamp' Hne)
    as (H1 & H2 & H3 & H4).
  unfold load_resume_state. rewrite run_calls_other_file by done.
  change (disk (fresh_ledger link_type timestamp d)) with d. by rewrite Hd.
Qed.

Lemma resume_file_tied_to_timestamp_witness :
  load_resume_state true (IncrementalSaver_init "search" "20240501_100500")
    (disk (run_calls sample_calls (fresh_ledger "search" "20240501_100000" ∅)))
  = PySet.empty.
Proof.
  apply (resume_file_tied_to_timestamp "search" "20240501_100000" "20240501_100500"
           sample_calls true ∅).
  - discriminate.
  - vm_compute. reflexivity.
Defined.

(** ** Scrolling the result list *)

Lemma scroll_loop_stops (counts : nat -> result nat)
    (remaining scroll_count previous_count no_change_count : nat) :
  count_before counts scroll_count = Ok previous_count ->
  (no_change_count < 3)%nat ->
  (no_change_count <= scroll_count)%nat ->
  (forall j, (j < no_change_count)%nat -> unchanged counts (scroll_count - 1 - j)) ->
  (no_change_count < scroll_count ->
   ~ unchanged counts (scroll_count - 1 - no_change_count))%nat ->
  (forall k, (k < scroll_count)%nat -> ~ stops_at counts k) ->
  let n := ScraperByLink.scroll_loop remaining counts scroll_count previous_count
             no_change_count in
  (scroll_count <= n <= scroll_count + remaining)%nat
  /\ (n < scroll_count + remaining -> exists k, n = S k /\ stops_at counts k)%nat
  /\ (forall k, (S k < n)%nat -> ~ stops_at counts k).
Proof.
  revert scroll_count previous_count no_change_count.
  induction remaining as [|rem IH];
    intros sc prev nc Hprev Hnc Hle Hrun Hedge Hearlier; cbn zeta;
    cbn [ScraperByLink.scroll_loop].
  { split_and!; [lia..|]. intros k Hk. apply Hearlier. lia. }
  destruct (counts sc) as [cur|msg] eqn:Ec.
  2:{ split_and!; [lia..| |].
      - intros _. exists sc. split; [done|]. left. by exists msg.
      - intros k Hk. apply Hearlier. lia. }
  assert (unchanged counts sc <-> cur = prev) as Hun.
  { unfold unchanged. rewrite Ec, Hprev. split; [intros (c & [= ->] & [= ->]); done|].
    intros ->. by exists prev. }
  destruct (Nat.eqb_spec cur prev) as [Heq|Hneq].
  - destruct (Nat.leb_spec 3 (S nc)) as [H3|H3].
    + assert (nc = 2)%nat as -> by lia.
      split_and!; [lia..| |].
      * intros _. exists sc. split; [done|]. right. split_and!; [lia|by apply Hun|..].
        -- specialize (Hrun 0%nat ltac:(lia)). by rewrite Nat.sub_0_r in Hrun.
        -- specialize (Hrun 1%nat ltac:(lia)).
           by replace (sc - 1 - 1)%nat with (sc - 2)%nat in Hrun by lia.
      * intros k Hk. apply Hearlier. lia.
    + destruct (IH (S sc) cur (S nc)) as (I1 & I2 & I3); try (done || lia).
      * intros j Hj. destruct j as [|j].
        -- replace (S sc - 1 - 0)%nat with sc by lia. by apply Hun.
        -- replace (S sc - 1 - S j)%nat with (sc - 1 - j)%nat by lia. apply Hrun. lia.
      * intros Hlt. replace (S sc - 1 - S nc)%nat with (sc - 1 - nc)%nat by lia.
        apply Hedge. lia.
      * intros k Hk. destruct (decide (k = sc)) as [->|Hk']; [|apply Hearlier; lia].
        intros [[m Hm]|(H2 & U0 & U1 & U2)]; [congruence|].
        destruct (decide (nc < sc)%nat) as [Hlt|Hge].
        -- apply (Hedge Hlt). destruct nc as [|[|nc]]; [|  |lia].
           ++ by rewrite Nat.sub_0_r.
           ++ by replace (sc - 1 - 1)%nat with (sc - 2)%nat by lia.
        -- lia.
      * split_and!; [lia|lia| |done]. intros Hn. apply I2. lia.
  - destruct (IH (S sc) cur 0%nat) as (I1 & I2 & I3); try (done || lia).
    + intros _. replace (S sc - 1 - 0)%nat with sc by lia. rewrite Hun. done.
    + intros k Hk. destruct (decide (k = sc)) as [->|Hk']; [|apply Hearlier; lia].
      intros [[m Hm]|(H2 & U0 & _)]; [congruence|]. by apply Hun in U0.
    + split_and!; [lia|lia| |done]. intros Hn. apply I2. lia.
Qed.

(** X23.  Scrolling in link mode.  On a page with a results container,
    [scroll_results] makes at most 50 scrolls and stops
    before that exactly at the first scroll that raises or is the third in a
    row after which the result list is as long as before; no scroll before
    the last one is such a scroll. *)
Theorem scroll_results_stops (page : Page) (counts : nat -> result nat) :
  query_selector page (selector "results_container") = Ok true ->
  let n := ScraperByLink.scroll_results page counts in
  (n <= 50)%nat
  /\ (n < 50 -> exists k, n = S k /\ stops_at counts k)%nat
  /\ (forall k, (S k < n)%nat -> ~ stops_at counts k).
Proof.
  intros Hc. unfold ScraperByLink.scroll_results. rewrite Hc.
  destruct (scroll_loop_stops counts ScraperByLink.max_scrolls 0 0 0)
    as (H1 & H2 & H3); try (done || lia).
  unfold ScraperByLink.max_scrolls in *. cbn zeta in *. split_and!; [lia| |done].
  intros Hn. apply H2. lia.
Qed.

Lemma scroll_results_stops_witness :
  let n := ScraperByLink.scroll_results (search_page search_url five_links)
             sample_counts in
  (n <= 50)%nat
  /\ (n < 50 -> exists k, n = S k /\ stops_at sample_counts k)%nat
  /\ (forall k, (S k < n)%nat -> ~ stops_at sample_counts k).
Proof.
  apply (scroll_results_stops (search_page search_url five_links) sample_counts).
  vm_compute. reflexivity.
Defined.

Example scroll_sample_counts :
  ScraperByLink.scroll_results (search_page search_url five_links) sample_counts = 9%nat
  /\ ScraperByLink.scroll_results (search_page search_url five_links) (fun _ => Ok 0%nat)
     = 3%nat
  /\ ScraperByLink.scroll_results (search_page search_url five_links) (fun k => Ok k)
     = 50%nat.
Proof. vm_compute. done. Qed.

(** ** Coordinates *)

Lemma split_at (sep : ascii) (pre after : string) :
  Str.has_char sep pre = false -> Str.has_char sep after = false ->
  Str.split sep (pre +:+ String sep after) = [pre; after]
  /\ Str.has_char sep (pre +:+ String sep after) = true.
Proof.
  intros Hp Ha. split.
  - by rewrite split_app_sep, split_no_sep.
  - clear Ha. induction pre as [|c pre IH]; simpl in *.
    + by rewrite Ascii.eqb_refl.
    + apply orb_false_iff in Hp as [-> Hp]. by apply IH.
Qed.

(** X24.  Where the coordinates come from.  The answer is a pair of two numbers or
    of two [None].  A URL without [@] leaves the decision to the page, whose
    pair is dropped when one of its numbers is zero.  A URL with one [@] and a
    comma after it decides alone: the two strings before and after the first
    comma are converted, and if a conversion fails the answer is two [None],
    whatever the page holds. *)
Theorem extract_coordinates_sources (float : string -> result PrimFloat.float)
    (lat_lon : result (option (PrimFloat.float * PrimFloat.float))) :
  (forall url,
     ScraperByLink.extract_coordinates float url lat_lon = (None, None)
     \/ exists lat lon,
          ScraperByLink.extract_coordinates float url lat_lon = (Some lat, Some lon))
  /\ (forall url,
        Str.has_char "@" url = false ->
        ScraperByLink.extract_coordinates float url lat_lon
        = match lat_lon with
          | Ok (Some (lat, lon)) =>
              if float_truthy (Some lat) && float_truthy (Some lon)
              then (Some lat, Some lon) else (None, None)
          | _ => (None, None)
          end)
  /\ (forall pre after,
        Str.has_char "@" pre = false ->
        Str.has_char "@" after = false ->
        Str.has_char "," after = true ->
        ScraperByLink.extract_coordinates float (pre +:+ "@" +:+ after) lat_lon
        = match float (nth 0 (Str.split "," after) EmptyString),
                float (nth 1 (Str.split "," after) EmptyString) with
          | Ok lat, Ok lon => (Some lat, Some lon)
          | _, _ => (None, None)
          end).
Proof.
  split_and!.
  - intros url. unfold ScraperByLink.extract_coordinates.
    destruct (Str.has_char "@" url); cbn [rbind].
    + destruct (nth_error _ 1) as [part|]; cbn [rbind]; [|by left].
      destruct (2 <=? _)%nat; cbn [rbind].
      * destruct (float (nth 0 _ _)) as [lat|]; cbn [rbind]; [|by left].
        destruct (float (nth 1 _ _)) as [lon|]; cbn [rbind]; [|by left].
        right. by exists lat, lon.
      * destruct lat_lon as [[[lat lon]|]|]; cbn [rbind]; try by left.
        destruct (_ && _); [right; by exists lat, lon | by left].
    + destruct lat_lon as [[[lat lon]|]|]; cbn [rbind]; try by left.
      destruct (_ && _); [right; by exists lat, lon | by left].
  - intros url Hu. unfold ScraperByLink.extract_coordinates. rewrite Hu. cbn [rbind].
    destruct lat_lon as [[[lat lon]|]|]; cbn [rbind]; try done.
    by destruct (_ && _).
  - intros pre after Hp Ha Hc. unfold ScraperByLink.extract_coordinates.
    destruct (split_at "@" pre after Hp Ha) as [Hs Hh].
    change (pre +:+ "@" +:+ after) with (pre +:+ String "@" after).
    rewrite Hh, Hs. cbn [nth_error rbind]. rewrite split_length, Hc. cbn [rbind].
    destruct (float (nth 0 _ _)) as [lat|]; cbn [rbind]; [|done].
    by destruct (float (nth 1 _ _)) as [lon|].
Qed.

Lemma extract_coordinates_sources_witness :
  ScraperByLink.extract_coordinates float_rejects
    ("https://www.google.com/maps/place/Cafe+Uno/" +:+ "@" +:+ "25.5,-80.25,17z")
    (Ok (Some (25.5%float, (-80.25)%float)))
  = match float_rejects (nth 0 (Str.split "," "25.5,-80.25,17z") EmptyString),
          float_rejects (nth 1 (Str.split "," "25.5,-80.25,17z") EmptyString) with
    | Ok lat, Ok lon => (Some lat, Some lon)
    | _, _ => (None, None)
    end.
Proof.
  destruct (extract_coordinates_sources float_rejects
              (Ok (Some (25.5%float, (-80.25)%float)))) as (_ & _ & H).
  apply H; vm_compute; reflexivity.
Defined.

Example coordinates_of_sample_url :
  ScraperByLink.extract_coordinates float_sample sample_place_url (Ok None)
    = (Some 25.5%float, Some (-80.25)%float)
  /\ ScraperByLink.extract_coordinates float_rejects sample_place_url
       (Ok (Some (25.5%float, (-80.25)%float)))
     = (None, None)
  /\ ScraperByLink.extract_coordinates float_sample "https://www.google.com/maps/place/X"
       (Ok (Some (0%float, (-80.25)%float)))
     = (None, None).
Proof. vm_compute. done. Qed.

(** ** The e-mail filter *)

Lemma exclude_patterns_extended :
  exists more, ScraperByLink.exclude_patterns = Scraper.exclude_patterns ++ more.
Proof. by eexists. Qed.

(** X25.  The e-mail filter of the link scraper is the stricter one: every address
    it keeps in a text is kept by the filter of the keyword scraper, and
    every address either of them keeps is one the pattern has found in the
    text. *)
Theorem link_email_filter_stricter (findall : string -> list string) (text : string) :
  ScraperByLink.extract_emails_from_text findall text
    ⊆ Scraper.extract_emails_from_text findall text
  /\ forall email, email ∈ Scraper.extract_emails_from_text findall text ->
                   In email (findall text).
Proof.
  unfold ScraperByLink.extract_emails_from_text, Scraper.extract_emails_from_text.
  destruct (Str.is_empty text); [split; [done|]; intros e He; by apply not_elem_of_empty in He|].
  split.
  - intros e. rewrite !elem_of_list_to_set, !list_elem_of_In, !filter_In.
    intros [Hin Hk]. split; [done|]. cbn zeta in *.
    apply andb_true_iff in Hk as [Hk _]. apply negb_true_iff in Hk.
    apply negb_true_iff. destruct exclude_patterns_extended as [more Hm].
    rewrite Hm, existsb_app in Hk. by apply orb_false_iff in Hk as [Hk _].
  - intros e. rewrite elem_of_list_to_set, list_elem_of_In, filter_In. by intros [Hin _].
Qed.

Example email_filter_differs :
  let findall := fun _ : string => ["contest@bakery.org"; "Anna@bakery.org"] in
  Scraper.extract_emails_from_text findall "mail us"
    = {[ "contest@bakery.org"; "Anna@bakery.org" ]}
  /\ ScraperByLink.extract_emails_from_text findall "mail us" = {[ "Anna@bakery.org" ]}.
Proof. split; apply set_eq; intros x; vm_compute; tauto. Qed.

(** ** The files of a whole run *)

Lemma csv_rows_app (a b : list Line) : csv_rows (a ++ b) = csv_rows a ++ csv_rows b.
Proof. unfold csv_rows. induction a as [|[] a IH]; csimpl; by rewrite ?IH. Qed.

Section RunFilesFacts.
Context {libs : Libraries}.
Import ScraperByLink.

#[local] Instance files_mirror_refl : Reflexive files_mirror.
Proof.
  intros s. split; [done|]. exists []. cbn [map]. by rewrite !app_nil_r.
Qed.

Lemma files_mirror_names (a b : LinkScraper) :
  base_filename (saver (ledger b)) = base_filename (saver (ledger a)) ->
  csv_filename (saver (ledger b)) = csv_filename (saver (ledger a))
  /\ jsonl_filename (saver (ledger b)) = jsonl_filename (saver (ledger a))
  /\ failed_filename (saver (ledger b)) = failed_filename (saver (ledger a)).
Proof.
  intros H. unfold csv_filename, jsonl_filename, failed_filename. by rewrite H.
Qed.

#[local] Instance files_mirror_trans : Transitive files_mirror.
Proof.
  intros a b c (A0 & e1 & A1 & A2 & A3 & A4) (B0 & e2 & B1 & B2 & B3 & B4).
  cbn zeta in *. destruct (files_mirror_names a b A0) as (Nc & Nj & Nf).
  rewrite Nc, Nj, Nf in *.
  split; [congruence|]. exists (e1 ++ e2). split_and!.
  - by rewrite B1, A1, app_assoc.
  - by rewrite B2, A2, map_app, app_assoc.
  - by rewrite B3, A3, map_app, app_assoc.
  - lia.
Qed.

Lemma files_mirror_same (a b : LinkScraper) :
  ledger b = ledger a -> progress b = progress a ->
  scraped_places b = scraped_places a -> files_mirror a b.
Proof.
  intros Hl Hp Hs. unfold files_mirror. rewrite Hl, Hp, Hs. apply files_mirror_refl.
Qed.

Lemma files_mirror_step (sess : Session) (a b : LinkScraper) :
  (forall t, csv_ok (file_io sess t) = true /\ jsonl_ok (file_io sess t) = true
             /\ failed_io sess t = true) ->
  link_step sess a b -> files_mirror a b.
Proof.
  intros Hok [H|[H|H]].
  - destruct H as (_ & _ & _ & _ & Hl & Hp & Hs & _). by apply files_mirror_same.
  - apply accept_step_effect in H as (p & _ & _ & Hs & Hl & Hp & _).
    destruct (Hok (tick a)) as (Hc & Hj & _).
    destruct (save_place_effect (file_io sess (tick a)) (to_dict p) (ledger a))
      as (E0 & _ & E1 & E2 & E3).
    unfold files_mirror. rewrite Hl, Hp. split; [done|]. exists [p]. split_and!.
    + done.
    + rewrite E1, csv_rows_app. unfold csv_written. rewrite Hc.
      by destruct (path_exists _ _).
    + rewrite E2. unfold jsonl_written. by rewrite Hj.
    + unfold lines_of at 1. by rewrite E3.
  - destruct H as (link & msg & ->).
    destruct (Hok (tick a)) as (_ & _ & Hf).
    destruct (save_failed_url_effect (failed_io sess (tick a)) link msg (ledger a))
      as (E0 & E1 & E2).
    destruct (filenames_distinct (saver (ledger a))) as (_ & _ & Hcf & _ & Hjf & _).
    unfold files_mirror, place_failed.
    cbn [ledger progress scraped_places set_ledger set_progress step failed
         increment_failed].
    split; [by rewrite E0|]. exists []. rewrite app_nil_r. split_and!.
    + done.
    + unfold lines_of at 1. rewrite E2 by done. by rewrite app_nil_r.
    + unfold lines_of at 1. rewrite E2 by done. by rewrite app_nil_r.
    + rewrite E1, Hf, length_app. cbn [length]. lia.
Qed.

Lemma scrape_with_retry_files (w : World) (max_retries : Z) (s : LinkScraper) :
  writes_succeed w -> files_mirror s (scrape_with_retry w max_retries s).2.
Proof.
  intros Hw. unfold scrape_with_retry. apply (session_loop_preserves (files_mirror s)).
  - intros n proxy a b Hab Ha. etrans; [exact Ha|].
    eapply files_mirror_step; [|exact Hab]. intros t. apply Hw.
  - intros a b (_ & _ & _ & Hl & Hp & Hs & _) Ha. etrans; [exact Ha|].
    by apply files_mirror_same.
  - reflexivity.
Qed.

End RunFilesFacts.

(** X26.  The files of a run.  If no write to the two streams or to the failure
    log fails, a link-mode run leaves in the CSV stream one more row, and in
    the JSONL stream one more line, for each record it newly returns, in the
    order of the returned list and with nothing else added; and the failure
    log has gained exactly as many lines as the [failed] counter has
    grown. *)
Theorem files_mirror_run {libs : Libraries} (w : World) (max_retries : Z)
    (s : ScraperByLink.LinkScraper) :
  writes_succeed w ->
  let r := ScraperByLink.scrape_with_retry w max_retries s in
  let l0 := ScraperByLink.ledger s in
  let l := ScraperByLink.ledger r.2 in
  exists extra,
    r.1 = ScraperByLink.scraped_places s ++ extra
    /\ csv_rows (lines_of (csv_filename (saver l0)) l)
       = csv_rows (lines_of (csv_filename (saver l0)) l0) ++ map to_dict extra
    /\ lines_of (jsonl_filename (saver l0)) l
       = lines_of (jsonl_filename (saver l0)) l0
         ++ map (fun p => JsonLine (to_dict p)) extra
    /\ Z.of_nat (length (lines_of (failed_filename (saver l0)) l))
       = Z.of_nat (length (lines_of (failed_filename (saver l0)) l0))
         + (failed (ScraperByLink.progress r.2) - failed (ScraperByLink.progress s)).
Proof.
  intros Hw r l0 l. subst r l0 l. rewrite scrape_with_retry_result.
  destruct (scrape_with_retry_files w max_retries s Hw) as (_ & extra & H1 & H2 & H3 & H4).
  exists extra. split_and!; [done..|]. cbn zeta in H4. lia.
Qed.

Lemma files_mirror_run_witness :
  let r := @ScraperByLink.scrape_with_retry libs_11m late_captcha_world 3
             sample_link_scraper in
  let l0 := ScraperByLink.ledger sample_link_scraper in
  let l := ScraperByLink.ledger r.2 in
  exists extra,
    r.1 = ScraperByLink.scraped_places sample_link_scraper ++ extra
    /\ csv_rows (lines_of (csv_filename (saver l0)) l)
       = csv_rows (lines_of (csv_filename (saver l0)) l0) ++ map to_dict extra
    /\ lines_of (jsonl_filename (saver l0)) l
       = lines_of (jsonl_filename (saver l0)) l0
         ++ map (fun p => JsonLine (to_dict p)) extra
    /\ Z.of_nat (length (lines_of (failed_filename (saver l0)) l))
       = Z.of_nat (length (lines_of (failed_filename (saver l0)) l0))
         + (failed (ScraperByLink.progress r.2)
            - failed (ScraperByLink.progress sample_link_scraper)).
Proof.
  apply (@files_mirror_run libs_11m late_captcha_world 3 sample_link_scraper).
  intros n proxy t. vm_compute. by split_and!.
Defined.

(** ** The outer retry loop and the records of failed sessions *)

(** C7. With [max_retries >= 0]: if every session attempt of a run fails,
    that is, leaves the body of the outer [try] by an exception,
    [scrape_with_retry] returns after exactly [max_retries] session attempts;
    what it returns is the list of accepted records: the list it started
    with followed by the records the sessions accepted before they failed
    (none, in keyword mode).  In link mode these are as many records as the
    [success] counter has grown by, each has its URL in the processed set,
    and, when no write fails, they are the records of the lines the JSONL
    stream has gained, in that order: no record of a failed session is
    dropped.  In a world where every page that loads is classified as
    blocked, every attempt does fail, and the list returned is the one the
    run started with.  Last, a run of three attempts in which the first
    session accepts the first result and is blocked at the second, and the
    later sessions are blocked at once: all three attempts fail, and the
    record of the first result is returned. *)
Theorem bounded_outer_retry {libs : Libraries} (w : World) (max_retries : Z) :
  0 <= max_retries ->
  (forall s,
     let r := ScraperByLink.scrape_with_retry w max_retries s in
     every_attempt_failed (ScraperByLink.trace s) (ScraperByLink.trace r.2) ->
     Z.of_nat (session_count (ScraperByLink.trace r.2))
       = Z.of_nat (session_count (ScraperByLink.trace s)) + max_retries
     /\ r.1 = ScraperByLink.scraped_places r.2
     /\ exists extra,
          r.1 = ScraperByLink.scraped_places s ++ extra
          /\ success (ScraperByLink.progress r.2)
             = success (ScraperByLink.progress s) + Z.of_nat (length extra)
          /\ (forall p, In p extra ->
                processed (google_maps_url p) (ScraperByLink.ledger r.2))
          /\ (writes_succeed w ->
              lines_of (jsonl_filename (saver (ScraperByLink.ledger s)))
                (ScraperByLink.ledger r.2)
              = lines_of (jsonl_filename (saver (ScraperByLink.ledger s)))
                  (ScraperByLink.ledger s)
                ++ map (fun p => JsonLine (to_dict p)) extra))
  /\ (forall s,
        always_blocked w ->
        let r := ScraperByLink.scrape_with_retry w max_retries s in
        every_attempt_failed (ScraperByLink.trace s) (ScraperByLink.trace r.2)
        /\ Z.of_nat (session_count (ScraperByLink.trace r.2))
            = Z.of_nat (session_count (ScraperByLink.trace s)) + max_retries
        /\ r.1 = ScraperByLink.scraped_places s)
  /\ (forall s,
        let r := Scraper.scrape_with_retry w max_retries s in
        every_attempt_failed (Scraper.trace s) (Scraper.trace r.2) ->
        Z.of_nat (session_count (Scraper.trace r.2))
          = Z.of_nat (session_count (Scraper.trace s)) + max_retries
        /\ r.1 = Scraper.scraped_places r.2
        /\ r.1 = Scraper.scraped_places s)
  /\ (forall s,
        always_blocked w ->
        let r := Scraper.scrape_with_retry w max_retries s in
        every_attempt_failed (Scraper.trace s) (Scraper.trace r.2)
        /\ Z.of_nat (session_count (Scraper.trace r.2))
            = Z.of_nat (session_count (Scraper.trace s)) + max_retries
        /\ r.1 = Scraper.scraped_places s)
  /\ (let r := @ScraperByLink.scrape_with_retry libs_11m fading_world 3
                 sample_link_scraper in
      session_count (ScraperByLink.trace r.2) = 3%nat
      /\ failure_count (ScraperByLink.trace r.2) = 3%nat
      /\ gotos (ScraperByLink.trace r.2)
         = [search_url +:+ "?hl=en"; link_a; link_b;
            search_url +:+ "?hl=en"; search_url +:+ "?hl=en"]
      /\ r.1 = [fading_record]).
Proof.
  intros Hmax. unfold every_attempt_failed. split_and!.
  - intros s.
    pose proof (scrape_with_retry_result w max_retries s) as Hres.
    pose proof (scrape_with_retry_books w max_retries s)
      as ((extra & H1 & H2 & H3) & _).
    pose proof (scrape_with_retry_files w max_retries s) as Hfiles.
    revert Hres H1 H2 H3 Hfiles. unfold ScraperByLink.scrape_with_retry.
    destruct (link_session_loop_counts w max_retries
                (load_resume_state (resume_readable w)
                   (saver (ScraperByLink.ledger s)) (disk (ScraperByLink.ledger s)))
                (Z.to_nat max_retries) 0 s)
      as (k & f & Hc & Hf & Hle & Hall & Hr & He).
    intros Hres H1 H2 H3 Hfiles Hev. split_and!; [|done|].
    { rewrite Hc, Hf in Hev. specialize (Hall ltac:(lia)). lia. }
    exists extra. split_and!; [by rewrite Hres|done..|].
    intros Hw. destruct (Hfiles Hw) as (_ & extra' & F1 & _ & F3 & _).
    rewrite H1 in F1. apply app_inv_head in F1 as <-. exact F3.
  - intros s Hb. unfold ScraperByLink.scrape_with_retry.
    destruct (link_session_loop_blocked w max_retries
                (load_resume_state (resume_readable w)
                   (saver (ScraperByLink.ledger s)) (disk (ScraperByLink.ledger s)))
                (Z.to_nat max_retries) 0 s Hb) as (Hc & Hf & Hr).
    split_and!; [lia..|done].
  - intros s. unfold Scraper.scrape_with_retry.
    destruct (keyword_session_loop_counts w max_retries (Z.to_nat max_retries) 0 s)
      as (k & f & Hc & Hf & Hle & Hall & Hr & He).
    intros Hev. split_and!; [|done..].
    rewrite Hc, Hf in Hev. specialize (Hall ltac:(lia)). lia.
  - intros s Hb. unfold Scraper.scrape_with_retry.
    destruct (keyword_session_loop_blocked w max_retries (Z.to_nat max_retries) 0 s Hb)
      as (Hc & Hf).
    split_and!; [lia..|]. apply keyword_session_loop_result.
  - vm_compute. reflexivity.
  - vm_compute. reflexivity.
  - vm_compute. reflexivity.
  - vm_compute. reflexivity.
Qed.

Lemma bounded_outer_retry_witness :
  let rl := @ScraperByLink.scrape_with_retry libs_11m fading_world 3 sample_link_scraper in
  let rk := @Scraper.scrape_with_retry libs_11m blocked_world 3 sample_keyword_scraper in
  (Z.of_nat (session_count (ScraperByLink.trace rl.2))
     = Z.of_nat (session_count (ScraperByLink.trace sample_link_scraper)) + 3
   /\ rl.1 = ScraperByLink.scraped_places rl.2
   /\ exists extra,
        rl.1 = ScraperByLink.scraped_places sample_link_scraper ++ extra
        /\ success (ScraperByLink.progress rl.2)
           = success (ScraperByLink.progress sample_link_scraper)
             + Z.of_nat (length extra)
        /\ (forall p, In p extra ->
              processed (google_maps_url p) (ScraperByLink.ledger rl.2))
        /\ (writes_succeed fading_world ->
            lines_of (jsonl_filename (saver (ScraperByLink.ledger sample_link_scraper)))
              (ScraperByLink.ledger rl.2)
            = lines_of (jsonl_filename (saver (ScraperByLink.ledger sample_link_scraper)))
                (ScraperByLink.ledger sample_link_scraper)
              ++ map (fun p => JsonLine (to_dict p)) extra))
  /\ rl.1 = [fading_record]
  /\ (Z.of_nat (session_count (Scraper.trace rk.2))
        = Z.of_nat (session_count (Scraper.trace sample_keyword_scraper)) + 3
      /\ rk.1 = Scraper.scraped_places rk.2
      /\ rk.1 = Scraper.scraped_places sample_keyword_scraper).
Proof.
  destruct (@bounded_outer_retry libs_11m fading_world 3 ltac:(lia))
    as (HL & _ & _ & _ & (_ & _ & _ & HR)).
  destruct (@bounded_outer_retry libs_11m blocked_world 3 ltac:(lia)) as (_ & _ & HK & _).
  split; [|split].
  - apply (HL sample_link_scraper). vm_compute. reflexivity.
  - exact HR.
  - apply (HK sample_keyword_scraper). vm_compute. reflexivity.
Defined.
